(** * Hidden Gems: the place resolution pipeline

    A shallow embedding of the handlers of the [App] component
    (local match, AI search, directory geocoding, generic fallback,
    suggestion selection, viewport area discovery, toggle-visited) and of
    the geocoding helpers of [AddLocationModal], with the properties the
    specification states about them.

    Conventions.
    - A JavaScript [number] is an IEEE 754 binary64 value: Rocq's primitive
      [float].
    - A JavaScript string is a sequence of code units; the model uses
      [string] (code units 0..255, that is Latin-1).
    - An optional field is an [option]; [None] stands for an absent field
      ([undefined]) and, where the code only tests the field for presence,
      for [null] as well.
    - Remote bodies are typed after the interfaces and schemas the source
      declares for them. Where a handler's control flow depends on a field
      being absent, [null] or of another JSON type, the model says so at the
      type of that body; a value of another type that a handler would only
      copy into a record of types.ts is outside the model.
    - A handler is a computation in the monad [M]: it reads and writes the
      component state, appends to a chronological trace of observable events
      (remote calls, alerts, console output) and may throw. *)

From Stdlib Require Import Bool List Arith NArith ZArith Lia Permutation.
From Stdlib Require Import Ascii String DecimalString.
From Stdlib Require Import Floats.
Import ListNotations.

Open Scope list_scope.
Open Scope string_scope.

#[local] Set Warnings "-inexact-float".

(* ================================================================== *)
(** ** Host builtins on strings and numbers *)
(* ================================================================== *)

Module Js.

(** [String.prototype.toLowerCase] on Latin-1 code units: A-Z and the
    accented capitals 192..222 (except the multiplication sign 215). *)
Definition isUpper (c : ascii) : bool :=
  let n := N_of_ascii c in
  ((65 <=? n) && (n <=? 90) || (192 <=? n) && (n <=? 222) && negb (n =? 215))%N.

Definition lowerChar (c : ascii) : ascii :=
  if isUpper c then ascii_of_N (N_of_ascii c + 32) else c.

Fixpoint toLowerCase (s : string) : string :=
  match s with
  | EmptyString => EmptyString
  | String c r => String (lowerChar c) (toLowerCase r)
  end.

(** [String.prototype.startsWith] and [String.prototype.includes]. *)
Fixpoint startsWith (s p : string) {struct p} : bool :=
  match p, s with
  | EmptyString, _ => true
  | String _ _, EmptyString => false
  | String a p', String b s' => Ascii.eqb a b && startsWith s' p'
  end.

Fixpoint includes (s sub : string) : bool :=
  startsWith s sub ||
  match s with
  | EmptyString => false
  | String _ r => includes r sub
  end.

(** [String.prototype.trim]: white space is TAB, LF, VT, FF, CR, SPACE and
    NBSP among the code units below 256. *)
Definition isWhiteSpace (c : ascii) : bool :=
  let n := N_of_ascii c in
  ((9 <=? n) && (n <=? 13) || (n =? 32) || (n =? 160))%N.

Fixpoint trimStart (s : string) : string :=
  match s with
  | EmptyString => EmptyString
  | String c r => if isWhiteSpace c then trimStart r else s
  end.

Definition reverse (s : string) : string :=
  string_of_list_ascii (rev (list_ascii_of_string s)).

Definition trim (s : string) : string :=
  reverse (trimStart (reverse (trimStart s))).

(** [s.split(sep)[0]]: the code units before the first separator. *)
Fixpoint splitFirst (sep : ascii) (s : string) : string :=
  match s with
  | EmptyString => EmptyString
  | String c r => if Ascii.eqb c sep then EmptyString else String c (splitFirst sep r)
  end.

(** The regular expression [/\d{6}/]: [\d] is one of 0..9. [matchDigits6 s]
    is [s.match(/\d{6}/)] reduced to its element 0: the leftmost six
    consecutive digits, or [None] when [match] returns [null]. *)
Definition isDigit (c : ascii) : bool :=
  let n := N_of_ascii c in ((48 <=? n) && (n <=? 57))%N.

Fixpoint takeDigits (k : nat) (s : string) : option string :=
  match k with
  | O => Some EmptyString
  | S k' =>
      match s with
      | EmptyString => None
      | String c r =>
          if isDigit c then option_map (String c) (takeDigits k' r) else None
      end
  end.

Fixpoint matchDigits6 (s : string) : option string :=
  match takeDigits 6 s with
  | Some t => Some t
  | None =>
      match s with
      | EmptyString => None
      | String _ r => matchDigits6 r
      end
  end.

(** Truthiness ([ToBoolean]) of a string, of a number, and of optional
    values of either kind. *)
Definition truthyStr (s : string) : bool := negb (String.eqb s EmptyString).

Definition truthyNum (x : float) : bool :=
  negb (PrimFloat.is_nan x) && negb (PrimFloat.is_zero x).

Definition truthyOpt {A} (t : A -> bool) (o : option A) : bool :=
  match o with
  | Some a => t a
  | None => false
  end.

(** [a || b] where [a] is an optional string and [b] a string. *)
Definition orStr (a : option string) (b : string) : string :=
  match a with
  | Some s => if truthyStr s then s else b
  | None => b
  end.

(** [a || b] where both are optional strings: the first truthy operand,
    otherwise the last one. *)
Definition orOpt (a b : option string) : option string :=
  if truthyOpt truthyStr a then a else b.

(** [ToString] of an optional string, as string concatenation and template
    literals apply it. *)
Definition toStr (a : option string) : string :=
  match a with
  | Some s => s
  | None => "undefined"
  end.

(** A field of a parsed JSON body that its schema declares a string:
    absent ([undefined]), [null], or a string. *)
Inductive Text :=
| Undefined
| Null
| Str (s : string).

Definition truthyText (t : Text) : bool :=
  match t with
  | Str s => truthyStr s
  | _ => false
  end.

(** [t || b] where [b] is a string. *)
Definition orText (t : Text) (b : string) : string :=
  match t with
  | Str s => if truthyStr s then s else b
  | _ => b
  end.

(** [ToString] of such a field, as string concatenation and template
    literals apply it. *)
Definition textStr (t : Text) : string :=
  match t with
  | Undefined => "undefined"
  | Null => "null"
  | Str s => s
  end.

(** The field copied into an optional string field of a record. *)
Definition textOpt (t : Text) : option string :=
  match t with
  | Str s => Some s
  | _ => None
  end.

(** [ToString] of a non-negative integer number. *)
Definition natStr (n : N) : string := NilEmpty.string_of_uint (N.to_uint n).

(** [Number.isFinite] and the coordinate ranges of the data model. *)
Definition isFinite (x : float) : bool := PrimFloat.is_finite x.

Definition between (lo hi x : float) : bool :=
  PrimFloat.leb lo x && PrimFloat.leb x hi.

End Js.

(* ================================================================== *)
(** ** types.ts *)
(* ================================================================== *)

Inductive Category := HiddenGem | TouristTrap.

Inductive PlaceType := Restaurant | Bar | Cafe | Activity | Other.

Record Coordinate := mkCoordinate { lat : float; lng : float }.

Record Location := mkLocation {
  id : string;
  name : string;
  coordinate : Coordinate;
  description : string;
  category : Category;
  placeType : PlaceType;
  image : string;
  address : option string;
  visited : option bool;
  rating : option float
}.

(** The data model's coordinate invariant: both fields finite, latitude in
    [-90,90] and longitude in [-180,180]. *)
Definition validCoordinate (c : Coordinate) : bool :=
  Js.isFinite (lat c) && Js.isFinite (lng c) &&
  Js.between (-90)%float 90%float (lat c) &&
  Js.between (-180)%float 180%float (lng c).

(** [{ ...loc, visited: v }] *)
Definition withVisited (v : option bool) (loc : Location) : Location :=
  {| id := id loc; name := name loc; coordinate := coordinate loc;
     description := description loc; category := category loc;
     placeType := placeType loc; image := image loc;
     address := address loc; visited := v; rating := rating loc |}.

(* ================================================================== *)
(** ** Remote collaborators: what each one sends back *)
(* ================================================================== *)

(** The directory service (Nominatim). [SearchSuggestion] is the interface
    exported by SearchBar.tsx; [address] is the [addressdetails] breakdown. *)
Module Nominatim.

Record Address := mkAddress {
  amenity : option string;
  building : option string;
  shop : option string;
  tourism : option string;
  road : option string
}.

Record SearchSuggestion := mkSuggestion {
  place_id : N;
  lat : string;
  lon : string;
  display_name : string;
  name : option string;
  type : option string;
  class : option string;
  address : option Address
}.

(** The body of a reverse lookup. *)
Record Reverse := mkReverse {
  r_name : option string;
  r_address : option Address
}.

End Nominatim.

(** The structured-knowledge service (generative search). [Result] follows
    the [responseSchema] of the request, with every field optional since the
    handler validates none of them: a field the body leaves out is [None],
    and so is a [coordinates] of [null]. A body that parses to a JSON value
    other than an object or [null] has none of the fields. [name] and
    [address] tell [null] from an absent field, which the handler turns into
    different query texts. A [name] of another JSON type would be copied
    into the temporary result as it is, and is outside the model. *)
Module Ai.

Record Coordinates := mkCoordinates {
  lat : option float;
  lng : option float
}.

Record Result := mkResult {
  name : Js.Text;
  address : Js.Text;
  coordinates : option Coordinates;
  description : option string;
  category : option Category;
  placeType : option PlaceType
}.

(** What [generateContent] followed by [JSON.parse(response.text)] meets:
    the call is rejected; the response carries no text (absent or empty);
    the text is not JSON; the text is the JSON literal [null], on which the
    first property access throws; the text parses to an object. An object
    that breaks the schema in its [address] comes apart from the others:
    [AddressNotText] is an object whose coordinates do not pass the test of
    step 3 and whose [address] is a JSON value other than a string or [null]
    (a number, a boolean, an array, an object), so that
    [result.address?.match] is not a function and the call throws before the
    directory is asked. With coordinates that pass the test such an address
    is never inspected, only copied into the temporary result, whose
    [address] types.ts declares a string: that body is outside the model. *)
Inductive Reply :=
| Rejected
| NoText
| NotJson (text : string)
| JsonNull
| AddressNotText
| Json (result : Result).

End Ai.

(** The tag-search service (Overpass). *)
Module Overpass.

Record Tags := mkTags {
  name : string;
  amenity : option string;
  tourism : option string
}.

Record Element := mkElement {
  id : N;
  lat : float;
  lon : float;
  tags : Tags
}.

Record Bounds := mkBounds {
  getSouth : float;
  getWest : float;
  getNorth : float;
  getEast : float
}.

(** [fetch] is rejected; the status is not 2xx; the body is not JSON; the
    body is JSON: [null] ([None]), an object without [elements]
    ([Some None]) or an object with them. *)
Inductive Reply :=
| Rejected
| HttpError (status : N)
| NotJson
| Json (data : option (option (list Element))).

End Overpass.

(** The outcome of [fetch(url)] followed by [res.json()] where the status is
    not inspected. *)
Inductive Fetched (A : Type) :=
| FetchRejected
| FetchNotJson
| FetchJson (data : A).
Arguments FetchRejected {A}.
Arguments FetchNotJson {A}.
Arguments FetchJson {A} data.

(** Everything a handler obtains from outside the repository. The directory
    body is an array, or [null] ([None]). *)
Record Env := mkEnv {
  parseFloat : string -> float;
  now : N;
  generateContent : string -> Ai.Reply;
  nominatimSearch : string -> N -> Fetched (option (list Nominatim.SearchSuggestion));
  nominatimReverse : Coordinate -> Fetched (option Nominatim.Reverse);
  overpass : Overpass.Bounds -> Overpass.Reply
}.

(* ================================================================== *)
(** ** Handlers as computations *)
(* ================================================================== *)

(** Observable events, in the order they happen. *)
Inductive Event :=
| CallAI (searchQuery : string)
| CallNominatim (q : string) (limit : N)
| CallReverse (c : Coordinate)
| CallOverpass (b : Overpass.Bounds)
| Alert (msg : string)
| ConsoleLog (msg : string)
| ConsoleError (msg : string).

Inductive Error :=
| NetworkError
| NoAIResponse
| SyntaxError
| TypeError
| OverpassApiError (status : N).

Inductive Outcome (A : Type) :=
| Ret (a : A)
| Exn (e : Error).
Arguments Ret {A} a.
Arguments Exn {A} e.

Definition M (S A : Type) : Type := S -> Outcome A * S * list Event.

Definition ret {S A} (a : A) : M S A := fun s => (Ret a, s, []).

Definition throw {S A} (e : Error) : M S A := fun s => (Exn e, s, []).

Definition bind {S A B} (m : M S A) (k : A -> M S B) : M S B :=
  fun s =>
    match m s with
    | (Ret a, s1, t1) =>
        match k a s1 with
        | (o, s2, t2) => (o, s2, (t1 ++ t2)%list)
        end
    | (Exn e, s1, t1) => (Exn e, s1, t1)
    end.

Declare Scope js_scope.
Delimit Scope js_scope with js.
Notation "x <- m ;; k" := (bind m (fun x => k))
  (at level 61, m at next level, right associativity) : js_scope.
Notation "m ;; k" := (bind m (fun _ => k))
  (at level 61, right associativity) : js_scope.

Definition get {S} : M S S := fun s => (Ret s, s, []).

Definition modify {S} (f : S -> S) : M S unit := fun s => (Ret tt, f s, []).

Definition emit {S} (e : Event) : M S unit := fun s => (Ret tt, s, [e]).

(** [try { body } catch (e) { handler e } finally { final }] *)
Definition tryCatchFinally {S A} (body : M S A) (handler : Error -> M S A)
    (final : M S unit) : M S A :=
  fun s =>
    let '(o1, s1, t1) :=
      match body s with
      | (Ret a, s', t') => (Ret a, s', t')
      | (Exn e, s', t') =>
          match handler e s' with
          | (o, s'', t'') => (o, s'', (t' ++ t'')%list)
          end
      end in
    match final s1 with
    | (Ret _, s2, t2) => (o1, s2, (t1 ++ t2)%list)
    | (Exn e, s2, t2) => (Exn e, s2, (t1 ++ t2)%list)
    end.

(** Projections of a finished run. *)
Definition outcomeOf {S A} (r : Outcome A * S * list Event) : Outcome A := fst (fst r).
Definition stateOf {S A} (r : Outcome A * S * list Event) : S := snd (fst r).
Definition traceOf {S A} (r : Outcome A * S * list Event) : list Event := snd r.

(** The events of a trace that are requests to a remote service, and the
    messages shown to the user. *)
Definition isRemote (e : Event) : bool :=
  match e with
  | CallAI _ | CallNominatim _ _ | CallReverse _ | CallOverpass _ => true
  | _ => false
  end.

Definition remoteCalls (t : list Event) : list Event := filter isRemote t.

Fixpoint alerts (t : list Event) : list string :=
  match t with
  | [] => []
  | Alert m :: r => m :: alerts r
  | _ :: r => alerts r
  end.

Fixpoint consoleErrors (t : list Event) : list string :=
  match t with
  | [] => []
  | ConsoleError m :: r => m :: consoleErrors r
  | _ :: r => consoleErrors r
  end.

Fixpoint consoleLogs (t : list Event) : list string :=
  match t with
  | [] => []
  | ConsoleLog m :: r => m :: consoleLogs r
  | _ :: r => consoleLogs r
  end.

(** A child component runs its own handlers on its own cells and calls the
    parent through the callbacks it was given: [onParent] runs a parent
    computation, [onSelf] a computation on the child's cells, both on the
    pair of the two states. *)
Definition onParent {W S A} (m : M W A) : M (W * S) A :=
  fun ws =>
    match m (fst ws) with
    | (o, w', t) => (o, (w', snd ws), t)
    end.

Definition onSelf {W S A} (m : M S A) : M (W * S) A :=
  fun ws =>
    match m (snd ws) with
    | (o, s', t) => (o, (fst ws, s'), t)
    end.

(** [Omit<Location, 'id'>]: what the add handlers receive. *)
Module OmitId.

Record Location := mkData {
  name : string;
  coordinate : Coordinate;
  description : string;
  category : Category;
  placeType : PlaceType;
  image : string;
  address : option string;
  visited : option bool;
  rating : option float
}.

End OmitId.

(* ================================================================== *)
(** ** The App component (src/unnamed/part_000) *)
(* ================================================================== *)

Module App.

Open Scope js_scope.

(** The [useState] cells the handlers touch. *)
Record State := mkState {
  locations : list Location;
  suggestedLocations : list Location;
  selectedLocationId : option string;
  searchQuery : string;
  searchResult : option Location;
  isSearchingArea : bool;
  isSearching : bool
}.

Definition setLocations (f : list Location -> list Location) : M State unit :=
  modify (fun s =>
    {| locations := f (locations s); suggestedLocations := suggestedLocations s;
       selectedLocationId := selectedLocationId s; searchQuery := searchQuery s;
       searchResult := searchResult s; isSearchingArea := isSearchingArea s;
       isSearching := isSearching s |}).

Definition setSuggestedLocations (v : list Location) : M State unit :=
  modify (fun s =>
    {| locations := locations s; suggestedLocations := v;
       selectedLocationId := selectedLocationId s; searchQuery := searchQuery s;
       searchResult := searchResult s; isSearchingArea := isSearchingArea s;
       isSearching := isSearching s |}).

Definition setSelectedLocationId (v : option string) : M State unit :=
  modify (fun s =>
    {| locations := locations s; suggestedLocations := suggestedLocations s;
       selectedLocationId := v; searchQuery := searchQuery s;
       searchResult := searchResult s; isSearchingArea := isSearchingArea s;
       isSearching := isSearching s |}).

Definition setSearchQuery (v : string) : M State unit :=
  modify (fun s =>
    {| locations := locations s; suggestedLocations := suggestedLocations s;
       selectedLocationId := selectedLocationId s; searchQuery := v;
       searchResult := searchResult s; isSearchingArea := isSearchingArea s;
       isSearching := isSearching s |}).

Definition setSearchResult (v : option Location) : M State unit :=
  modify (fun s =>
    {| locations := locations s; suggestedLocations := suggestedLocations s;
       selectedLocationId := selectedLocationId s; searchQuery := searchQuery s;
       searchResult := v; isSearchingArea := isSearchingArea s;
       isSearching := isSearching s |}).

Definition setIsSearchingArea (v : bool) : M State unit :=
  modify (fun s =>
    {| locations := locations s; suggestedLocations := suggestedLocations s;
       selectedLocationId := selectedLocationId s; searchQuery := searchQuery s;
       searchResult := searchResult s; isSearchingArea := v;
       isSearching := isSearching s |}).

Definition setIsSearching (v : bool) : M State unit :=
  modify (fun s =>
    {| locations := locations s; suggestedLocations := suggestedLocations s;
       selectedLocationId := selectedLocationId s; searchQuery := searchQuery s;
       searchResult := searchResult s; isSearchingArea := isSearchingArea s;
       isSearching := v |}).

(** [!loc.visited]: an absent [visited] is falsy. *)
Definition notVisited (loc : Location) : bool :=
  negb (Js.truthyOpt (fun b => b) (visited loc)).

(** [prev.map(loc => loc.id === id ? { ...loc, visited: !loc.visited } : loc)] *)
Definition toggleVisited (i : string) (prev : list Location) : list Location :=
  map (fun loc =>
         if String.eqb (id loc) i
         then withVisited (Some (notVisited loc)) loc
         else loc) prev.

Definition handleToggleVisited (i : string) : M State unit :=
  setLocations (toggleVisited i).

(** The location shown in the card: the first saved location with the
    selected id, else the first suggested one, else the temporary search
    result when its id is selected. *)
Definition selectedLocation (s : State) : option Location :=
  match selectedLocationId s with
  | None => None
  | Some i =>
      match find (fun l => String.eqb (id l) i) (locations s) with
      | Some l => Some l
      | None =>
          match find (fun l => String.eqb (id l) i) (suggestedLocations s) with
          | Some l => Some l
          | None => if String.eqb i "temp-search-result" then searchResult s else None
          end
      end
  end.

(** *** handleSuggestionSelect *)

Definition suggestionName (suggestion : Nominatim.SearchSuggestion) : string :=
  let name := Js.splitFirst "," (Nominatim.display_name suggestion) in
  match Nominatim.address suggestion with
  | Some a =>
      Js.orStr (Js.orOpt (Nominatim.amenity a)
                 (Js.orOpt (Nominatim.building a)
                   (Js.orOpt (Nominatim.shop a) (Nominatim.tourism a)))) name
  | None => name
  end.

Definition isStr (o : option string) (s : string) : bool :=
  match o with
  | Some t => String.eqb t s
  | None => false
  end.

Definition suggestionType (suggestion : Nominatim.SearchSuggestion) : PlaceType :=
  if isStr (Nominatim.type suggestion) "restaurant" then Restaurant
  else if isStr (Nominatim.type suggestion) "cafe" then Cafe
  else if isStr (Nominatim.type suggestion) "bar" || isStr (Nominatim.type suggestion) "pub" then Bar
  else if isStr (Nominatim.class suggestion) "tourism" then Activity
  else Other.

Definition picsum (seed : string) : string :=
  "https://picsum.photos/seed/" ++ seed ++ "/600/400".

Section WithEnv.

Variable env : Env.

Definition suggestionLocation (suggestion : Nominatim.SearchSuggestion) : Location :=
  {| id := "temp-search-result";
     name := suggestionName suggestion;
     coordinate := {| lat := parseFloat env (Nominatim.lat suggestion);
                      lng := parseFloat env (Nominatim.lon suggestion) |};
     description := "Found at: " ++ Nominatim.display_name suggestion;
     category := HiddenGem;
     placeType := suggestionType suggestion;
     image := picsum (Js.natStr (Nominatim.place_id suggestion));
     address := Some (Nominatim.display_name suggestion);
     visited := Some false;
     rating := None |}.

Definition handleSuggestionSelect (suggestion : Nominatim.SearchSuggestion) : M State unit :=
  let newTempLocation := suggestionLocation suggestion in
  setSearchResult (Some newTempLocation);;
  setSelectedLocationId (Some (id newTempLocation));;
  setSearchQuery (name newTempLocation).

(** *** handleGlobalSearch *)

(** [locations.find(l => l.name.toLowerCase().includes(searchQuery.toLowerCase()))] *)
Definition localMatch (q : string) (locs : list Location) : option Location :=
  find (fun l => Js.includes (Js.toLowerCase (name l)) (Js.toLowerCase q)) locs.

(** [await ai.models.generateContent(..)], [response.text], [JSON.parse].
    The two bodies on which a later line throws a [TypeError] (the read of
    [result.coordinates] on [null], the call of [result.address?.match] on
    an address that is not a string) throw here: no effect lies between the
    parse and either line. *)
Definition askAI (q : string) : M State Ai.Result :=
  emit (CallAI q);;
  match generateContent env q with
  | Ai.Rejected => throw NetworkError
  | Ai.NoText => throw NoAIResponse
  | Ai.NotJson _ => throw SyntaxError
  | Ai.JsonNull => throw TypeError
  | Ai.AddressNotText => throw TypeError
  | Ai.Json result => ret result
  end.

(** [await fetch(".../search?format=json&q=..&limit=..")] and [res.json()]. *)
Definition searchNominatim (q : string) (limit : N)
  : M State (option (list Nominatim.SearchSuggestion)) :=
  emit (CallNominatim q limit);;
  match nominatimSearch env q limit with
  | FetchRejected => throw NetworkError
  | FetchNotJson => throw SyntaxError
  | FetchJson data => ret data
  end.

(** [result.address?.match(/\d{6}/)] *)
Definition postalMatch (addr : Js.Text) : option string :=
  match addr with
  | Js.Str a => Js.matchDigits6 a
  | _ => None
  end.

(** The query of the geocoding step: the postal code when the address has
    one, else [result.address || result.name + " Singapore"]. *)
Definition geocodeQuery (result : Ai.Result) : string :=
  match postalMatch (Ai.address result) with
  | Some code => code ++ " Singapore"
  | None => Js.orText (Ai.address result) (Js.textStr (Ai.name result) ++ " Singapore")
  end.

Definition resultLat (result : Ai.Result) : option float :=
  match Ai.coordinates result with
  | Some c => Ai.lat c
  | None => None
  end.

Definition resultLng (result : Ai.Result) : option float :=
  match Ai.coordinates result with
  | Some c => Ai.lng c
  | None => None
  end.

(** [!finalLat || !finalLng] *)
Definition missing (finalLat finalLng : option float) : bool :=
  negb (Js.truthyOpt Js.truthyNum finalLat) || negb (Js.truthyOpt Js.truthyNum finalLng).

(** [finalLat && finalLng], with the two numbers when it holds. *)
Definition usable (finalLat finalLng : option float) : option (float * float) :=
  match finalLat, finalLng with
  | Some la, Some ln =>
      if Js.truthyNum la && Js.truthyNum ln then Some (la, ln) else None
  | _, _ => None
  end.

(** Step 3 of the handler, "Validation / Fallback Geocoding". *)
Definition fallbackGeocoding (result : Ai.Result) : M State (option float * option float) :=
  let finalLat := resultLat result in
  let finalLng := resultLng result in
  if missing finalLat finalLng then
    let query := geocodeQuery result in
    match postalMatch (Ai.address result) with
    | Some _ => emit (ConsoleLog ("Geocoding using postal code: " ++ query))
    | None => emit (ConsoleLog ("Geocoding using full address: " ++ query))
    end;;
    geoData <- searchNominatim query 1;;
    match geoData with
    | Some (g :: _) =>
        ret (Some (parseFloat env (Nominatim.lat g)),
             Some (parseFloat env (Nominatim.lon g)))
    | _ => ret (finalLat, finalLng)
    end
  else ret (finalLat, finalLng).

Definition aiLocation (q : string) (result : Ai.Result) (la ln : float) : Location :=
  {| id := "temp-search-result";
     name := Js.orText (Ai.name result) q;
     coordinate := {| lat := la; lng := ln |};
     description := Js.orStr (Ai.description result)
                      ("Found at " ++ Js.textStr (Ai.address result));
     category := match Ai.category result with Some c => c | None => HiddenGem end;
     placeType := match Ai.placeType result with Some t => t | None => Other end;
     image := picsum (Js.natStr (now env));
     address := Js.textOpt (Ai.address result);
     visited := Some false;
     rating := None |}.

Definition fallbackLocation (q : string) (best : Nominatim.SearchSuggestion) : Location :=
  {| id := "temp-search-result";
     name := Js.orStr (Nominatim.name best) q;
     coordinate := {| lat := parseFloat env (Nominatim.lat best);
                      lng := parseFloat env (Nominatim.lon best) |};
     description := "Found: " ++ Nominatim.display_name best;
     category := HiddenGem;
     placeType := Other;
     image := picsum (Js.natStr (now env));
     address := None;
     visited := Some false;
     rating := None |}.

(** The double-quote character of the alert text. *)
Definition dquote : ascii := Eval cbv in ascii_of_N 34.

Definition notFoundMessage (q : string) : string :=
  "Could not find a specific location for " ++ String dquote (q ++ String dquote ".").

(** The [else] branch: the generic query on the raw search text. *)
Definition genericFallback (q : string) : M State unit :=
  fallbackData <- searchNominatim (q ++ " Singapore") 1;;
  match fallbackData with
  | Some (best :: _) =>
      let newTempLocation := fallbackLocation q best in
      setSearchResult (Some newTempLocation);;
      setSelectedLocationId (Some (id newTempLocation))
  | _ => emit (Alert (notFoundMessage q))
  end.

(** The body of the [try] block. *)
Definition remoteSearch (q : string) : M State unit :=
  result <- askAI q;;
  final <- fallbackGeocoding result;;
  match usable (fst final) (snd final) with
  | Some (la, ln) =>
      let newTempLocation := aiLocation q result la ln in
      setSearchResult (Some newTempLocation);;
      setSelectedLocationId (Some (id newTempLocation))
  | None => genericFallback q
  end.

Definition handleGlobalSearch : M State unit :=
  s <- get;;
  let q := searchQuery s in
  if negb (Js.truthyStr (Js.trim q)) then ret tt
  else
    setIsSearching true;;
    match localMatch q (locations s) with
    | Some l =>
        setSelectedLocationId (Some (id l));;
        setSearchResult None;;
        setIsSearching false
    | None =>
        tryCatchFinally
          (remoteSearch q)
          (fun _ =>
             emit (ConsoleError "Global search error");;
             emit (Alert "Search failed. Please try again."))
          (setIsSearching false)
    end.

(** *** handleSearchArea *)

Definition elementType (el : Overpass.Element) : PlaceType :=
  let amenity := Overpass.amenity (Overpass.tags el) in
  let tourism := Overpass.tourism (Overpass.tags el) in
  if isStr amenity "restaurant" then Restaurant
  else if isStr amenity "cafe" then Cafe
  else if isStr amenity "bar" || isStr amenity "pub" then Bar
  else if isStr tourism "attraction" || isStr tourism "museum" then Activity
  else Other.

Definition elementLocation (el : Overpass.Element) : Location :=
  {| id := "sugg-" ++ Js.natStr (Overpass.id el);
     name := Overpass.name (Overpass.tags el);
     coordinate := {| lat := Overpass.lat el; lng := Overpass.lon el |};
     description := "Found nearby. Click to view details or add to your list.";
     category := HiddenGem;
     placeType := elementType el;
     image := picsum (Js.natStr (Overpass.id el));
     address := None;
     visited := Some false;
     rating := None |}.

(** [!locations.some(l => l.name === el.tags.name)] *)
Definition notSaved (locs : list Location) (el : Overpass.Element) : bool :=
  negb (existsb (fun l => String.eqb (name l) (Overpass.name (Overpass.tags el))) locs).

Definition newSuggestions (locs : list Location) (elements : list Overpass.Element)
  : list Location :=
  map elementLocation (filter (notSaved locs) elements).

(** [await fetch(overpass, ..)], the [response.ok] test and [response.json()]. *)
Definition queryOverpass (bounds : Overpass.Bounds)
  : M State (option (option (list Overpass.Element))) :=
  emit (CallOverpass bounds);;
  match overpass env bounds with
  | Overpass.Rejected => throw NetworkError
  | Overpass.HttpError status => throw (OverpassApiError status)
  | Overpass.NotJson => throw SyntaxError
  | Overpass.Json data => ret data
  end.

Definition handleSearchArea (bounds : Overpass.Bounds) : M State unit :=
  s <- get;;
  setIsSearchingArea true;;
  tryCatchFinally
    (data <- queryOverpass bounds;;
     match data with
     | Some (Some elements) =>
         let suggestions := newSuggestions (locations s) elements in
         setSuggestedLocations suggestions;;
         match suggestions with
         | [] => emit (ConsoleLog "No new places found here.")
         | _ :: _ => ret tt
         end
     | _ => ret tt
     end)
    (fun _ => emit (ConsoleError "Overpass API error"))
    (setIsSearchingArea false).

(** [handleSearchArea] is suspended at [await fetch] and at
    [await response.json()], and other handlers run in the meantime. No
    cell is written between the two suspensions, so the handler is split
    once: [searchAreaStart] is what runs until the request is under way; it
    returns [locations] as the render that created the handler holds it,
    which is the array the filter reads when the reply is there.
    [searchAreaFinish] is what runs on the reply. [searchAreaWhile] is an
    area search with the handler [meanwhile] run to its end while the
    request is under way. *)
Definition searchAreaStart (bounds : Overpass.Bounds) : M State (list Location) :=
  s <- get;;
  setIsSearchingArea true;;
  emit (CallOverpass bounds);;
  ret (locations s).

Definition searchAreaFinish (bounds : Overpass.Bounds) (locations : list Location)
  : M State unit :=
  tryCatchFinally
    (data <- match overpass env bounds with
             | Overpass.Rejected => throw NetworkError
             | Overpass.HttpError status => throw (OverpassApiError status)
             | Overpass.NotJson => throw SyntaxError
             | Overpass.Json data => ret data
             end;;
     match data with
     | Some (Some elements) =>
         let suggestions := newSuggestions locations elements in
         setSuggestedLocations suggestions;;
         match suggestions with
         | [] => emit (ConsoleLog "No new places found here.")
         | _ :: _ => ret tt
         end
     | _ => ret tt
     end)
    (fun _ => emit (ConsoleError "Overpass API error"))
    (setIsSearchingArea false).

Definition searchAreaWhile (bounds : Overpass.Bounds) (meanwhile : M State unit)
  : M State unit :=
  locations <- searchAreaStart bounds;;
  meanwhile;;
  searchAreaFinish bounds locations.

End WithEnv.

(** *** The remaining handlers of the Saved Set *)

(** [setSuggestedLocations(prev => f(prev))] *)
Definition updateSuggestedLocations (f : list Location -> list Location) : M State unit :=
  s <- get;;
  setSuggestedLocations (f (suggestedLocations s)).

(** [filteredLocations]: the saved places the map shows. *)
Definition filteredLocations (s : State) : list Location :=
  if negb (Js.truthyStr (searchQuery s)) then locations s
  else filter (fun loc => Js.includes (Js.toLowerCase (name loc))
                                      (Js.toLowerCase (searchQuery s)))
              (locations s).

Definition handleLocationSelect (location : Location) : M State unit :=
  setSelectedLocationId (Some (id location)).

(** [{ ...newLocationData, id }] *)
Definition withId (i : string) (d : OmitId.Location) : Location :=
  {| id := i; name := OmitId.name d; coordinate := OmitId.coordinate d;
     description := OmitId.description d; category := OmitId.category d;
     placeType := OmitId.placeType d; image := OmitId.image d;
     address := OmitId.address d; visited := OmitId.visited d;
     rating := OmitId.rating d |}.

(** [selectedLocationId === id] *)
Definition isSelected (s : State) (i : string) : bool :=
  match selectedLocationId s with
  | Some j => String.eqb j i
  | None => false
  end.

(** [if (selectedLocationId === id) setSelectedLocationId(null)] *)
Definition deselect (s : State) (i : string) : M State unit :=
  if isSelected s i then setSelectedLocationId None else ret tt.

Definition hasId (i : string) (l : Location) : bool := String.eqb (id l) i.

Definition handleRemoveLocation (i : string) : M State unit :=
  s <- get;;
  if existsb (hasId i) (locations s) then
    setLocations (filter (fun l => negb (hasId i l)));;
    deselect s i
  else if existsb (hasId i) (suggestedLocations s) then
    updateSuggestedLocations (filter (fun l => negb (hasId i l)));;
    deselect s i
  else
    match searchResult s with
    | Some r =>
        if hasId i r then setSearchResult None;; deselect s i else ret tt
    | None => ret tt
    end.

Definition handleReorder (newLocations : list Location) : M State unit :=
  setLocations (fun _ => newLocations).

(** [isSelectedLocationSaved] *)
Definition isSelectedLocationSaved (s : State) : bool :=
  match selectedLocation s with
  | Some l => existsb (hasId (id l)) (locations s)
  | None => false
  end.

Section Adding.

Variable env : Env.

Definition handleAddLocation (newLocationData : OmitId.Location) : M State unit :=
  let newLocation := withId (Js.natStr (now env)) newLocationData in
  setLocations (fun prev => (prev ++ [newLocation])%list);;
  updateSuggestedLocations
    (filter (fun l => negb (String.eqb (name l) (name newLocation))));;
  setSelectedLocationId (Some (id newLocation));;
  setSearchResult None.

Definition handleAddSearchResult (location : Location) : M State unit :=
  handleAddLocation
    {| OmitId.name := name location;
       OmitId.description := description location;
       OmitId.category := category location;
       OmitId.placeType := placeType location;
       OmitId.coordinate := coordinate location;
       OmitId.image := image location;
       OmitId.visited := Some false;
       OmitId.address := address location;
       OmitId.rating := None |}.

End Adding.

End App.

(* ================================================================== *)
(** ** The AddLocationModal component (src/components/AddLocationModal.tsx) *)
(* ================================================================== *)

(** [Partial<Location>]: the draft handed to the modal. *)
Module Partial.

Record Location := mkPartial {
  name : option string;
  description : option string;
  category : option Category;
  placeType : option PlaceType;
  coordinate : option Coordinate;
  address : option string
}.

End Partial.

Module AddLocationModal.

Open Scope js_scope.

(** The form's [useState] cells. *)
Record State := mkState {
  name : string;
  description : string;
  category : Category;
  placeType : PlaceType;
  coordinate : Coordinate;
  isAiLoading : bool;
  isGeocoding : bool
}.

Definition setName (v : string) : M State unit :=
  modify (fun s =>
    {| name := v; description := description s; category := category s;
       placeType := placeType s; coordinate := coordinate s;
       isAiLoading := isAiLoading s; isGeocoding := isGeocoding s |}).

Definition setDescription (v : string) : M State unit :=
  modify (fun s =>
    {| name := name s; description := v; category := category s;
       placeType := placeType s; coordinate := coordinate s;
       isAiLoading := isAiLoading s; isGeocoding := isGeocoding s |}).

Definition setCategory (v : Category) : M State unit :=
  modify (fun s =>
    {| name := name s; description := description s; category := v;
       placeType := placeType s; coordinate := coordinate s;
       isAiLoading := isAiLoading s; isGeocoding := isGeocoding s |}).

Definition setPlaceType (v : PlaceType) : M State unit :=
  modify (fun s =>
    {| name := name s; description := description s; category := category s;
       placeType := v; coordinate := coordinate s;
       isAiLoading := isAiLoading s; isGeocoding := isGeocoding s |}).

Definition setCoordinate (v : Coordinate) : M State unit :=
  modify (fun s =>
    {| name := name s; description := description s; category := category s;
       placeType := placeType s; coordinate := v;
       isAiLoading := isAiLoading s; isGeocoding := isGeocoding s |}).

Definition setIsGeocoding (v : bool) : M State unit :=
  modify (fun s =>
    {| name := name s; description := description s; category := category s;
       placeType := placeType s; coordinate := coordinate s;
       isAiLoading := isAiLoading s; isGeocoding := v |}).

(** The query [q] of [performGeocode]. *)
Definition geocodeQuery (queryName : string) (queryAddress : option string) : string :=
  match queryAddress with
  | Some a =>
      if Js.truthyStr a then
        match Js.matchDigits6 a with
        | Some code => code ++ " Singapore"
        | None =>
            if Nat.ltb 5 (String.length a) then a ++ " Singapore"
            else queryName ++ " Singapore"
        end
      else queryName ++ " Singapore"
  | None => queryName ++ " Singapore"
  end.

(** The predicate of [data.find(..)] in the name-search branch. *)
Definition isVenue (d : Nominatim.SearchSuggestion) : bool :=
  App.isStr (Nominatim.class d) "amenity" ||
  App.isStr (Nominatim.class d) "tourism" ||
  App.isStr (Nominatim.class d) "shop" ||
  App.isStr (Nominatim.class d) "leisure" ||
  App.isStr (Nominatim.type d) "restaurant" ||
  App.isStr (Nominatim.type d) "cafe" ||
  App.isStr (Nominatim.type d) "bar".

Definition bestMatch (queryAddress : option string)
    (data : option (list Nominatim.SearchSuggestion))
  : option Nominatim.SearchSuggestion :=
  match data with
  | Some (d0 :: rest) =>
      if Js.truthyOpt Js.truthyStr queryAddress then Some d0
      else
        match find isVenue (d0 :: rest) with
        | Some d => Some d
        | None => Some d0
        end
  | _ => None
  end.

(** The placeholder-terminated preference chain of the reverse lookup. *)
Definition placeName (data : Nominatim.Reverse) : string :=
  let field (f : Nominatim.Address -> option string) :=
    match Nominatim.r_address data with
    | Some a => f a
    | None => None
    end in
  Js.orStr
    (Js.orOpt (Nominatim.r_name data)
      (Js.orOpt (field Nominatim.amenity)
        (Js.orOpt (field Nominatim.building)
          (Js.orOpt (field Nominatim.tourism)
            (Js.orOpt (field Nominatim.shop) (field Nominatim.road))))))
    "Unknown Location".

(** [data.address?.amenity] *)
Definition amenityOf (data : Nominatim.Reverse) : option string :=
  match Nominatim.r_address data with
  | Some a => Nominatim.amenity a
  | None => None
  end.

Section WithEnv.

Variable env : Env.

Definition performGeocode (queryName : string) (queryAddress : option string)
  : M State unit :=
  setIsGeocoding true;;
  tryCatchFinally
    (let q := geocodeQuery queryName queryAddress in
     emit (CallNominatim q 5);;
     data <- match nominatimSearch env q 5 with
             | FetchRejected => throw NetworkError
             | FetchNotJson => throw SyntaxError
             | FetchJson data => ret data
             end;;
     match bestMatch queryAddress data with
     | Some b =>
         setCoordinate {| lat := parseFloat env (Nominatim.lat b);
                          lng := parseFloat env (Nominatim.lon b) |}
     | None => ret tt
     end)
    (fun _ => emit (ConsoleError "Geocode failed"))
    (setIsGeocoding false).

Definition performReverseGeocode (coord : Coordinate) : M State unit :=
  setIsGeocoding true;;
  tryCatchFinally
    (emit (CallReverse coord);;
     data <- match nominatimReverse env coord with
             | FetchRejected => throw NetworkError
             | FetchNotJson => throw SyntaxError
             | FetchJson data => ret data
             end;;
     match data with
     | Some d =>
         setName (placeName d);;
         if App.isStr (amenityOf d) "restaurant" then setPlaceType Restaurant
         else if App.isStr (amenityOf d) "cafe" then setPlaceType Cafe
         else if App.isStr (amenityOf d) "bar" then setPlaceType Bar
         else ret tt
     | None => ret tt
     end)
    (fun _ => emit (ConsoleError "Reverse Geocode failed"))
    (setIsGeocoding false).

(** The effect that initialises the form when the modal opens. *)
Definition onOpen (prefillData : option Partial.Location) (currentCenter : Coordinate)
  : M State unit :=
  match prefillData with
  | Some p =>
      setName (Js.orStr (Partial.name p) "");;
      setDescription (Js.orStr (Partial.description p) "");;
      setCategory (match Partial.category p with Some c => c | None => HiddenGem end);;
      setPlaceType (match Partial.placeType p with Some t => t | None => Other end);;
      setCoordinate (match Partial.coordinate p with Some c => c | None => currentCenter end);;
      match Partial.coordinate p with
      | None =>
          if Js.truthyOpt Js.truthyStr (Partial.name p)
          then performGeocode (Js.toStr (Partial.name p)) (Partial.address p)
          else ret tt
      | Some c =>
          if negb (Js.truthyOpt Js.truthyStr (Partial.name p))
          then performReverseGeocode c
          else ret tt
      end
  | None =>
      setCoordinate currentCenter;;
      setName "";;
      setDescription "";;
      setCategory HiddenGem;;
      setPlaceType Other
  end.

(** [handleMapClick] of the App sets the draft to [{ coordinate }] and opens
    the modal. *)
Definition openFromMapClick (c currentCenter : Coordinate) : M State unit :=
  onOpen (Some {| Partial.name := None; Partial.description := None;
                  Partial.category := None; Partial.placeType := None;
                  Partial.coordinate := Some c; Partial.address := None |})
         currentCenter.

End WithEnv.

(** *** handleSubmit and handleAiAutoFill *)

Definition setIsAiLoading (v : bool) : M State unit :=
  modify (fun s =>
    {| name := name s; description := description s; category := category s;
       placeType := placeType s; coordinate := coordinate s;
       isAiLoading := v; isGeocoding := isGeocoding s |}).

(** What the auto-fill request followed by
    [JSON.parse(response.text || "{}")] meets: an error is thrown, with or
    without a message (the request is rejected, or the text is not JSON);
    or the text parses, to a falsy value such as [null] ([None]) or to an
    object. A response without text parses as the empty object. *)
Inductive AutoFillReply :=
| Threw (message : option string)
| Parsed (result : option Ai.Result).

(** [error.message?.includes(needle)] *)
Definition messageIncludes (message : option string) (needle : string) : bool :=
  match message with
  | Some m => Js.includes m needle
  | None => false
  end.

Definition quotaNotice : string :=
  "Auto-fill unavailable: AI quota exceeded. Please enter details manually.".

Definition noDetailsNotice : string :=
  "Could not fetch AI details. Please enter manually.".

Section Form.

Variable env : Env.
Variable analyzePlace : string -> AutoFillReply.

(** The object handed to [onAdd]. *)
Definition submission (f : State) : OmitId.Location :=
  {| OmitId.name := name f;
     OmitId.description := description f;
     OmitId.category := category f;
     OmitId.placeType := placeType f;
     OmitId.coordinate := coordinate f;
     OmitId.image := App.picsum (Js.natStr (now env));
     OmitId.visited := Some false;
     OmitId.address := None;
     OmitId.rating := None |}.

Definition handleSubmit {W} (onAdd : OmitId.Location -> M W unit) (onClose : M W unit)
  : M (W * State) unit :=
  f <- onSelf get;;
  onParent (onAdd (submission f));;
  onSelf (setName "");;
  onSelf (setDescription "");;
  onSelf (setCategory HiddenGem);;
  onSelf (setPlaceType Other);;
  onParent onClose.

(** The Save button of the form. The button is disabled while
    [isGeocoding], and the browser raises the submit event, which runs
    [handleSubmit], only when the two [required] controls, the name and the
    description, are not empty. *)
Definition submitForm {W} (onAdd : OmitId.Location -> M W unit) (onClose : M W unit)
  : M (W * State) unit :=
  f <- onSelf get;;
  if isGeocoding f || negb (Js.truthyStr (name f)) || negb (Js.truthyStr (description f))
  then ret tt
  else handleSubmit onAdd onClose.

(** [aiPromise]: it resolves to the parsed value or to [null] ([inr]), or
    rejects with an error of the given message ([inl]). *)
Definition aiPromise (placeName : string) : M State (string + option Ai.Result) :=
  emit (CallAI placeName);;
  match analyzePlace placeName with
  | Parsed result => ret (inr result)
  | Threw message =>
      emit (ConsoleError "AI Content gen failed");;
      if messageIncludes message "429" || messageIncludes message "quota"
      then ret (inl "QUOTA_EXCEEDED")
      else ret (inr None)
  end.

(** The three outcomes of [await aiPromise] are the branches of the [match]:
    details, [null], or the rejection the [catch] block handles; the last
    line is the [finally] block. [performGeocode] is started without being
    awaited; the model runs it to its end before the [finally] block, which
    touches no cell the geocoder reads or writes. *)
Definition handleAiAutoFill : M State unit :=
  f <- get;;
  if negb (Js.truthyStr (Js.trim (name f))) then ret tt
  else
    setIsAiLoading true;;
    setIsGeocoding true;;
    settled <- aiPromise (name f);;
    match settled with
    | inr (Some result) =>
        setDescription (Js.orStr (Ai.description result) "");;
        setCategory (match Ai.category result with Some c => c | None => HiddenGem end);;
        setPlaceType (match Ai.placeType result with Some t => t | None => Other end);;
        match App.usable (App.resultLat result) (App.resultLng result) with
        | Some (la, ln) =>
            setCoordinate {| lat := la; lng := ln |};;
            setIsGeocoding false
        | None =>
            let addressToGeocode :=
              Js.orText (Ai.address result) (name f ++ " Singapore") in
            performGeocode env (name f) (Some addressToGeocode)
        end
    | inr None =>
        setDescription noDetailsNotice;;
        setIsGeocoding false
    | inl message =>
        emit (ConsoleError "Autofill error");;
        (if String.eqb message "QUOTA_EXCEEDED"
         then setDescription quotaNotice
         else setDescription "Error during auto-fill.");;
        setIsGeocoding false
    end;;
    setIsAiLoading false.

End Form.

End AddLocationModal.

(* ================================================================== *)
(** ** The SearchBar component (src/components/SearchBar.tsx) *)
(* ================================================================== *)

Module SearchBar.

Open Scope js_scope.

Record State := mkState {
  suggestions : list Nominatim.SearchSuggestion;
  loading : bool;
  showSuggestions : bool
}.

Definition setSuggestions (v : list Nominatim.SearchSuggestion) : M State unit :=
  modify (fun s =>
    {| suggestions := v; loading := loading s; showSuggestions := showSuggestions s |}).

Definition setLoading (v : bool) : M State unit :=
  modify (fun s =>
    {| suggestions := suggestions s; loading := v; showSuggestions := showSuggestions s |}).

Definition setShowSuggestions (v : bool) : M State unit :=
  modify (fun s =>
    {| suggestions := suggestions s; loading := loading s; showSuggestions := v |}).

(** [address?.amenity || address?.building || address?.shop ||
    address?.tourism || display_name.split(',')[0]] *)
Definition mainName (suggestion : Nominatim.SearchSuggestion) : string :=
  let field (f : Nominatim.Address -> option string) :=
    match Nominatim.address suggestion with
    | Some a => f a
    | None => None
    end in
  Js.orStr
    (Js.orOpt (field Nominatim.amenity)
      (Js.orOpt (field Nominatim.building)
        (Js.orOpt (field Nominatim.shop) (field Nominatim.tourism))))
    (Js.splitFirst "," (Nominatim.display_name suggestion)).

(** [mainName || suggestion.display_name] *)
Definition inputText (suggestion : Nominatim.SearchSuggestion) : string :=
  if Js.truthyStr (mainName suggestion) then mainName suggestion
  else Nominatim.display_name suggestion.

Section Fetch.

(** The region-restricted autocomplete request
    ([countrycodes=sg&addressdetails=1&limit=5]) and its [res.json()]. *)
Variable autocomplete : string -> Fetched (list Nominatim.SearchSuggestion).

Definition fetchSuggestions (query : string) : M State unit :=
  if negb (Js.truthyStr query) || Nat.ltb (String.length query) 3 then
    setSuggestions []
  else
    setLoading true;;
    tryCatchFinally
      (emit (CallNominatim query 5);;
       data <- match autocomplete query with
               | FetchRejected => throw NetworkError
               | FetchNotJson => throw SyntaxError
               | FetchJson data => ret data
               end;;
       setSuggestions data;;
       setShowSuggestions true)
      (fun _ => emit (ConsoleError "Error fetching suggestions:"))
      (setLoading false).

End Fetch.

Definition handleSelect {W} (onSelectResult : Nominatim.SearchSuggestion -> M W unit)
    (onChange : string -> M W unit) (suggestion : Nominatim.SearchSuggestion)
  : M (W * State) unit :=
  onParent (onSelectResult suggestion);;
  onSelf (setShowSuggestions false);;
  onParent (onChange (inputText suggestion)).

Definition handleSubmit {W} (onSearch : M W unit) : M (W * State) unit :=
  onSelf (setShowSuggestions false);;
  onParent onSearch.

Definition handleClear {W} (onChange : string -> M W unit) : M (W * State) unit :=
  onParent (onChange "");;
  onSelf (setSuggestions []);;
  onSelf (setShowSuggestions false).

End SearchBar.

(* ================================================================== *)
(** ** The ListView component (src/components/ListView.tsx) *)
(* ================================================================== *)

Module ListView.

Open Scope js_scope.

Record State := mkState {
  activeTypes : list PlaceType;
  activeCategories : list Category
}.

Definition sameType (a b : PlaceType) : bool :=
  match a, b with
  | Restaurant, Restaurant | Bar, Bar | Cafe, Cafe
  | Activity, Activity | Other, Other => true
  | _, _ => false
  end.

Definition sameCategory (a b : Category) : bool :=
  match a, b with
  | HiddenGem, HiddenGem | TouristTrap, TouristTrap => true
  | _, _ => false
  end.

(** [locations.filter(l => !l.visited)] and [locations.filter(l => l.visited)] *)
Definition toVisit (locations : list Location) : list Location :=
  filter App.notVisited locations.

Definition visited (locations : list Location) : list Location :=
  filter (fun l => negb (App.notVisited l)) locations.

(** [prev.includes(x) ? prev.filter(y => y !== x) : [...prev, x]] *)
Definition toggleIn {A} (eqb : A -> A -> bool) (x : A) (prev : list A) : list A :=
  if existsb (eqb x) prev then filter (fun y => negb (eqb y x)) prev
  else (prev ++ [x])%list.

Definition toggleType (type : PlaceType) : M State unit :=
  modify (fun s =>
    {| activeTypes := toggleIn sameType type (activeTypes s);
       activeCategories := activeCategories s |}).

Definition toggleCategory (cat : Category) : M State unit :=
  modify (fun s =>
    {| activeTypes := activeTypes s;
       activeCategories := toggleIn sameCategory cat (activeCategories s) |}).

Definition isFiltered (s : State) : bool :=
  Nat.ltb 0 (List.length (activeTypes s)) ||
  Nat.ltb 0 (List.length (activeCategories s)).

Definition shown (s : State) (l : Location) : bool :=
  if Nat.ltb 0 (List.length (activeTypes s)) &&
     negb (existsb (sameType (placeType l)) (activeTypes s)) then false
  else if Nat.ltb 0 (List.length (activeCategories s)) &&
          negb (existsb (sameCategory (category l)) (activeCategories s)) then false
  else true.

Definition displayToVisit (s : State) (locations : list Location) : list Location :=
  filter (shown s) (toVisit locations).

(** The drag handler: [newOrder] is the new order of the unvisited rows. *)
Definition handleReorder {W} (onReorder : list Location -> M W unit)
    (locations newOrder : list Location) : M (W * State) unit :=
  s <- onSelf get;;
  if negb (isFiltered s)
  then onParent (onReorder (newOrder ++ visited locations)%list)
  else ret tt.

End ListView.

(* ================================================================== *)
(** ** Fixtures: constants (src/unnamed/part_001) and a sample world *)
(* ================================================================== *)

Module Fixtures.

Definition INITIAL_CENTER : Coordinate := {| lat := 1.3521%float; lng := 103.8198%float |}.

Definition MOCK_LOCATIONS : list Location :=
  [ {| id := "1"; name := "Lazarus Island";
       coordinate := {| lat := 1.226%float; lng := 103.855%float |};
       description := "A tranquil beach getaway just a short ferry ride from the city. Perfect for picnics and escaping the crowds.";
       category := HiddenGem; placeType := Activity;
       image := "https://picsum.photos/seed/lazarus/600/400";
       address := None; visited := Some false; rating := None |};
    {| id := "2"; name := "Merlion Park";
       coordinate := {| lat := 1.2868%float; lng := 103.8545%float |};
       description := "The iconic symbol of Singapore. Extremely crowded with tourists trying to get the perfect water-spout selfie.";
       category := TouristTrap; placeType := Activity;
       image := "https://picsum.photos/seed/merlion/600/400";
       address := None; visited := Some true; rating := None |};
    {| id := "3"; name := "Tiong Bahru Bakery";
       coordinate := {| lat := 1.2874%float; lng := 103.8324%float |};
       description := "Famous for croissants, but retains a lovely neighborhood vibe despite its popularity. Great coffee.";
       category := HiddenGem; placeType := Cafe;
       image := "https://picsum.photos/seed/tiongbahru/600/400";
       address := None; visited := Some false; rating := None |};
    {| id := "4"; name := "Gardens by the Bay";
       coordinate := {| lat := 1.2816%float; lng := 103.8636%float |};
       description := "Futuristic park featuring Supertree Grove. Spectacular, but expect massive crowds and expensive entry fees for domes.";
       category := TouristTrap; placeType := Activity;
       image := "https://picsum.photos/seed/gardens/600/400";
       address := None; visited := Some false; rating := None |};
    {| id := "5"; name := "Haji Lane";
       coordinate := {| lat := 1.3007%float; lng := 103.8577%float |};
       description := "Narrow lane filled with vibrant street art, indie boutiques, and hip cafes. Lively atmosphere at night.";
       category := HiddenGem; placeType := Activity;
       image := "https://picsum.photos/seed/haji/600/400";
       address := None; visited := Some true; rating := None |} ].

(** A [parseFloat] for the sample world: optional sign, decimal digits, an
    optional fraction; [NaN] when no digit leads. It agrees with the host
    function on the short plain decimals the directory service sends
    (exponents and the literal Infinity are left out). *)
Fixpoint digitsValue (s : string) (acc : float) (seen : bool)
  : float * string * bool :=
  match s with
  | String c r =>
      if Js.isDigit c
      then digitsValue r
             (acc * 10 + PrimFloat.of_uint63 (Uint63.of_Z (Z.of_N (N_of_ascii c - 48))))%float
             true
      else (acc, s, seen)
  | EmptyString => (acc, s, seen)
  end.

Fixpoint scale (s : string) (num den : float) (seen : bool) : float * float * bool :=
  match s with
  | String c r =>
      if Js.isDigit c
      then scale r
             (num * 10 + PrimFloat.of_uint63 (Uint63.of_Z (Z.of_N (N_of_ascii c - 48))))%float
             (den * 10)%float true
      else (num, den, seen)
  | EmptyString => (num, den, seen)
  end.

Definition unsignedDecimal (s : string) : float :=
  match digitsValue s 0%float false with
  | (whole, String "." r, seen) =>
      match scale r whole 1%float seen with
      | (num, den, true) => (num / den)%float
      | (_, _, false) => PrimFloat.nan
      end
  | (whole, _, true) => whole
  | (_, _, false) => PrimFloat.nan
  end.

Definition parseDecimal (s : string) : float :=
  match Js.trimStart s with
  | String "-" r => (- unsignedDecimal r)%float
  | String "+" r => unsignedDecimal r
  | t => unsignedDecimal t
  end.

(** A world in which every remote service is unreachable; the samples
    below override one service at a time. *)
Definition offline : Env :=
  {| parseFloat := parseDecimal;
     now := 1700000000000%N;
     generateContent := fun _ => Ai.Rejected;
     nominatimSearch := fun _ _ => FetchRejected;
     nominatimReverse := fun _ => FetchRejected;
     overpass := fun _ => Overpass.Rejected |}.

Definition withAI (f : string -> Ai.Reply) (e : Env) : Env :=
  {| parseFloat := parseFloat e; now := now e; generateContent := f;
     nominatimSearch := nominatimSearch e; nominatimReverse := nominatimReverse e;
     overpass := overpass e |}.

Definition withNominatim
    (f : string -> N -> Fetched (option (list Nominatim.SearchSuggestion))) (e : Env) : Env :=
  {| parseFloat := parseFloat e; now := now e; generateContent := generateContent e;
     nominatimSearch := f; nominatimReverse := nominatimReverse e;
     overpass := overpass e |}.

Definition withReverse (f : Coordinate -> Fetched (option Nominatim.Reverse)) (e : Env) : Env :=
  {| parseFloat := parseFloat e; now := now e; generateContent := generateContent e;
     nominatimSearch := nominatimSearch e; nominatimReverse := f;
     overpass := overpass e |}.

Definition withOverpass (f : Overpass.Bounds -> Overpass.Reply) (e : Env) : Env :=
  {| parseFloat := parseFloat e; now := now e; generateContent := generateContent e;
     nominatimSearch := nominatimSearch e; nominatimReverse := nominatimReverse e;
     overpass := f |}.

(** The App right after its first render with the mock locations. *)
Definition initial (query : string) : App.State :=
  {| App.locations := MOCK_LOCATIONS; App.suggestedLocations := [];
     App.selectedLocationId := None; App.searchQuery := query;
     App.searchResult := None; App.isSearchingArea := false;
     App.isSearching := false |}.

Definition emptyResult : Ai.Result :=
  {| Ai.name := Js.Undefined; Ai.address := Js.Undefined; Ai.coordinates := None;
     Ai.description := None; Ai.category := None; Ai.placeType := None |}.

Definition plainSuggestion (la lo label : string) : Nominatim.SearchSuggestion :=
  {| Nominatim.place_id := 1; Nominatim.lat := la; Nominatim.lon := lo;
     Nominatim.display_name := label; Nominatim.name := None;
     Nominatim.type := None; Nominatim.class := None; Nominatim.address := None |}.

Definition blankForm : AddLocationModal.State :=
  {| AddLocationModal.name := ""; AddLocationModal.description := "";
     AddLocationModal.category := HiddenGem; AddLocationModal.placeType := Other;
     AddLocationModal.coordinate := INITIAL_CENTER;
     AddLocationModal.isAiLoading := false; AddLocationModal.isGeocoding := false |}.

(** Sample answers of the structured-knowledge service. *)
Definition namedResult (n : string) : Ai.Result :=
  {| Ai.name := Js.Str n; Ai.address := Js.Undefined; Ai.coordinates := None;
     Ai.description := None; Ai.category := None; Ai.placeType := None |}.

Definition locatedResult (n a : string) (la ln : float) : Ai.Result :=
  {| Ai.name := Js.Str n; Ai.address := Js.Str a;
     Ai.coordinates := Some {| Ai.lat := Some la; Ai.lng := Some ln |};
     Ai.description := Some "A place."; Ai.category := Some HiddenGem;
     Ai.placeType := Some Other |}.


(** The service knows only a name; the directory knows nothing. *)
Definition emptyWorld : Env :=
  withNominatim (fun _ _ => FetchJson (Some []))
    (withAI (fun _ => Ai.Json (namedResult "Bunnies Bakery")) offline).



(** The structured-knowledge service is out of reach; the directory
    answers every query with an empty array. *)
Definition unreachableWorld : Env :=
  withNominatim (fun _ _ => FetchJson (Some [])) offline.

(** The service returns the address behind a telephone number and
    coordinates of zero; the directory places whatever it is asked for. *)
Definition phoneWorld : Env :=
  withNominatim
    (fun _ _ => FetchJson (Some [plainSuggestion "1.3521" "103.8198" "Singapore"]))
    (withAI (fun _ => Ai.Json (locatedResult "Birds of Paradise"
                                 "Tel 63451234, 376 Joo Chiat Rd, Singapore 427630"
                                 0%float 0%float)) offline).

(** The service answers with precise coordinates. *)
Definition preciseWorld : Env :=
  withAI (fun _ => Ai.Json (locatedResult "Marina Bay Sands" "10 Bayfront Ave, Singapore 018956"
                              1.2834%float 103.8607%float)) offline.

(** The service answers with latitude and longitude swapped. *)
Definition swappedWorld : Env :=
  withAI (fun _ => Ai.Json (locatedResult "Marina Bay Sands" "10 Bayfront Ave, Singapore 018956"
                              103.8607%float 1.2834%float)) offline.

(** The service answers with a latitude of zero; the directory places the
    address elsewhere. *)
Definition zeroWorld : Env :=
  withNominatim
    (fun _ _ => FetchJson (Some [plainSuggestion "1.3000" "103.8000" "Equator Way, Singapore"]))
    (withAI (fun _ => Ai.Json (locatedResult "Equator Cafe" "1 Equator Way"
                                 0%float 103.8198%float)) offline).

(** Viewport samples: two elements that differ from a saved name by case
    only or not at all, and a server error after an earlier search. *)
Definition viewport : Overpass.Bounds :=
  {| Overpass.getSouth := 1.27%float; Overpass.getWest := 103.84%float;
     Overpass.getNorth := 1.30%float; Overpass.getEast := 103.87%float |}.

Definition node (i : N) (n : string) (a : option string) : Overpass.Element :=
  {| Overpass.id := i; Overpass.lat := 1.2868%float; Overpass.lon := 103.8545%float;
     Overpass.tags := {| Overpass.name := n; Overpass.amenity := a;
                         Overpass.tourism := None |} |}.

Definition merlionWorld : Env :=
  withOverpass
    (fun _ => Overpass.Json (Some (Some [node 11 "Merlion Park" None;
                                         node 12 "merlion park" None])))
    offline.

Definition gatewayTimeoutWorld : Env :=
  withOverpass (fun _ => Overpass.HttpError 504) offline.

Definition afterEarlierSearch : App.State :=
  {| App.locations := MOCK_LOCATIONS;
     App.suggestedLocations := [App.elementLocation (node 12 "merlion park" None)];
     App.selectedLocationId := None; App.searchQuery := "";
     App.searchResult := None; App.isSearchingArea := false;
     App.isSearching := false |}.

(** Reverse lookup samples. *)
Definition tagged (a : string) : Nominatim.Reverse :=
  {| Nominatim.r_name := None;
     Nominatim.r_address :=
       Some {| Nominatim.amenity := Some a; Nominatim.building := None;
               Nominatim.shop := None; Nominatim.tourism := None;
               Nominatim.road := Some "Circular Road" |} |}.

Definition reverseWorld (a : string) : Env :=
  withReverse (fun _ => FetchJson (Some (tagged a))) offline.

Definition taggedSuggestion (t : string) : Nominatim.SearchSuggestion :=
  {| Nominatim.place_id := 7; Nominatim.lat := "1.2868"; Nominatim.lon := "103.8490";
     Nominatim.display_name := "Molly Malone, Circular Road, Singapore";
     Nominatim.name := None; Nominatim.type := Some t;
     Nominatim.class := Some "amenity"; Nominatim.address := None |}.

(** A place as the add handlers receive it. *)
Definition newPlace (n : string) : OmitId.Location :=
  {| OmitId.name := n; OmitId.coordinate := INITIAL_CENTER;
     OmitId.description := "Added by hand."; OmitId.category := HiddenGem;
     OmitId.placeType := Cafe; OmitId.image := "https://picsum.photos/seed/1/600/400";
     OmitId.address := None; OmitId.visited := Some false; OmitId.rating := None |}.

(** A place the chat recommends: a name and an address, no coordinate. *)
Definition chatPlace : Partial.Location :=
  {| Partial.name := Some "Birds of Paradise"; Partial.description := Some "Gelato.";
     Partial.category := Some HiddenGem; Partial.placeType := Some Cafe;
     Partial.coordinate := None;
     Partial.address := Some "63 East Coast Rd, Singapore 428776" |}.

(** A form in which the user typed a name. *)
Definition typedForm (n : string) : AddLocationModal.State :=
  {| AddLocationModal.name := n; AddLocationModal.description := "";
     AddLocationModal.category := HiddenGem; AddLocationModal.placeType := Other;
     AddLocationModal.coordinate := INITIAL_CENTER;
     AddLocationModal.isAiLoading := false; AddLocationModal.isGeocoding := false |}.

End Fixtures.

(* ================================================================== *)
(** ** Specification vocabulary *)
(* ================================================================== *)

(** [b] is [a] with at most the [visited] field changed. *)
Definition sameButVisited (a b : Location) : Prop :=
  id b = id a /\ name b = name a /\ coordinate b = coordinate a /\
  description b = description a /\ category b = category a /\
  placeType b = placeType a /\ image b = image a /\
  address b = address a /\ rating b = rating a.

(** [sub] occurs in [s] with [n] code units before it. *)
Definition occursAt (s : string) (n : nat) (sub : string) : Prop :=
  exists pre post, s = pre ++ sub ++ post /\ String.length pre = n.

(** [name] contains [q] as a substring once both are lower-cased. *)
Definition containsIgnoringCase (name q : string) : Prop :=
  exists n, occursAt (Js.toLowerCase name) n (Js.toLowerCase q).

(** Six decimal digits. *)
Definition sixDigits (t : string) : Prop :=
  String.length t = 6 /\ forallb Js.isDigit (list_ascii_of_string t) = true.

(** [t] is the leftmost run of six consecutive digits of [s]. *)
Definition leftmostSixDigits (s t : string) : Prop :=
  sixDigits t /\
  exists n, occursAt s n t /\
    forall m t', m < n -> sixDigits t' -> ~ occursAt s m t'.

(** The state a local hit leaves. *)
Definition afterLocalHit (s : App.State) (l : Location) : App.State :=
  {| App.locations := App.locations s;
     App.suggestedLocations := App.suggestedLocations s;
     App.selectedLocationId := Some (id l);
     App.searchQuery := App.searchQuery s;
     App.searchResult := None;
     App.isSearchingArea := App.isSearchingArea s;
     App.isSearching := false |}.

(** The state in which the remote tiers start. *)
Definition searching (s : App.State) : App.State :=
  {| App.locations := App.locations s;
     App.suggestedLocations := App.suggestedLocations s;
     App.selectedLocationId := App.selectedLocationId s;
     App.searchQuery := App.searchQuery s;
     App.searchResult := App.searchResult s;
     App.isSearchingArea := App.isSearchingArea s;
     App.isSearching := true |}.

(** The state after the [finally] block of the search. *)
Definition idle (s : App.State) : App.State :=
  {| App.locations := App.locations s;
     App.suggestedLocations := App.suggestedLocations s;
     App.selectedLocationId := App.selectedLocationId s;
     App.searchQuery := App.searchQuery s;
     App.searchResult := App.searchResult s;
     App.isSearchingArea := App.isSearchingArea s;
     App.isSearching := false |}.

(** The state after a search that stored the temporary result [l]. *)
Definition found (s : App.State) (l : Location) : App.State :=
  {| App.locations := App.locations s;
     App.suggestedLocations := App.suggestedLocations s;
     App.selectedLocationId := Some "temp-search-result";
     App.searchQuery := App.searchQuery s;
     App.searchResult := Some l;
     App.isSearchingArea := App.isSearchingArea s;
     App.isSearching := false |}.

(** The two messages the search can show. *)
Definition searchFailedMessage : string := "Search failed. Please try again.".

(** The structured-knowledge call failed hard: rejected, no text, text that
    is not JSON, the literal [null], or an object without usable coordinates
    whose address is not a string. *)
Definition aiHardFailure (reply : Ai.Reply) : bool :=
  match reply with
  | Ai.Json _ => false
  | _ => true
  end.

(** The coordinate a directory entry parses to. *)
Definition parsedCoordinate (env : Env) (g : Nominatim.SearchSuggestion) : Coordinate :=
  {| lat := parseFloat env (Nominatim.lat g); lng := parseFloat env (Nominatim.lon g) |}.

(** A directory reply that leaves the geocoding step without a usable
    coordinate: a failed call, [null], an empty array, or a first entry
    whose parsed latitude or longitude is falsy. *)
Definition directoryUnusable (env : Env)
    (reply : Fetched (option (list Nominatim.SearchSuggestion))) : bool :=
  match reply with
  | FetchJson (Some (g :: _)) =>
      negb (Js.truthyNum (parseFloat env (Nominatim.lat g)) &&
            Js.truthyNum (parseFloat env (Nominatim.lon g)))
  | _ => true
  end.

(** Tier 1 (structured knowledge, then geocoding of its output) yields no
    usable coordinate for the query. *)
Definition tier1Unusable (env : Env) (q : string) : bool :=
  match generateContent env q with
  | Ai.Json result =>
      App.missing (App.resultLat result) (App.resultLng result) &&
      directoryUnusable env (nominatimSearch env (App.geocodeQuery result) 1)
  | _ => true
  end.

(** Both remote calls of tier 1 answered (possibly with nothing). *)
Definition tier1Answered (env : Env) (q : string) : bool :=
  match generateContent env q with
  | Ai.Json result =>
      match nominatimSearch env (App.geocodeQuery result) 1 with
      | FetchJson _ => true
      | _ => false
      end
  | _ => false
  end.

(** Every coordinate the remote services supply is finite and in range. *)
Definition sourcesValid (env : Env) : Prop :=
  (forall q result la ln,
     generateContent env q = Ai.Json result ->
     App.resultLat result = Some la -> App.resultLng result = Some ln ->
     validCoordinate {| lat := la; lng := ln |} = true) /\
  (forall q limit data g,
     nominatimSearch env q limit = FetchJson (Some data) -> In g data ->
     validCoordinate (parsedCoordinate env g) = true) /\
  (forall b elements el,
     overpass env b = Overpass.Json (Some (Some elements)) -> In el elements ->
     validCoordinate {| lat := Overpass.lat el; lng := Overpass.lon el |} = true).

(** The coordinate invariant on an optional record and on a list. *)
Definition validResult (o : option Location) : Prop :=
  match o with
  | Some l => validCoordinate (coordinate l) = true
  | None => True
  end.

Definition allValid (l : list Location) : Prop :=
  Forall (fun x => validCoordinate (coordinate x) = true) l.

(** The line the geocoding step logs before it queries the directory. *)
Definition geocodeLog (result : Ai.Result) : string :=
  match App.postalMatch (Ai.address result) with
  | Some _ => "Geocoding using postal code: " ++ App.geocodeQuery result
  | None => "Geocoding using full address: " ++ App.geocodeQuery result
  end.

(** The query of the generic fallback. *)
Definition fallbackQuery (q : string) : string := q ++ " Singapore".

(** The state after the [finally] block of the area search, and after an
    area search that replaced the Suggested Set by [l]. *)
Definition idleArea (s : App.State) : App.State :=
  {| App.locations := App.locations s;
     App.suggestedLocations := App.suggestedLocations s;
     App.selectedLocationId := App.selectedLocationId s;
     App.searchQuery := App.searchQuery s;
     App.searchResult := App.searchResult s;
     App.isSearchingArea := false;
     App.isSearching := App.isSearching s |}.

Definition suggested (s : App.State) (l : list Location) : App.State :=
  {| App.locations := App.locations s;
     App.suggestedLocations := l;
     App.selectedLocationId := App.selectedLocationId s;
     App.searchQuery := App.searchQuery s;
     App.searchResult := App.searchResult s;
     App.isSearchingArea := false;
     App.isSearching := App.isSearching s |}.

(** The state in which an area search waits for its reply. *)
Definition areaSearching (s : App.State) : App.State :=
  {| App.locations := App.locations s;
     App.suggestedLocations := App.suggestedLocations s;
     App.selectedLocationId := App.selectedLocationId s;
     App.searchQuery := App.searchQuery s;
     App.searchResult := App.searchResult s;
     App.isSearchingArea := true;
     App.isSearching := App.isSearching s |}.

(** Some saved place has exactly the name of the element. *)
Definition savedByName (locs : list Location) (el : Overpass.Element) : Prop :=
  exists l, In l locs /\ name l = Overpass.name (Overpass.tags el).

(** The type the reverse lookup infers from the amenity tag, given the type
    the form holds before. *)
Definition reverseType (before : PlaceType) (amenity : option string) : PlaceType :=
  if App.isStr amenity "restaurant" then Restaurant
  else if App.isStr amenity "cafe" then Cafe
  else if App.isStr amenity "bar" then Bar
  else before.

(** Where the temporary result [o] left by a text search comes from: it is
    the one from before, or it was cleared, or it was built from truthy
    structured-knowledge coordinates, from the first entry of the geocoding
    reply, or from the first entry of the fallback reply. *)
Definition suppliedBySearch (env : Env) (s : App.State) (o : option Location) : Prop :=
  let q := App.searchQuery s in
  o = App.searchResult s \/
  o = None \/
  (exists result la ln,
     generateContent env q = Ai.Json result /\
     App.resultLat result = Some la /\ App.resultLng result = Some ln /\
     Js.truthyNum la = true /\ Js.truthyNum ln = true /\
     o = Some (App.aiLocation env q result la ln)) \/
  (exists result g rest,
     generateContent env q = Ai.Json result /\
     nominatimSearch env (App.geocodeQuery result) 1 = FetchJson (Some (g :: rest)) /\
     Js.truthyNum (parseFloat env (Nominatim.lat g)) = true /\
     Js.truthyNum (parseFloat env (Nominatim.lon g)) = true /\
     o = Some (App.aiLocation env q result (parseFloat env (Nominatim.lat g))
                                           (parseFloat env (Nominatim.lon g)))) \/
  (exists best rest,
     nominatimSearch env (fallbackQuery q) 1 = FetchJson (Some (best :: rest)) /\
     o = Some (App.fallbackLocation env q best)).

(** Where a suggestion [l] present after an area search comes from. *)
Definition suppliedByArea (env : Env) (s : App.State) (bounds : Overpass.Bounds)
    (l : Location) : Prop :=
  In l (App.suggestedLocations s) \/
  exists elements el,
    overpass env bounds = Overpass.Json (Some (Some elements)) /\
    In el elements /\
    coordinate l = {| lat := Overpass.lat el; lng := Overpass.lon el |}.

(** No saved place has the id [t]. *)
Definition freshId (s : App.State) (t : string) : Prop :=
  forall l, In l (App.locations s) -> id l <> t.

(** No suggestion has the name of a saved place. *)
Definition namesDisjoint (s : App.State) : Prop :=
  forall l sg, In l (App.locations s) -> In sg (App.suggestedLocations s) ->
               name l <> name sg.

(** The id the add handlers give: the clock reading in decimal. *)
Definition timestamp (env : Env) : string := Js.natStr (now env).

(** The form with the geocoding flag down, and with the pin moved as well. *)
Definition settled (f : AddLocationModal.State) : AddLocationModal.State :=
  {| AddLocationModal.name := AddLocationModal.name f;
     AddLocationModal.description := AddLocationModal.description f;
     AddLocationModal.category := AddLocationModal.category f;
     AddLocationModal.placeType := AddLocationModal.placeType f;
     AddLocationModal.coordinate := AddLocationModal.coordinate f;
     AddLocationModal.isAiLoading := AddLocationModal.isAiLoading f;
     AddLocationModal.isGeocoding := false |}.

Definition pinned (f : AddLocationModal.State) (c : Coordinate) : AddLocationModal.State :=
  {| AddLocationModal.name := AddLocationModal.name f;
     AddLocationModal.description := AddLocationModal.description f;
     AddLocationModal.category := AddLocationModal.category f;
     AddLocationModal.placeType := AddLocationModal.placeType f;
     AddLocationModal.coordinate := c;
     AddLocationModal.isAiLoading := AddLocationModal.isAiLoading f;
     AddLocationModal.isGeocoding := false |}.

(** The form after a reverse lookup that returned the body [d]. *)
Definition named (f : AddLocationModal.State) (d : Nominatim.Reverse) : AddLocationModal.State :=
  {| AddLocationModal.name := AddLocationModal.placeName d;
     AddLocationModal.description := AddLocationModal.description f;
     AddLocationModal.category := AddLocationModal.category f;
     AddLocationModal.placeType :=
       reverseType (AddLocationModal.placeType f) (AddLocationModal.amenityOf d);
     AddLocationModal.coordinate := AddLocationModal.coordinate f;
     AddLocationModal.isAiLoading := AddLocationModal.isAiLoading f;
     AddLocationModal.isGeocoding := false |}.

(** The form right after the open effect copied the draft [p] into it. *)
Definition prefilled (f : AddLocationModal.State) (p : Partial.Location)
    (currentCenter : Coordinate) : AddLocationModal.State :=
  {| AddLocationModal.name := Js.orStr (Partial.name p) "";
     AddLocationModal.description := Js.orStr (Partial.description p) "";
     AddLocationModal.category :=
       match Partial.category p with Some c => c | None => HiddenGem end;
     AddLocationModal.placeType :=
       match Partial.placeType p with Some t => t | None => Other end;
     AddLocationModal.coordinate :=
       match Partial.coordinate p with Some c => c | None => currentCenter end;
     AddLocationModal.isAiLoading := AddLocationModal.isAiLoading f;
     AddLocationModal.isGeocoding := AddLocationModal.isGeocoding f |}.

(** The empty form pinned at [c]. *)
Definition cleared (f : AddLocationModal.State) (c : Coordinate) : AddLocationModal.State :=
  {| AddLocationModal.name := ""; AddLocationModal.description := "";
     AddLocationModal.category := HiddenGem; AddLocationModal.placeType := Other;
     AddLocationModal.coordinate := c;
     AddLocationModal.isAiLoading := AddLocationModal.isAiLoading f;
     AddLocationModal.isGeocoding := AddLocationModal.isGeocoding f |}.

(** The form after the user typed the description [d], and the name [n]. *)
Definition withDescription (f : AddLocationModal.State) (d : string) : AddLocationModal.State :=
  stateOf (AddLocationModal.setDescription d f).

Definition withName (f : AddLocationModal.State) (n : string) : AddLocationModal.State :=
  stateOf (AddLocationModal.setName n f).

(** A callback that leaves the modelled cells of the parent alone, as
    closing a dialog does. *)
Definition leavesParentAlone {W} (m : M W unit) : Prop :=
  forall w, m w = (Ret tt, w, []).

(** The form while auto-fill has copied the details [result] into it and
    both spinners are still up; the form with a description [d] and both
    spinners down; the form with the auto-fill spinner down. *)
Definition analysed (f : AddLocationModal.State) (result : Ai.Result) : AddLocationModal.State :=
  {| AddLocationModal.name := AddLocationModal.name f;
     AddLocationModal.description := Js.orStr (Ai.description result) "";
     AddLocationModal.category :=
       match Ai.category result with Some c => c | None => HiddenGem end;
     AddLocationModal.placeType :=
       match Ai.placeType result with Some t => t | None => Other end;
     AddLocationModal.coordinate := AddLocationModal.coordinate f;
     AddLocationModal.isAiLoading := true;
     AddLocationModal.isGeocoding := true |}.

Definition described (f : AddLocationModal.State) (d : string) : AddLocationModal.State :=
  {| AddLocationModal.name := AddLocationModal.name f;
     AddLocationModal.description := d;
     AddLocationModal.category := AddLocationModal.category f;
     AddLocationModal.placeType := AddLocationModal.placeType f;
     AddLocationModal.coordinate := AddLocationModal.coordinate f;
     AddLocationModal.isAiLoading := false;
     AddLocationModal.isGeocoding := false |}.

Definition loaded (f : AddLocationModal.State) : AddLocationModal.State :=
  {| AddLocationModal.name := AddLocationModal.name f;
     AddLocationModal.description := AddLocationModal.description f;
     AddLocationModal.category := AddLocationModal.category f;
     AddLocationModal.placeType := AddLocationModal.placeType f;
     AddLocationModal.coordinate := AddLocationModal.coordinate f;
     AddLocationModal.isAiLoading := false;
     AddLocationModal.isGeocoding := AddLocationModal.isGeocoding f |}.

(** The error met by the auto-fill request is a quota error. *)
Definition quotaError (message : option string) : bool :=
  AddLocationModal.messageIncludes message "429" ||
  AddLocationModal.messageIncludes message "quota".

(** The address auto-fill hands to the geocoder. *)
Definition addressToGeocode (f : AddLocationModal.State) (result : Ai.Result) : string :=
  Js.orText (Ai.address result) (AddLocationModal.name f ++ " Singapore").

(** The App after it appended [saved] through the add handler. *)
Definition appended (env : Env) (s : App.State) (d : OmitId.Location) : App.State :=
  {| App.locations := (App.locations s ++ [App.withId (timestamp env) d])%list;
     App.suggestedLocations :=
       filter (fun l => negb (String.eqb (name l) (OmitId.name d)))
              (App.suggestedLocations s);
     App.selectedLocationId := Some (timestamp env);
     App.searchQuery := App.searchQuery s;
     App.searchResult := None;
     App.isSearchingArea := App.isSearchingArea s;
     App.isSearching := App.isSearching s |}.

(** The App with the Saved Set replaced. *)
Definition reordered (s : App.State) (l : list Location) : App.State :=
  {| App.locations := l;
     App.suggestedLocations := App.suggestedLocations s;
     App.selectedLocationId := App.selectedLocationId s;
     App.searchQuery := App.searchQuery s;
     App.searchResult := App.searchResult s;
     App.isSearchingArea := App.isSearchingArea s;
     App.isSearching := App.isSearching s |}.

(* ================================================================== *)
(** ** Facts about the host builtins *)
(* ================================================================== *)

Example parseDecimal_sample :
  Fixtures.parseDecimal "1.2868" = 1.2868%float /\
  Fixtures.parseDecimal " -12.5abc" = (-12.5)%float /\
  PrimFloat.is_nan (Fixtures.parseDecimal "abc") = true.
Proof. vm_compute. repeat split. Qed.

Section StringFacts.

Lemma append_assoc (a b c : string) : (a ++ b) ++ c = a ++ b ++ c.
Proof. induction a as [|x a IH]; simpl; [reflexivity | now rewrite IH]. Qed.

Lemma append_empty_r (a : string) : a ++ "" = a.
Proof. induction a as [|x a IH]; simpl; [reflexivity | now rewrite IH]. Qed.

Lemma length_append (a b : string) :
  String.length (a ++ b) = String.length a + String.length b.
Proof. induction a as [|x a IH]; simpl; [reflexivity | now rewrite IH]. Qed.

Lemma append_eq_empty (a b : string) : a ++ b = "" -> a = "" /\ b = "".
Proof. destruct a; simpl; [auto | discriminate]. Qed.

Lemma length_zero (a : string) : String.length a = 0 -> a = "".
Proof. destruct a; simpl; [reflexivity | discriminate]. Qed.

Lemma startsWith_spec (s p : string) :
  Js.startsWith s p = true <-> exists post, s = p ++ post.
Proof.
  revert s. induction p as [|a p IH]; intros s; simpl.
  - split; [intros _; now exists s | reflexivity].
  - destruct s as [|b s].
    + split; [discriminate | intros [post H]; discriminate].
    + rewrite andb_true_iff, Ascii.eqb_eq, IH. split.
      * intros [-> [post ->]]. now exists post.
      * intros [post H]. injection H as -> ->. split; [reflexivity | now exists post].
Qed.

Lemma occursAt_zero (s sub : string) :
  occursAt s 0 sub <-> exists post, s = sub ++ post.
Proof.
  split.
  - intros (pre & post & -> & Hlen). apply length_zero in Hlen. subst pre.
    now exists post.
  - intros [post ->]. now exists "", post.
Qed.

Lemma occursAt_succ (c : ascii) (r : string) (n : nat) (sub : string) :
  occursAt (String c r) (S n) sub <-> occursAt r n sub.
Proof.
  split.
  - intros (pre & post & Heq & Hlen). destruct pre as [|c' pre]; [discriminate|].
    simpl in Heq, Hlen. injection Heq as -> ->. injection Hlen as Hlen.
    now exists pre, post.
  - intros (pre & post & -> & Hlen). exists (String c pre), post.
    simpl. now rewrite Hlen.
Qed.

Lemma occursAt_empty (n : nat) (sub : string) :
  occursAt "" n sub -> n = 0 /\ sub = "".
Proof.
  intros (pre & post & Heq & Hlen). symmetry in Heq.
  apply append_eq_empty in Heq as [-> Heq]. apply append_eq_empty in Heq as [-> _].
  simpl in Hlen. auto.
Qed.

(** [includes] is the substring test. *)
Lemma includes_spec (s sub : string) :
  Js.includes s sub = true <-> exists n, occursAt s n sub.
Proof.
  induction s as [|c r IH].
  - simpl. rewrite orb_false_r, startsWith_spec. split.
    + intros H. exists 0. now apply occursAt_zero.
    + intros [n H]. apply occursAt_empty in H as [_ ->]. now exists "".
  - change (Js.includes (String c r) sub)
      with (Js.startsWith (String c r) sub || Js.includes r sub).
    rewrite orb_true_iff, startsWith_spec, IH. split.
    + intros [H | [n H]].
      * exists 0. now apply occursAt_zero.
      * exists (S n). now apply occursAt_succ.
    + intros [[|n] H].
      * left. now apply occursAt_zero.
      * right. exists n. now apply occursAt_succ in H.
Qed.

Lemma includes_ignoring_case (name q : string) :
  Js.includes (Js.toLowerCase name) (Js.toLowerCase q) = true <->
  containsIgnoringCase name q.
Proof. apply includes_spec. Qed.

End StringFacts.

Section PostalCodeFacts.

Lemma takeDigits_spec (k : nat) (s t : string) :
  Js.takeDigits k s = Some t <->
  String.length t = k /\ forallb Js.isDigit (list_ascii_of_string t) = true /\
  exists post, s = t ++ post.
Proof.
  revert s t. induction k as [|k IH]; intros s t; simpl.
  - split.
    + intros H. injection H as <-. repeat split. now exists s.
    + intros (Hlen & _ & _). apply length_zero in Hlen. now subst t.
  - destruct s as [|c r].
    + split; [discriminate|]. intros (Hlen & _ & post & Heq).
      destruct t; simpl in *; discriminate.
    + destruct (Js.isDigit c) eqn:Hc.
      * destruct (Js.takeDigits k r) as [u|] eqn:Hu; simpl.
        -- apply IH in Hu as (Hlen & Hdig & post & ->). split.
           ++ intros H. injection H as <-. simpl. rewrite Hlen, Hc, Hdig.
              repeat split. now exists post.
           ++ intros (Hlen' & Hdig' & post' & Heq).
              destruct t as [|c' t]; [discriminate|]. simpl in *.
              injection Heq as <- Heq. injection Hlen' as Hlen'.
              apply andb_true_iff in Hdig' as [_ Hdig'].
              assert (Ht : Js.takeDigits k (u ++ post) = Some t)
                by (apply IH; repeat split; eauto).
              assert (Hu' : Js.takeDigits k (u ++ post) = Some u)
                by (apply IH; repeat split; eauto).
              congruence.
        -- split; [discriminate|]. intros (Hlen' & Hdig' & post' & Heq).
           destruct t as [|c' t]; [discriminate|]. simpl in *.
           injection Heq as <- Heq. injection Hlen' as Hlen'.
           apply andb_true_iff in Hdig' as [_ Hdig'].
           assert (Ht : Js.takeDigits k r = Some t)
             by (apply IH; repeat split; eauto).
           congruence.
      * split; [discriminate|]. intros (Hlen' & Hdig' & post' & Heq).
        destruct t as [|c' t]; [discriminate|]. simpl in *.
        injection Heq as <- Heq. apply andb_true_iff in Hdig' as [Hc' _].
        congruence.
Qed.

Lemma takeDigits6_occurs (s t : string) :
  Js.takeDigits 6 s = Some t <-> sixDigits t /\ occursAt s 0 t.
Proof.
  rewrite takeDigits_spec, occursAt_zero. unfold sixDigits. tauto.
Qed.

Lemma matchDigits6_eq (s : string) :
  Js.matchDigits6 s =
  match Js.takeDigits 6 s with
  | Some t => Some t
  | None =>
      match s with
      | EmptyString => None
      | String _ r => Js.matchDigits6 r
      end
  end.
Proof. destruct s; reflexivity. Qed.

(** The regular expression finds the leftmost six consecutive digits. *)
Lemma matchDigits6_spec (s t : string) :
  Js.matchDigits6 s = Some t <-> leftmostSixDigits s t.
Proof.
  revert t. induction s as [|c r IH]; intros t; rewrite matchDigits6_eq.
  - change (Js.takeDigits 6 "") with (@None string). split; [discriminate|].
    intros ([Hlen _] & n & Hocc & _). apply occursAt_empty in Hocc as [_ ->].
    discriminate.
  - destruct (Js.takeDigits 6 (String c r)) as [u|] eqn:Hu.
    + apply takeDigits6_occurs in Hu as [Hsix Hocc]. split.
      * intros H. injection H as <-. split; [assumption|].
        exists 0. split; [assumption | intros m t' Hm; lia].
      * intros (Hsix' & [|n] & Hocc' & Hleft).
        -- assert (Hu : Js.takeDigits 6 (String c r) = Some u)
             by (apply takeDigits6_occurs; auto).
           assert (Ht : Js.takeDigits 6 (String c r) = Some t)
             by (apply takeDigits6_occurs; auto).
           congruence.
        -- exfalso. apply (Hleft 0 u); [lia | assumption | assumption].
    + rewrite IH. split.
      * intros (Hsix & n & Hocc & Hleft). split; [assumption|].
        exists (S n). split; [now apply occursAt_succ|].
        intros [|m] t' Hm Hsix' Hocc'.
        -- assert (Ht : Js.takeDigits 6 (String c r) = Some t')
             by (apply takeDigits6_occurs; auto).
           congruence.
        -- apply occursAt_succ in Hocc'. apply (Hleft m t'); [lia | assumption | assumption].
      * intros (Hsix & [|n] & Hocc & Hleft).
        -- assert (Ht : Js.takeDigits 6 (String c r) = Some t)
             by (apply takeDigits6_occurs; auto).
           congruence.
        -- split; [assumption|]. exists n. split; [now apply occursAt_succ in Hocc|].
           intros m t' Hm Hsix' Hocc'. apply (Hleft (S m) t'); [lia | assumption|].
           now apply occursAt_succ.
Qed.

(** It finds one whenever the string has six consecutive digits anywhere. *)
Lemma matchDigits6_complete (s : string) (n : nat) (t : string) :
  sixDigits t -> occursAt s n t -> exists u, Js.matchDigits6 s = Some u.
Proof.
  revert n. induction s as [|c r IH]; intros n Hsix Hocc; rewrite matchDigits6_eq.
  - apply occursAt_empty in Hocc as [_ ->]. destruct Hsix as [Hlen _]. discriminate.
  - destruct (Js.takeDigits 6 (String c r)) as [u|] eqn:Hu; [now exists u|].
    destruct n as [|n].
    + assert (Ht : Js.takeDigits 6 (String c r) = Some t)
        by (apply takeDigits6_occurs; auto).
      congruence.
    + apply occursAt_succ in Hocc. now apply (IH n).
Qed.

End PostalCodeFacts.

(* ================================================================== *)
(** ** Toggle-visited: the frame of the update *)
(* ================================================================== *)

Section ToggleVisited.

Lemma toggleVisited_nth (i : string) (prev : list Location) (k : nat) :
  nth_error (App.toggleVisited i prev) k =
  option_map (fun loc => if String.eqb (id loc) i
                         then withVisited (Some (App.notVisited loc)) loc
                         else loc)
             (nth_error prev k).
Proof. unfold App.toggleVisited. apply nth_error_map. Qed.

Lemma toggleVisited_absent (i : string) (prev : list Location) :
  (forall loc, In loc prev -> id loc <> i) -> App.toggleVisited i prev = prev.
Proof.
  induction prev as [|loc prev IH]; intros H; simpl; [reflexivity|].
  destruct (String.eqb_spec (id loc) i) as [E|_].
  - exfalso. apply (H loc); [now left | assumption].
  - f_equal. apply IH. intros l Hl. apply H. now right.
Qed.

Lemma withVisited_same (v : option bool) (loc : Location) :
  sameButVisited loc (withVisited v loc).
Proof. unfold sameButVisited. simpl. repeat split. Qed.

(** C10. For every Saved Set and every id, toggle-visited keeps the length
    and the order of the Saved Set; at each position the place keeps every
    field but [visited]; a place whose id matches gets [visited] negated
    (an absent flag counts as false), every other place is unchanged; no
    other state cell changes, nothing is called or shown; and when no place
    has the id the whole state is unchanged. *)
Theorem handleToggleVisited_frame (i : string) (s : App.State) :
  let r := App.handleToggleVisited i s in
  outcomeOf r = Ret tt /\ traceOf r = [] /\
  App.suggestedLocations (stateOf r) = App.suggestedLocations s /\
  App.selectedLocationId (stateOf r) = App.selectedLocationId s /\
  App.searchQuery (stateOf r) = App.searchQuery s /\
  App.searchResult (stateOf r) = App.searchResult s /\
  App.isSearchingArea (stateOf r) = App.isSearchingArea s /\
  App.isSearching (stateOf r) = App.isSearching s /\
  List.length (App.locations (stateOf r)) = List.length (App.locations s) /\
  map id (App.locations (stateOf r)) = map id (App.locations s) /\
  (forall k loc, nth_error (App.locations s) k = Some loc ->
     exists loc', nth_error (App.locations (stateOf r)) k = Some loc' /\
       sameButVisited loc loc' /\
       (id loc = i -> visited loc' = Some (App.notVisited loc)) /\
       (id loc <> i -> loc' = loc)) /\
  ((forall loc, In loc (App.locations s) -> id loc <> i) -> stateOf r = s).
Proof.
  cbn. repeat split.
  - unfold App.toggleVisited. apply length_map.
  - unfold App.toggleVisited. rewrite map_map. apply map_ext.
    intros loc. now destruct (String.eqb (id loc) i).
  - intros k loc Hk. rewrite toggleVisited_nth, Hk. simpl.
    destruct (String.eqb_spec (id loc) i) as [E|E].
    + eexists. split; [reflexivity|]. split; [apply withVisited_same|].
      split; [reflexivity | contradiction].
    + exists loc. split; [reflexivity|]. split.
      * unfold sameButVisited. repeat split.
      * split; [contradiction | reflexivity].
  - intros H. rewrite (toggleVisited_absent _ _ H). now destruct s.
Qed.

(** The theorem at the mock Saved Set: toggling id 3 flips Tiong Bahru
    Bakery from unvisited to visited and leaves Merlion Park alone; toggling
    an unknown id changes nothing. *)
Lemma handleToggleVisited_frame_witness :
  (exists loc', nth_error (App.locations (stateOf (App.handleToggleVisited "3" (Fixtures.initial "")))) 2 = Some loc' /\
                name loc' = "Tiong Bahru Bakery" /\ visited loc' = Some true) /\
  nth_error (App.locations (stateOf (App.handleToggleVisited "3" (Fixtures.initial "")))) 1
    = nth_error Fixtures.MOCK_LOCATIONS 1 /\
  stateOf (App.handleToggleVisited "9" (Fixtures.initial "")) = Fixtures.initial "".
Proof.
  pose proof (handleToggleVisited_frame "3" (Fixtures.initial "")) as H3.
  pose proof (handleToggleVisited_frame "9" (Fixtures.initial "")) as H9.
  cbv zeta in H3, H9.
  destruct H3 as (_ & _ & _ & _ & _ & _ & _ & _ & _ & _ & Hnth & _).
  destruct H9 as (_ & _ & _ & _ & _ & _ & _ & _ & _ & _ & _ & Habs).
  split; [|split].
  - destruct (Hnth 2 _ eq_refl) as (loc' & Hk & Hsame & Hvis & _).
    exists loc'. split; [exact Hk|]. split.
    + destruct Hsame as (_ & Hname & _). exact Hname.
    + apply Hvis. reflexivity.
  - destruct (Hnth 1 _ eq_refl) as (loc' & Hk & _ & _ & Hsame).
    rewrite Hk. rewrite Hsame; [reflexivity | discriminate].
  - apply Habs. intros loc Hin. simpl in Hin.
    repeat (destruct Hin as [<- | Hin]; [discriminate|]). contradiction.
Defined.

End ToggleVisited.

(* ================================================================== *)
(** ** Text search: dispatch of handleGlobalSearch *)
(* ================================================================== *)

Section FindFacts.

Context {A : Type}.

Lemma find_first (f : A -> bool) (l : list A) (x : A) :
  find f l = Some x ->
  exists before after,
    l = (before ++ x :: after)%list /\ f x = true /\
    forall y, In y before -> f y = false.
Proof.
  induction l as [|a l IH]; simpl; [discriminate|].
  destruct (f a) eqn:Ha.
  - intros H. injection H as <-. exists [], l. repeat split; [assumption|].
    intros y [].
  - intros H. destruct (IH H) as (before & after & -> & Hx & Hb).
    exists (a :: before), after. repeat split; [assumption|].
    intros y [<- | Hy]; [assumption | now apply Hb].
Qed.

Lemma find_exists (f : A -> bool) (l : list A) :
  (exists y, In y l /\ f y = true) -> exists x, find f l = Some x.
Proof.
  intros (y & Hy & Hf). destruct (find f l) as [x|] eqn:E; [now exists x|].
  rewrite (find_none f l E y Hy) in Hf. discriminate.
Qed.

End FindFacts.

Section GlobalSearchDispatch.

Variable env : Env.

Lemma handleGlobalSearch_blank (s : App.State) :
  Js.trim (App.searchQuery s) = "" ->
  App.handleGlobalSearch env s = (Ret tt, s, []).
Proof.
  intros H. unfold App.handleGlobalSearch, bind, get. now rewrite H.
Qed.

Lemma truthyStr_true (t : string) : t <> "" -> Js.truthyStr t = true.
Proof.
  intros H. unfold Js.truthyStr. now destruct (String.eqb_spec t "").
Qed.

Lemma handleGlobalSearch_local (s : App.State) (l : Location) :
  Js.trim (App.searchQuery s) <> "" ->
  App.localMatch (App.searchQuery s) (App.locations s) = Some l ->
  App.handleGlobalSearch env s = (Ret tt, afterLocalHit s l, []).
Proof.
  intros Hq Hl. unfold App.handleGlobalSearch, bind, get.
  rewrite (truthyStr_true _ Hq), Hl. reflexivity.
Qed.

Lemma handleGlobalSearch_remote (s : App.State) :
  Js.trim (App.searchQuery s) <> "" ->
  App.localMatch (App.searchQuery s) (App.locations s) = None ->
  App.handleGlobalSearch env s =
  tryCatchFinally
    (App.remoteSearch env (App.searchQuery s))
    (fun _ => bind (emit (ConsoleError "Global search error"))
                   (fun _ => emit (Alert searchFailedMessage)))
    (App.setIsSearching false)
    (searching s).
Proof.
  intros Hq Hl. unfold App.handleGlobalSearch, bind at 1, get.
  rewrite (truthyStr_true _ Hq), Hl. cbn [negb].
  unfold bind at 1. cbn [App.setIsSearching modify].
  fold (searching s).
  destruct (tryCatchFinally _ _ _ (searching s)) as [[o s'] t]. reflexivity.
Qed.

End GlobalSearchDispatch.

(* ================================================================== *)
(** ** Tier 0: the local match *)
(* ================================================================== *)

Section LocalMatch.

Variable env : Env.

Lemma find_by_id_unique (l : list Location) (before after : list Location) (p : Location) :
  NoDup (map id l) -> l = (before ++ p :: after)%list ->
  find (fun x => String.eqb (id x) (id p)) l = Some p.
Proof.
  intros Hnd ->. induction before as [|b before IH]; simpl in *.
  - now rewrite String.eqb_refl.
  - inversion Hnd as [|? ? Hnotin Hnd']; subst.
    destruct (String.eqb_spec (id b) (id p)) as [E|_].
    + exfalso. apply Hnotin. rewrite E, map_app. apply in_or_app. right. now left.
    + now apply IH.
Qed.

End LocalMatch.

(* ================================================================== *)
(** ** Tier 1 and tier 2: the remote search *)
(* ================================================================== *)

Section RemoteSearch.

Variable env : Env.
Variable s : App.State.

Let q := App.searchQuery s.

Hypothesis query_accepted : Js.trim q <> "".
Hypothesis no_local_match : App.localMatch q (App.locations s) = None.

Ltac start_remote :=
  rewrite (handleGlobalSearch_remote env s query_accepted no_local_match);
  unfold tryCatchFinally, App.remoteSearch, App.askAI, bind, emit, throw, ret;
  fold q.

(** A hard failure of the structured-knowledge call ends the search in the
    [catch] block. *)
Lemma search_ai_hard_failure :
  aiHardFailure (generateContent env q) = true ->
  App.handleGlobalSearch env s =
  (Ret tt, idle s,
   [CallAI q; ConsoleError "Global search error"; Alert searchFailedMessage]).
Proof.
  intros H. start_remote.
  destruct (generateContent env q); try discriminate; reflexivity.
Qed.

Ltac step_remote :=
  unfold App.fallbackGeocoding, App.searchNominatim, App.genericFallback,
    App.setSearchResult, App.setSelectedLocationId, App.setIsSearching,
    modify, bind, emit, throw, ret.

(** Truthy coordinates from the structured-knowledge service are taken as
    they are. *)
Lemma search_ai_direct (result : Ai.Result) (la ln : float) :
  generateContent env q = Ai.Json result ->
  App.resultLat result = Some la -> App.resultLng result = Some ln ->
  Js.truthyNum la = true -> Js.truthyNum ln = true ->
  App.handleGlobalSearch env s =
  (Ret tt, found s (App.aiLocation env q result la ln), [CallAI q]).
Proof.
  intros Hai Hla Hln Tla Tln. start_remote. rewrite Hai. step_remote.
  unfold App.missing. rewrite Hla, Hln. cbn [Js.truthyOpt].
  rewrite Tla, Tln. cbn. rewrite Tla, Tln. reflexivity.
Qed.

Lemma missing_not_usable (a b : option float) :
  App.missing a b = true -> App.usable a b = None.
Proof.
  unfold App.missing, App.usable.
  destruct a as [x|], b as [y|]; cbn; try reflexivity.
  destruct (Js.truthyNum x), (Js.truthyNum y); cbn; congruence.
Qed.

(** The geocoding step found an entry with truthy coordinates. *)
Lemma search_geocoded (result : Ai.Result) (g : Nominatim.SearchSuggestion)
    (rest : list Nominatim.SearchSuggestion) :
  generateContent env q = Ai.Json result ->
  App.missing (App.resultLat result) (App.resultLng result) = true ->
  nominatimSearch env (App.geocodeQuery result) 1 = FetchJson (Some (g :: rest)) ->
  Js.truthyNum (parseFloat env (Nominatim.lat g)) = true ->
  Js.truthyNum (parseFloat env (Nominatim.lon g)) = true ->
  App.handleGlobalSearch env s =
  (Ret tt,
   found s (App.aiLocation env q result (parseFloat env (Nominatim.lat g))
                                        (parseFloat env (Nominatim.lon g))),
   [CallAI q; ConsoleLog (geocodeLog result); CallNominatim (App.geocodeQuery result) 1]).
Proof.
  intros Hai Hmiss Hgeo Tla Tln. start_remote. rewrite Hai. step_remote.
  rewrite Hmiss, Hgeo. unfold geocodeLog.
  destruct (App.postalMatch (Ai.address result)); cbn; rewrite Tla, Tln; reflexivity.
Qed.

(** The directory call of the geocoding step failed: the [catch] block. *)
Lemma search_geocode_failed (result : Ai.Result) :
  generateContent env q = Ai.Json result ->
  App.missing (App.resultLat result) (App.resultLng result) = true ->
  (nominatimSearch env (App.geocodeQuery result) 1 = FetchRejected \/
   nominatimSearch env (App.geocodeQuery result) 1 = FetchNotJson) ->
  App.handleGlobalSearch env s =
  (Ret tt, idle s,
   [CallAI q; ConsoleLog (geocodeLog result); CallNominatim (App.geocodeQuery result) 1;
    ConsoleError "Global search error"; Alert searchFailedMessage]).
Proof.
  intros Hai Hmiss Hgeo. start_remote. rewrite Hai. step_remote.
  rewrite Hmiss. unfold geocodeLog.
  destruct Hgeo as [-> | ->];
    destruct (App.postalMatch (Ai.address result)); reflexivity.
Qed.

(** The geocoding step answered without a usable coordinate: the handler
    goes on to the generic fallback, whose reply decides the rest. *)
Lemma search_fallback (result : Ai.Result)
    (data : option (list Nominatim.SearchSuggestion)) :
  generateContent env q = Ai.Json result ->
  App.missing (App.resultLat result) (App.resultLng result) = true ->
  nominatimSearch env (App.geocodeQuery result) 1 = FetchJson data ->
  directoryUnusable env (FetchJson data) = true ->
  App.handleGlobalSearch env s =
  let tier1 := [CallAI q; ConsoleLog (geocodeLog result);
                CallNominatim (App.geocodeQuery result) 1;
                CallNominatim (fallbackQuery q) 1] in
  match nominatimSearch env (fallbackQuery q) 1 with
  | FetchJson (Some (best :: _)) =>
      (Ret tt, found s (App.fallbackLocation env q best), tier1)
  | FetchJson _ =>
      (Ret tt, idle s, (tier1 ++ [Alert (App.notFoundMessage q)])%list)
  | _ =>
      (Ret tt, idle s,
       (tier1 ++ [ConsoleError "Global search error"; Alert searchFailedMessage])%list)
  end.
Proof.
  intros Hai Hmiss Hgeo Hun. start_remote. rewrite Hai. step_remote.
  rewrite Hmiss, Hgeo. unfold geocodeLog, fallbackQuery.
  pose proof (missing_not_usable _ _ Hmiss) as Hnot.
  destruct (App.postalMatch (Ai.address result));
    (destruct data as [[|g rest]|]; cbn -[String.append];
     [ rewrite Hnot | | rewrite Hnot ];
     [ | cbn in Hun; apply negb_true_iff in Hun; rewrite Hun | ];
     destruct (nominatimSearch env (q ++ " Singapore") 1)
       as [| |[[|best more]|]]; reflexivity).
Qed.

Lemma not_missing (a b : option float) :
  App.missing a b = false ->
  exists x y, a = Some x /\ b = Some y /\
              Js.truthyNum x = true /\ Js.truthyNum y = true.
Proof.
  unfold App.missing. destruct a as [x|], b as [y|]; cbn; try discriminate.
  - intros H. apply orb_false_iff in H as [Hx Hy].
    apply negb_false_iff in Hx, Hy. now exists x, y.
  - rewrite orb_true_r. discriminate.
Qed.

Lemma directory_usable (data : option (list Nominatim.SearchSuggestion)) :
  directoryUnusable env (FetchJson data) = false ->
  exists g rest, data = Some (g :: rest) /\
    Js.truthyNum (parseFloat env (Nominatim.lat g)) = true /\
    Js.truthyNum (parseFloat env (Nominatim.lon g)) = true.
Proof.
  destruct data as [[|g rest]|]; cbn; try discriminate.
  intros H. apply negb_false_iff, andb_true_iff in H. now exists g, rest.
Qed.


(** Without a local match the first thing the handler does is to call the
    structured-knowledge service with the search text as it stands. *)
Lemma search_remote_first_call :
  exists rest, traceOf (App.handleGlobalSearch env s) = CallAI q :: rest.
Proof.
  destruct (aiHardFailure (generateContent env q)) eqn:Hhard.
  { rewrite (search_ai_hard_failure Hhard). cbn. eauto. }
  destruct (generateContent env q) as [| | | | |result] eqn:Hai; try discriminate.
  destruct (App.missing (App.resultLat result) (App.resultLng result)) eqn:Hmiss.
  - destruct (nominatimSearch env (App.geocodeQuery result) 1) as [| |data] eqn:Hgeo.
    + rewrite (search_geocode_failed result Hai Hmiss); auto. cbn. eauto.
    + rewrite (search_geocode_failed result Hai Hmiss); auto. cbn. eauto.
    + destruct (directoryUnusable env (FetchJson data)) eqn:Hun.
      * rewrite (search_fallback result data Hai Hmiss Hgeo Hun). cbv zeta.
        destruct (nominatimSearch env (fallbackQuery q) 1) as [| |[[|b m]|]];
          cbn; eauto.
      * destruct (directory_usable data Hun) as (g & rest & -> & Tla & Tln).
        rewrite (search_geocoded result g rest Hai Hmiss Hgeo Tla Tln). cbn. eauto.
  - destruct (not_missing _ _ Hmiss) as (la & ln & Hla & Hln & Tla & Tln).
    rewrite (search_ai_direct result la ln Hai Hla Hln Tla Tln). cbn. eauto.
Qed.

End RemoteSearch.


(* ================================================================== *)
(** ** Tier 0: the local match decides on the text as typed *)
(* ================================================================== *)

(** C2, as amended. For every query that is non-empty after trimming and
    every Saved Set: if some saved place's name contains the search text as
    typed, surrounding white space included, as a case-insensitive
    substring, the handler selects the first such place in Saved Set order,
    clears the temporary result, and produces no event at all: no remote
    call, no alert, no log; with unique ids the selected place shown is that
    very place. If no saved name contains the text as typed, tier 0 misses
    and the first event of the run is the call of the structured-knowledge
    service with that text, whatever the trimmed text is contained in. *)
Theorem local_match_short_circuits (env : Env) (s : App.State) :
  Js.trim (App.searchQuery s) <> "" ->
  let r := App.handleGlobalSearch env s in
  ((exists p, In p (App.locations s) /\
              containsIgnoringCase (name p) (App.searchQuery s)) ->
   exists before p after,
     App.locations s = (before ++ p :: after)%list /\
     containsIgnoringCase (name p) (App.searchQuery s) /\
     (forall p', In p' before -> ~ containsIgnoringCase (name p') (App.searchQuery s)) /\
     outcomeOf r = Ret tt /\
     traceOf r = [] /\ remoteCalls (traceOf r) = [] /\
     App.selectedLocationId (stateOf r) = Some (id p) /\
     App.searchResult (stateOf r) = None /\
     App.locations (stateOf r) = App.locations s /\
     App.isSearching (stateOf r) = false /\
     (NoDup (map id (App.locations s)) -> App.selectedLocation (stateOf r) = Some p)) /\
  ((forall p, In p (App.locations s) ->
              ~ containsIgnoringCase (name p) (App.searchQuery s)) ->
   exists rest, traceOf r = CallAI (App.searchQuery s) :: rest).
Proof.
  intros Hq r. subst r. split.
  - intros (p0 & Hin & Hci).
    destruct (find_exists
                (fun l => Js.includes (Js.toLowerCase (name l))
                                      (Js.toLowerCase (App.searchQuery s)))
                (App.locations s)) as [p Hp].
    { exists p0. split; [assumption | now apply includes_ignoring_case]. }
    destruct (find_first _ _ _ Hp) as (before & after & Hsplit & Hmatch & Hbefore).
    exists before, p, after. split; [assumption|].
    split; [now apply includes_ignoring_case|].
    split.
    { intros p' Hp' Hc. apply includes_ignoring_case in Hc.
      rewrite (Hbefore p' Hp') in Hc. discriminate. }
    rewrite (handleGlobalSearch_local env s p Hq Hp). cbn.
    repeat split. intros Hnd.
    unfold App.selectedLocation. cbn.
    now rewrite (find_by_id_unique _ _ _ _ Hnd Hsplit).
  - intros Hnone. apply search_remote_first_call; [assumption|].
    unfold App.localMatch.
    destruct (find _ (App.locations s)) as [p|] eqn:Hp; [|reflexivity].
    exfalso. apply (Hnone p).
    + now apply (find_some _ _ Hp).
    + apply includes_ignoring_case. now apply (find_some _ _ Hp).
Qed.

(** The spec's example: with "Tiong Bahru Bakery" saved, that query selects
    it and nothing is sent anywhere; the query "Raffles" is in no saved
    name, and the service is called. *)
Lemma local_match_short_circuits_witness :
  (let s := Fixtures.initial "Tiong Bahru Bakery" in
   let r := App.handleGlobalSearch Fixtures.offline s in
   exists before p after,
     App.locations s = (before ++ p :: after)%list /\
     traceOf r = [] /\
     App.selectedLocationId (stateOf r) = Some (id p) /\
     (NoDup (map id (App.locations s)) -> App.selectedLocation (stateOf r) = Some p)) /\
  (exists rest,
     traceOf (App.handleGlobalSearch Fixtures.offline (Fixtures.initial "Raffles"))
     = CallAI "Raffles" :: rest).
Proof.
  split.
  - destruct (local_match_short_circuits Fixtures.offline
                (Fixtures.initial "Tiong Bahru Bakery")) as (Hhit & _).
    + vm_compute. discriminate.
    + destruct Hhit as (before & p & after & H1 & _ & _ & _ & H2 & _ & H3 & _ & _ & _ & H4).
      * eexists. split.
        -- right. right. left. reflexivity.
        -- apply includes_ignoring_case. vm_compute. reflexivity.
      * exists before, p, after. auto.
  - destruct (local_match_short_circuits Fixtures.offline (Fixtures.initial "Raffles"))
      as (_ & Hmiss).
    + vm_compute. discriminate.
    + apply Hmiss. intros p Hp Hc. apply includes_ignoring_case in Hc.
      simpl in Hp.
      repeat (destruct Hp as [<- | Hp]; [vm_compute in Hc; discriminate|]).
      contradiction.
Defined.

Example local_match_selects_bakery :
  let r := App.handleGlobalSearch Fixtures.offline (Fixtures.initial "Tiong Bahru Bakery") in
  App.selectedLocationId (stateOf r) = Some "3" /\ traceOf r = [].
Proof. vm_compute. split; reflexivity. Qed.

(** C2 as stated fails at a query typed with a trailing space. The
    normalized query "Bakery" is not empty and "Tiong Bahru Bakery" contains
    it, yet the handler compares the text as typed, finds no saved place,
    calls the structured-knowledge service and selects nothing. *)
Lemma local_match_untrimmed_counterexample :
  let s := Fixtures.initial "Bakery " in
  Js.trim (App.searchQuery s) = "Bakery" /\
  (exists p, In p (App.locations s) /\
             containsIgnoringCase (name p) (Js.trim (App.searchQuery s))) /\
  App.localMatch (App.searchQuery s) (App.locations s) = None /\
  remoteCalls (traceOf (App.handleGlobalSearch Fixtures.offline s)) = [CallAI "Bakery "] /\
  App.selectedLocationId (stateOf (App.handleGlobalSearch Fixtures.offline s)) = None.
Proof.
  intros s. split; [reflexivity|]. split.
  - eexists. split.
    + right. right. left. reflexivity.
    + apply includes_ignoring_case. vm_compute. reflexivity.
  - vm_compute. repeat split.
Qed.

(* ================================================================== *)
(** ** Tier 1: failures of the structured-knowledge service *)
(* ================================================================== *)


(** With a parsed body that lacks usable coordinates the run always goes
    on to the directory, whatever happens afterwards. *)
Lemma search_reaches_directory (env : Env) (s : App.State) (result : Ai.Result) :
  Js.trim (App.searchQuery s) <> "" ->
  App.localMatch (App.searchQuery s) (App.locations s) = None ->
  generateContent env (App.searchQuery s) = Ai.Json result ->
  App.missing (App.resultLat result) (App.resultLng result) = true ->
  exists rest,
    traceOf (App.handleGlobalSearch env s)
    = CallAI (App.searchQuery s) :: ConsoleLog (geocodeLog result)
        :: CallNominatim (App.geocodeQuery result) 1 :: rest.
Proof.
  intros Hq Hl Hai Hmiss.
  destruct (nominatimSearch env (App.geocodeQuery result) 1) as [| |data] eqn:Hgeo.
  - rewrite (search_geocode_failed env s Hq Hl result Hai Hmiss); auto.
    cbn. eauto.
  - rewrite (search_geocode_failed env s Hq Hl result Hai Hmiss); auto.
    cbn. eauto.
  - destruct (directoryUnusable env (FetchJson data)) eqn:Hun.
    + rewrite (search_fallback env s Hq Hl result data Hai Hmiss Hgeo Hun). cbv zeta.
      destruct (nominatimSearch env (fallbackQuery (App.searchQuery s)) 1)
        as [| |[[|b m]|]]; cbn; eauto.
    + destruct (directory_usable env data Hun) as (g & rest & -> & Tla & Tln).
      rewrite (search_geocoded env s Hq Hl result g rest Hai Hmiss Hgeo Tla Tln).
      cbn. eauto.
Qed.




(* ================================================================== *)
(** ** Tier 1: coordinates supplied by the structured-knowledge service *)
(* ================================================================== *)

Lemma finite_nonzero_truthy (x : float) :
  Js.isFinite x = true -> PrimFloat.is_zero x = false -> Js.truthyNum x = true.
Proof.
  unfold Js.isFinite, PrimFloat.is_finite, Js.truthyNum. intros Hfin Hz.
  apply negb_true_iff, orb_false_iff in Hfin as [Hnan _].
  now rewrite Hnan, Hz.
Qed.

(** C4, as amended. For every structured-knowledge response whose
    [coordinates.lat] and [coordinates.lng] are both finite numbers other
    than zero, the handler stores a temporary result with exactly that
    coordinate and the only remote call of the run is the one to the
    structured-knowledge service. *)
Theorem ai_coordinates_accepted (env : Env) (s : App.State)
    (result : Ai.Result) (la ln : float) :
  Js.trim (App.searchQuery s) <> "" ->
  App.localMatch (App.searchQuery s) (App.locations s) = None ->
  generateContent env (App.searchQuery s) = Ai.Json result ->
  App.resultLat result = Some la -> App.resultLng result = Some ln ->
  Js.isFinite la = true -> Js.isFinite ln = true ->
  PrimFloat.is_zero la = false -> PrimFloat.is_zero ln = false ->
  let r := App.handleGlobalSearch env s in
  remoteCalls (traceOf r) = [CallAI (App.searchQuery s)] /\
  alerts (traceOf r) = [] /\
  exists l,
    App.searchResult (stateOf r) = Some l /\
    coordinate l = {| lat := la; lng := ln |} /\
    App.selectedLocationId (stateOf r) = Some (id l).
Proof.
  intros Hq Hl Hai Hla Hln Fla Fln Zla Zln r. subst r.
  rewrite (search_ai_direct env s Hq Hl result la ln Hai Hla Hln
             (finite_nonzero_truthy la Fla Zla) (finite_nonzero_truthy ln Fln Zln)).
  cbn. repeat split. eexists. repeat split.
Qed.

Lemma ai_coordinates_accepted_witness :
  let r := App.handleGlobalSearch Fixtures.preciseWorld (Fixtures.initial "marina bay sands") in
  remoteCalls (traceOf r) = [CallAI "marina bay sands"] /\
  alerts (traceOf r) = [] /\
  exists l,
    App.searchResult (stateOf r) = Some l /\
    coordinate l = {| lat := 1.2834%float; lng := 103.8607%float |} /\
    App.selectedLocationId (stateOf r) = Some (id l).
Proof.
  apply (ai_coordinates_accepted Fixtures.preciseWorld (Fixtures.initial "marina bay sands")
           (Fixtures.locatedResult "Marina Bay Sands" "10 Bayfront Ave, Singapore 018956"
              1.2834%float 103.8607%float)).
  - vm_compute. discriminate.
  - vm_compute. reflexivity.
  - reflexivity.
  - reflexivity.
  - reflexivity.
  - vm_compute. reflexivity.
  - vm_compute. reflexivity.
  - vm_compute. reflexivity.
  - vm_compute. reflexivity.
Defined.

(** C4 as stated fails at a latitude of zero: both coordinates are finite
    numbers, yet the handler treats them as missing, queries the directory
    with the address and stores the directory's coordinate. *)
Lemma ai_zero_latitude_counterexample :
  generateContent Fixtures.zeroWorld "equator cafe"
    = Ai.Json (Fixtures.locatedResult "Equator Cafe" "1 Equator Way" 0%float 103.8198%float) /\
  Js.isFinite 0%float = true /\ Js.isFinite 103.8198%float = true /\
  remoteCalls (traceOf (App.handleGlobalSearch Fixtures.zeroWorld (Fixtures.initial "equator cafe")))
    = [CallAI "equator cafe"; CallNominatim "1 Equator Way" 1] /\
  option_map coordinate
    (App.searchResult (stateOf (App.handleGlobalSearch Fixtures.zeroWorld (Fixtures.initial "equator cafe"))))
    = Some {| lat := 1.3%float; lng := 103.8%float |}.
Proof. vm_compute. repeat split. Qed.

(* ================================================================== *)
(** ** Tier 2 exhausted: the terminal failure *)
(* ================================================================== *)

(** C6, as amended. For every accepted query with no local match, when
    tier 1 yields no usable coordinate and the directory answers the
    fallback query with an empty array, the search ends without a result:
    the state is the one from before with the busy flag down, so no
    temporary result is created and the selection is untouched, and exactly
    one alert is shown. When both calls of tier 1 answered, the three remote
    calls are made once each, in tier order, and the alert reads: Could not
    find a specific location for, the query in double quotes, a full stop.
    When a call of tier 1 failed outright the run stops at that call: the
    fallback is not queried and the alert is "Search failed. Please try
    again." *)
Theorem search_not_found (env : Env) (s : App.State) :
  Js.trim (App.searchQuery s) <> "" ->
  App.localMatch (App.searchQuery s) (App.locations s) = None ->
  tier1Unusable env (App.searchQuery s) = true ->
  nominatimSearch env (App.searchQuery s ++ " Singapore") 1 = FetchJson (Some []) ->
  let q := App.searchQuery s in
  let r := App.handleGlobalSearch env s in
  outcomeOf r = Ret tt /\
  stateOf r = idle s /\
  App.searchResult (stateOf r) = App.searchResult s /\
  App.selectedLocationId (stateOf r) = App.selectedLocationId s /\
  (tier1Answered env q = true ->
     alerts (traceOf r)
     = ["Could not find a specific location for "
          ++ String (ascii_of_nat 34) (q ++ String (ascii_of_nat 34) ".")] /\
     exists result,
       generateContent env q = Ai.Json result /\
       remoteCalls (traceOf r)
       = [CallAI q; CallNominatim (App.geocodeQuery result) 1;
          CallNominatim (q ++ " Singapore") 1]) /\
  (tier1Answered env q = false ->
     alerts (traceOf r) = ["Search failed. Please try again."] /\
     (remoteCalls (traceOf r) = [CallAI q] \/
      exists result,
        generateContent env q = Ai.Json result /\
        remoteCalls (traceOf r) = [CallAI q; CallNominatim (App.geocodeQuery result) 1])).
Proof.
  intros Hq Hl Hun Hfb q r. subst r. unfold tier1Unusable, tier1Answered in *.
  fold q in Hun, Hfb.
  destruct (generateContent env q) as [| | | | |result] eqn:Hai.
  1-5: rewrite (search_ai_hard_failure env s Hq Hl) by (fold q; now rewrite Hai);
       cbn; repeat split; try discriminate; auto.
  apply andb_true_iff in Hun as [Hmiss Hdir].
  destruct (nominatimSearch env (App.geocodeQuery result) 1) as [| |data] eqn:Hgeo.
  1-2: rewrite (search_geocode_failed env s Hq Hl result Hai Hmiss) by auto;
       cbn; repeat split; try discriminate; eauto.
  rewrite (search_fallback env s Hq Hl result data Hai Hmiss Hgeo Hdir).
  cbv zeta. unfold fallbackQuery. fold q. rewrite Hfb. cbn.
  repeat split; try discriminate; eauto.
Qed.

Lemma search_not_found_witness :
  let r := App.handleGlobalSearch Fixtures.emptyWorld (Fixtures.initial "Bunnies") in
  stateOf r = Fixtures.initial "Bunnies" /\
  alerts (traceOf r)
  = ["Could not find a specific location for "
       ++ String (ascii_of_nat 34) ("Bunnies" ++ String (ascii_of_nat 34) ".")] /\
  remoteCalls (traceOf r)
  = [CallAI "Bunnies"; CallNominatim "Bunnies Bakery Singapore" 1;
     CallNominatim "Bunnies Singapore" 1].
Proof.
  destruct (search_not_found Fixtures.emptyWorld (Fixtures.initial "Bunnies"))
    as (_ & Hstate & _ & _ & Hanswered & _).
  - vm_compute. discriminate.
  - vm_compute. reflexivity.
  - vm_compute. reflexivity.
  - reflexivity.
  - destruct (Hanswered eq_refl) as (Halert & result & Hai & Hcalls).
    split; [exact Hstate|]. split; [exact Halert|].
    injection Hai as <-. exact Hcalls.
Defined.

(** C6 as stated fails when the structured-knowledge service is out of
    reach: there is no local match, no tier yields a coordinate and the
    directory would answer the fallback query with an empty array, yet the
    fallback is never queried and the one alert is the generic "Search
    failed", not the not-found notice. *)
Lemma search_not_found_rejected_counterexample :
  let s := Fixtures.initial "Bunnies" in
  let r := App.handleGlobalSearch Fixtures.unreachableWorld s in
  Js.trim (App.searchQuery s) <> "" /\
  App.localMatch (App.searchQuery s) (App.locations s) = None /\
  generateContent Fixtures.unreachableWorld "Bunnies" = Ai.Rejected /\
  tier1Unusable Fixtures.unreachableWorld "Bunnies" = true /\
  nominatimSearch Fixtures.unreachableWorld "Bunnies Singapore" 1 = FetchJson (Some []) /\
  remoteCalls (traceOf r) = [CallAI "Bunnies"] /\
  alerts (traceOf r) = ["Search failed. Please try again."] /\
  alerts (traceOf r)
  <> ["Could not find a specific location for "
        ++ String (ascii_of_nat 34) ("Bunnies" ++ String (ascii_of_nat 34) ".")].
Proof. vm_compute. repeat split; discriminate. Qed.

(* ================================================================== *)
(** ** The precision hint: postal codes *)
(* ================================================================== *)

Section PostalCode.

Lemma occurs_nonempty (a : string) (n : nat) (t : string) :
  sixDigits t -> occursAt a n t -> Js.truthyStr a = true.
Proof.
  intros [Hlen _] (pre & post & -> & _). apply truthyStr_true. intros H.
  apply append_eq_empty in H as [_ H]. apply append_eq_empty in H as [-> _].
  discriminate.
Qed.

Lemma performGeocode_query (env : Env) (queryName : string)
    (queryAddress : option string) (form : AddLocationModal.State) :
  exists rest,
    traceOf (AddLocationModal.performGeocode env queryName queryAddress form)
    = CallNominatim (AddLocationModal.geocodeQuery queryName queryAddress) 5 :: rest.
Proof.
  unfold AddLocationModal.performGeocode, tryCatchFinally, bind, emit, throw, ret,
    AddLocationModal.setIsGeocoding, AddLocationModal.setCoordinate, modify.
  destruct (nominatimSearch env _ 5) as [| |data]; cbn; eauto.
  destruct (AddLocationModal.bestMatch queryAddress data); cbn; eauto.
Qed.

(** What the pattern yields for every address: the leftmost run of six
    consecutive digits, which then makes the directory query of
    [performGeocode] and, when the structured-knowledge coordinates are
    missing, of the text search. *)
Lemma leftmost_run_is_queried (a : string) :
  (exists n t, sixDigits t /\ occursAt a n t) ->
  exists code,
    Js.matchDigits6 a = Some code /\
    leftmostSixDigits a code /\
    (forall t, leftmostSixDigits a t -> t = code) /\
    (forall queryName,
       AddLocationModal.geocodeQuery queryName (Some a) = code ++ " Singapore") /\
    (forall result,
       Ai.address result = Js.Str a -> App.geocodeQuery result = code ++ " Singapore") /\
    (forall env queryName form, exists rest,
       traceOf (AddLocationModal.performGeocode env queryName (Some a) form)
       = CallNominatim (code ++ " Singapore") 5 :: rest) /\
    (forall env s result,
       Js.trim (App.searchQuery s) <> "" ->
       App.localMatch (App.searchQuery s) (App.locations s) = None ->
       generateContent env (App.searchQuery s) = Ai.Json result ->
       Ai.address result = Js.Str a ->
       App.missing (App.resultLat result) (App.resultLng result) = true ->
       exists rest,
         traceOf (App.handleGlobalSearch env s)
         = CallAI (App.searchQuery s)
             :: ConsoleLog ("Geocoding using postal code: " ++ code ++ " Singapore")
             :: CallNominatim (code ++ " Singapore") 1 :: rest).
Proof.
  intros (n & t & Hsix & Hocc).
  destruct (matchDigits6_complete a n t Hsix Hocc) as [code Hcode].
  assert (Hquery : forall result, Ai.address result = Js.Str a ->
                     App.geocodeQuery result = code ++ " Singapore").
  { intros result Ha. unfold App.geocodeQuery, App.postalMatch. now rewrite Ha, Hcode. }
  assert (Hmodal : forall queryName,
             AddLocationModal.geocodeQuery queryName (Some a) = code ++ " Singapore").
  { intros queryName. unfold AddLocationModal.geocodeQuery.
    now rewrite (occurs_nonempty a n t Hsix Hocc), Hcode. }
  exists code. split; [assumption|].
  split; [now apply matchDigits6_spec|].
  split.
  { intros t' Ht'. apply matchDigits6_spec in Ht'. congruence. }
  split; [assumption|]. split; [assumption|]. split.
  - intros env queryName form. rewrite <- (Hmodal queryName).
    apply performGeocode_query.
  - intros env s result Hq Hl Hai Ha Hmiss.
    destruct (search_reaches_directory env s result Hq Hl Hai Hmiss) as [rest Hrest].
    exists rest. rewrite Hrest. unfold geocodeLog, App.postalMatch.
    now rewrite (Hquery result Ha), Ha, Hcode.
Qed.

(** C5. The address of the spec's example behind a telephone number
    contains one six-digit token, the postal code 427630 at its end. Both
    extractors are written to use the postal code the address contains, yet
    at this address both yield 634512, the first six digits of the
    telephone number, and the directory is queried with "634512 Singapore":
    by [performGeocode] with limit 5, by the text search with limit 1.
    Without the telephone number both yield 427630, as the claim says. *)
Theorem postal_code_after_phone_number :
  let a := "Tel 63451234, 376 Joo Chiat Rd, Singapore 427630" in
  sixDigits "427630" /\
  a = "Tel 63451234, 376 Joo Chiat Rd, Singapore " ++ "427630" /\
  Js.matchDigits6 a = Some "634512" /\
  AddLocationModal.geocodeQuery "Birds of Paradise" (Some a) = "634512 Singapore" /\
  remoteCalls
    (traceOf (AddLocationModal.performGeocode Fixtures.phoneWorld "Birds of Paradise"
                (Some a) Fixtures.blankForm))
  = [CallNominatim "634512 Singapore" 5] /\
  generateContent Fixtures.phoneWorld "birds of paradise"
  = Ai.Json (Fixtures.locatedResult "Birds of Paradise" a 0%float 0%float) /\
  traceOf (App.handleGlobalSearch Fixtures.phoneWorld (Fixtures.initial "birds of paradise"))
  = [CallAI "birds of paradise";
     ConsoleLog "Geocoding using postal code: 634512 Singapore";
     CallNominatim "634512 Singapore" 1] /\
  Js.matchDigits6 "376 Joo Chiat Rd, Singapore 427630" = Some "427630" /\
  AddLocationModal.geocodeQuery "Birds of Paradise"
    (Some "376 Joo Chiat Rd, Singapore 427630") = "427630 Singapore" /\
  App.geocodeQuery
    (Fixtures.locatedResult "Birds of Paradise" "376 Joo Chiat Rd, Singapore 427630"
       0%float 0%float) = "427630 Singapore".
Proof. vm_compute. repeat split. Qed.

End PostalCode.

(* ================================================================== *)
(** ** Viewport search: the Suggested Set *)
(* ================================================================== *)

Section AreaSearch.

Variable env : Env.
Variable s : App.State.
Variable bounds : Overpass.Bounds.

Ltac run_area :=
  unfold App.handleSearchArea, App.queryOverpass, tryCatchFinally, bind, get,
    emit, throw, ret, App.setIsSearchingArea, App.setSuggestedLocations, modify.

Lemma searchArea_elements (elements : list Overpass.Element) :
  overpass env bounds = Overpass.Json (Some (Some elements)) ->
  App.handleSearchArea env bounds s =
  (Ret tt, suggested s (App.newSuggestions (App.locations s) elements),
   CallOverpass bounds ::
   match App.newSuggestions (App.locations s) elements with
   | [] => [ConsoleLog "No new places found here."]
   | _ :: _ => []
   end).
Proof.
  intros H. run_area. rewrite H. cbn.
  destruct (App.newSuggestions (App.locations s) elements); reflexivity.
Qed.

Lemma searchArea_failed :
  (overpass env bounds = Overpass.Rejected \/
   (exists status, overpass env bounds = Overpass.HttpError status) \/
   overpass env bounds = Overpass.NotJson) ->
  App.handleSearchArea env bounds s =
  (Ret tt, idleArea s, [CallOverpass bounds; ConsoleError "Overpass API error"]).
Proof.
  intros [H | [[status H] | H]]; run_area; rewrite H; reflexivity.
Qed.

Lemma searchArea_no_elements :
  (overpass env bounds = Overpass.Json None \/
   overpass env bounds = Overpass.Json (Some None)) ->
  App.handleSearchArea env bounds s = (Ret tt, idleArea s, [CallOverpass bounds]).
Proof.
  intros [H | H]; run_area; rewrite H; reflexivity.
Qed.

Lemma notSaved_spec (locs : list Location) (el : Overpass.Element) :
  App.notSaved locs el = false <-> savedByName locs el.
Proof.
  unfold App.notSaved, savedByName. rewrite negb_false_iff, existsb_exists.
  split; intros (l & Hin & Hl); exists l; (split; [assumption|]);
    now apply String.eqb_eq.
Qed.

Lemma notSaved_same_name (locs : list Location) (a b : Overpass.Element) :
  Overpass.name (Overpass.tags a) = Overpass.name (Overpass.tags b) ->
  App.notSaved locs a = App.notSaved locs b.
Proof. intros H. unfold App.notSaved. now rewrite H. Qed.

Lemma suggestion_kept (locs : list Location) (elements : list Overpass.Element)
    (el : Overpass.Element) :
  In el elements ->
  (In (App.elementLocation el) (App.newSuggestions locs elements) <->
   App.notSaved locs el = true).
Proof.
  intros Hin. unfold App.newSuggestions. rewrite in_map_iff. split.
  - intros (el' & Heq & Hin'). apply filter_In in Hin' as [_ Hkeep].
    rewrite <- Hkeep. apply notSaved_same_name.
    change (name (App.elementLocation el) = name (App.elementLocation el')).
    now rewrite Heq.
  - intros Hkeep. exists el. split; [reflexivity|]. apply filter_In. auto.
Qed.

End AreaSearch.

(** C7. When the tag-search service answers with elements, the Suggested
    Set becomes the elements, in order, minus those the Dedup Filter drops;
    an element is dropped if and only if some saved place has exactly its
    name, compared code unit by code unit. *)
Theorem dedup_exact_name (env : Env) (s : App.State) (bounds : Overpass.Bounds)
    (elements : list Overpass.Element) :
  overpass env bounds = Overpass.Json (Some (Some elements)) ->
  let r := App.handleSearchArea env bounds s in
  App.suggestedLocations (stateOf r)
  = map App.elementLocation (filter (App.notSaved (App.locations s)) elements) /\
  forall el, In el elements ->
    (~ In (App.elementLocation el) (App.suggestedLocations (stateOf r)) <->
     savedByName (App.locations s) el) /\
    (In (App.elementLocation el) (App.suggestedLocations (stateOf r)) <->
     forall l, In l (App.locations s) -> name l <> Overpass.name (Overpass.tags el)).
Proof.
  intros H r. subst r. rewrite (searchArea_elements env s bounds elements H). cbn.
  split; [reflexivity|]. intros el Hin.
  pose proof (suggestion_kept (App.locations s) elements el Hin) as Hkept.
  pose proof (notSaved_spec (App.locations s) el) as Hspec.
  destruct (App.notSaved (App.locations s) el) eqn:Hk.
  - assert (Hno : ~ savedByName (App.locations s) el)
      by (intros Hs; apply Hspec in Hs; discriminate).
    split; split.
    + intros Hn. exfalso. apply Hn. now apply Hkept.
    + intros Hs. contradiction.
    + intros _ l Hl Hname. apply Hno. now exists l.
    + intros _. now apply Hkept.
  - assert (Hyes : savedByName (App.locations s) el) by now apply Hspec.
    split; split.
    + intros _. exact Hyes.
    + intros _ Hi. apply Hkept in Hi. discriminate.
    + intros Hi. apply Hkept in Hi. discriminate.
    + intros Hall. exfalso. destruct Hyes as (l & Hl & Hname). now apply (Hall l).
Qed.

(** The spec's example: with "Merlion Park" saved, the element of that name
    is dropped and the one named "merlion park" is kept. *)
Lemma dedup_exact_name_witness :
  let r := App.handleSearchArea Fixtures.merlionWorld Fixtures.viewport (Fixtures.initial "") in
  ~ In (App.elementLocation (Fixtures.node 11 "Merlion Park" None))
       (App.suggestedLocations (stateOf r)) /\
  In (App.elementLocation (Fixtures.node 12 "merlion park" None))
     (App.suggestedLocations (stateOf r)).
Proof.
  destruct (dedup_exact_name Fixtures.merlionWorld (Fixtures.initial "") Fixtures.viewport
              [Fixtures.node 11 "Merlion Park" None; Fixtures.node 12 "merlion park" None]
              eq_refl) as (_ & Hiff).
  split.
  - apply (Hiff (Fixtures.node 11 "Merlion Park" None)); [now left|].
    eexists. split; [right; left; reflexivity | reflexivity].
  - apply (Hiff (Fixtures.node 12 "merlion park" None)); [right; now left|].
    intros l Hl. simpl in Hl.
    repeat (destruct Hl as [<- | Hl]; [discriminate|]). contradiction.
Defined.

Example dedup_merlion :
  map name (App.suggestedLocations
    (stateOf (App.handleSearchArea Fixtures.merlionWorld Fixtures.viewport (Fixtures.initial ""))))
  = ["merlion park"].
Proof. vm_compute. reflexivity. Qed.

(** C8, as amended. After a viewport search whose response is not 2xx the
    failure is logged and the Suggested Set is the one from before: empty
    only if it was empty already. After a 2xx response with zero elements
    the Suggested Set is empty and "No new places found here." is logged. *)
Theorem area_search_failure (env : Env) (s : App.State) (bounds : Overpass.Bounds) :
  let r := App.handleSearchArea env bounds s in
  (forall status,
     overpass env bounds = Overpass.HttpError status ->
     outcomeOf r = Ret tt /\
     App.suggestedLocations (stateOf r) = App.suggestedLocations s /\
     stateOf r = idleArea s /\
     consoleErrors (traceOf r) = ["Overpass API error"] /\
     traceOf r = [CallOverpass bounds; ConsoleError "Overpass API error"]) /\
  (overpass env bounds = Overpass.Json (Some (Some [])) ->
     outcomeOf r = Ret tt /\
     App.suggestedLocations (stateOf r) = [] /\
     consoleLogs (traceOf r) = ["No new places found here."] /\
     traceOf r = [CallOverpass bounds; ConsoleLog "No new places found here."]).
Proof.
  intros r. subst r. split.
  - intros status H. rewrite (searchArea_failed env s bounds) by eauto.
    repeat split.
  - intros H. rewrite (searchArea_elements env s bounds [] H). repeat split.
Qed.

Lemma area_search_failure_witness :
  App.suggestedLocations
    (stateOf (App.handleSearchArea Fixtures.gatewayTimeoutWorld Fixtures.viewport
                Fixtures.afterEarlierSearch))
  = App.suggestedLocations Fixtures.afterEarlierSearch /\
  consoleErrors
    (traceOf (App.handleSearchArea Fixtures.gatewayTimeoutWorld Fixtures.viewport
                Fixtures.afterEarlierSearch))
  = ["Overpass API error"].
Proof.
  destruct (area_search_failure Fixtures.gatewayTimeoutWorld Fixtures.afterEarlierSearch
              Fixtures.viewport) as (Hhttp & _).
  destruct (Hhttp 504%N eq_refl) as (_ & Hkeep & _ & Hlog & _).
  split; [exact Hkeep | exact Hlog].
Defined.

(** C8 as stated fails after a 504 that follows an earlier successful
    search: the Suggested Set still holds the earlier suggestion. *)
Lemma area_search_stale_counterexample :
  overpass Fixtures.gatewayTimeoutWorld Fixtures.viewport = Overpass.HttpError 504 /\
  map name (App.suggestedLocations
    (stateOf (App.handleSearchArea Fixtures.gatewayTimeoutWorld Fixtures.viewport
                Fixtures.afterEarlierSearch)))
  = ["merlion park"] /\
  App.suggestedLocations
    (stateOf (App.handleSearchArea Fixtures.gatewayTimeoutWorld Fixtures.viewport
                Fixtures.afterEarlierSearch)) <> [].
Proof. vm_compute. repeat split. discriminate. Qed.

(* ================================================================== *)
(** ** Map click: the reverse lookup *)
(* ================================================================== *)

Section ReverseGeocode.

Variable env : Env.

(** What the reverse lookup does to the type of the form: it is set for the
    amenities restaurant, cafe and bar and left as it is otherwise. *)
Lemma performReverseGeocode_type (c : Coordinate) (form : AddLocationModal.State)
    (d : Nominatim.Reverse) :
  nominatimReverse env c = FetchJson (Some d) ->
  AddLocationModal.placeType (stateOf (AddLocationModal.performReverseGeocode env c form))
  = reverseType (AddLocationModal.placeType form) (AddLocationModal.amenityOf d).
Proof.
  intros H.
  unfold AddLocationModal.performReverseGeocode, tryCatchFinally, bind, emit, throw, ret,
    AddLocationModal.setIsGeocoding, AddLocationModal.setName,
    AddLocationModal.setPlaceType, modify, reverseType.
  rewrite H.
  destruct (App.isStr (AddLocationModal.amenityOf d) "restaurant"); [reflexivity|].
  destruct (App.isStr (AddLocationModal.amenityOf d) "cafe"); [reflexivity|].
  destruct (App.isStr (AddLocationModal.amenityOf d) "bar"); reflexivity.
Qed.

(** On the map-click path the form's type is reset to Other first. *)
Lemma openFromMapClick_type (c center : Coordinate) (form : AddLocationModal.State)
    (d : Nominatim.Reverse) :
  nominatimReverse env c = FetchJson (Some d) ->
  AddLocationModal.placeType (stateOf (AddLocationModal.openFromMapClick env c center form))
  = reverseType Other (AddLocationModal.amenityOf d).
Proof.
  intros H. unfold AddLocationModal.openFromMapClick, AddLocationModal.onOpen.
  cbn [Partial.name Partial.description Partial.category Partial.placeType
       Partial.coordinate Partial.address Js.orStr Js.truthyOpt negb].
  unfold bind at 1 2 3 4 5.
  cbn [AddLocationModal.setName AddLocationModal.setDescription AddLocationModal.setCategory
       AddLocationModal.setPlaceType AddLocationModal.setCoordinate modify].
  match goal with
  | |- context [AddLocationModal.performReverseGeocode env c ?f] =>
      pose proof (performReverseGeocode_type c f d H) as Hrev;
      destruct (AddLocationModal.performReverseGeocode env c f) as [[o st] t]
  end.
  exact Hrev.
Qed.

End ReverseGeocode.

(** C9 at the amenity "pub": the reverse lookup leaves the type at Other,
    where the specification says Bar; the suggestion and area paths map the same
    tag to Bar. *)
Theorem reverse_geocode_pub :
  nominatimReverse (Fixtures.reverseWorld "pub") Fixtures.INITIAL_CENTER
    = FetchJson (Some (Fixtures.tagged "pub")) /\
  AddLocationModal.amenityOf (Fixtures.tagged "pub") = Some "pub" /\
  AddLocationModal.placeType
    (stateOf (AddLocationModal.openFromMapClick (Fixtures.reverseWorld "pub")
                Fixtures.INITIAL_CENTER Fixtures.INITIAL_CENTER Fixtures.blankForm))
  = Other /\
  AddLocationModal.placeType
    (stateOf (AddLocationModal.openFromMapClick (Fixtures.reverseWorld "bar")
                Fixtures.INITIAL_CENTER Fixtures.INITIAL_CENTER Fixtures.blankForm))
  = Bar /\
  App.suggestionType (Fixtures.taggedSuggestion "pub") = Bar /\
  App.elementType (Fixtures.node 21 "Molly Malone" (Some "pub")) = Bar.
Proof. vm_compute. repeat split. Qed.

(* ================================================================== *)
(** ** Coordinates of materialized records *)
(* ================================================================== *)

Section Coordinates.

Variable env : Env.

Lemma search_supplied (s : App.State) :
  suppliedBySearch env s (App.searchResult (stateOf (App.handleGlobalSearch env s))).
Proof.
  unfold suppliedBySearch. cbv zeta.
  destruct (string_dec (Js.trim (App.searchQuery s)) "") as [Hq|Hq].
  { rewrite (handleGlobalSearch_blank env s Hq). now left. }
  destruct (App.localMatch (App.searchQuery s) (App.locations s)) as [l|] eqn:Hl.
  { rewrite (handleGlobalSearch_local env s l Hq Hl). right. now left. }
  destruct (aiHardFailure (generateContent env (App.searchQuery s))) eqn:Hhard.
  { rewrite (search_ai_hard_failure env s Hq Hl Hhard). now left. }
  destruct (generateContent env (App.searchQuery s)) as [| | | | |result] eqn:Hai;
    try discriminate.
  destruct (App.missing (App.resultLat result) (App.resultLng result)) eqn:Hmiss.
  - destruct (nominatimSearch env (App.geocodeQuery result) 1) as [| |data] eqn:Hgeo.
    + rewrite (search_geocode_failed env s Hq Hl result Hai Hmiss) by auto. now left.
    + rewrite (search_geocode_failed env s Hq Hl result Hai Hmiss) by auto. now left.
    + destruct (directoryUnusable env (FetchJson data)) eqn:Hun.
      * rewrite (search_fallback env s Hq Hl result data Hai Hmiss Hgeo Hun). cbv zeta.
        destruct (nominatimSearch env (fallbackQuery (App.searchQuery s)) 1)
          as [| |[[|best more]|]] eqn:Hfb; try (now left).
        do 4 right. exists best, more. split; reflexivity.
      * destruct (directory_usable env data Hun) as (g & rest & -> & Tla & Tln).
        rewrite (search_geocoded env s Hq Hl result g rest Hai Hmiss Hgeo Tla Tln).
        do 3 right. left. exists result, g, rest. repeat split; assumption.
  - destruct (not_missing _ _ Hmiss) as (la & ln & Hla & Hln & Tla & Tln).
    rewrite (search_ai_direct env s Hq Hl result la ln Hai Hla Hln Tla Tln).
    do 2 right. left. exists result, la, ln. repeat split; assumption.
Qed.

Lemma suggestion_supplied (s : App.State) (suggestion : Nominatim.SearchSuggestion) :
  exists l,
    App.searchResult (stateOf (App.handleSuggestionSelect env suggestion s)) = Some l /\
    coordinate l = parsedCoordinate env suggestion.
Proof. eexists. split; reflexivity. Qed.

Lemma area_supplied (s : App.State) (bounds : Overpass.Bounds) (l : Location) :
  In l (App.suggestedLocations (stateOf (App.handleSearchArea env bounds s))) ->
  suppliedByArea env s bounds l.
Proof.
  unfold suppliedByArea.
  destruct (overpass env bounds) as [|status| |[[elements|]|]] eqn:H.
  - rewrite (searchArea_failed env s bounds) by auto. now left.
  - rewrite (searchArea_failed env s bounds) by eauto. now left.
  - rewrite (searchArea_failed env s bounds) by auto. now left.
  - rewrite (searchArea_elements env s bounds elements H). cbn.
    unfold App.newSuggestions. intros Hin. apply in_map_iff in Hin as (el & <- & Hel).
    apply filter_In in Hel as [Hel _]. right. exists elements, el. auto.
  - rewrite (searchArea_no_elements env s bounds) by auto. now left.
  - rewrite (searchArea_no_elements env s bounds) by auto. now left.
Qed.

End Coordinates.

(** C1, as amended. No path checks finiteness or range: a materialized
    record carries the coordinate exactly as its source supplied it. The
    text search stores structured-knowledge coordinates only when both are
    truthy (present, not NaN, not zero), otherwise the parsed [lat]/[lon] of
    the first directory entry when both are truthy, otherwise those of the
    first fallback entry, unchecked; suggestion selection stores the parsed
    [lat]/[lon] of the suggestion; area discovery stores the element's
    [lat]/[lon]. Hence, whenever the remote services supply finite
    coordinates with lat in [-90,90] and lng in [-180,180], every record the
    three paths leave in the state has such a coordinate. *)
Theorem coordinates_as_supplied (env : Env) :
  (forall s,
     suppliedBySearch env s (App.searchResult (stateOf (App.handleGlobalSearch env s)))) /\
  (forall s suggestion, exists l,
     App.searchResult (stateOf (App.handleSuggestionSelect env suggestion s)) = Some l /\
     coordinate l = parsedCoordinate env suggestion) /\
  (forall s bounds l,
     In l (App.suggestedLocations (stateOf (App.handleSearchArea env bounds s))) ->
     suppliedByArea env s bounds l) /\
  (sourcesValid env ->
     (forall s,
        validResult (App.searchResult s) ->
        validResult (App.searchResult (stateOf (App.handleGlobalSearch env s)))) /\
     (forall s suggestion,
        validCoordinate (parsedCoordinate env suggestion) = true ->
        validResult (App.searchResult (stateOf (App.handleSuggestionSelect env suggestion s)))) /\
     (forall s bounds,
        allValid (App.suggestedLocations s) ->
        allValid (App.suggestedLocations (stateOf (App.handleSearchArea env bounds s))))).
Proof.
  split; [apply search_supplied|].
  split; [apply suggestion_supplied|].
  split; [apply area_supplied|].
  intros (Hai & Hdir & Harea). split; [|split].
  - intros s Hs.
    destruct (search_supplied env s)
      as [-> | [-> | [(result & la & ln & Hr & Hla & Hln & _ & _ & ->)
                     | [(result & g & rest & _ & Hgeo & _ & _ & ->)
                       | (best & rest & Hfb & ->)]]]].
    + exact Hs.
    + exact I.
    + exact (Hai _ result la ln Hr Hla Hln).
    + apply (Hdir _ _ _ g Hgeo). now left.
    + apply (Hdir _ _ _ best Hfb). now left.
  - intros s suggestion Hv. exact Hv.
  - intros s bounds Hs. apply Forall_forall. intros l Hl.
    destruct (area_supplied env s bounds l Hl) as [Hold | (elements & el & Hov & Hel & Hc)].
    + unfold allValid in Hs. rewrite Forall_forall in Hs. now apply Hs.
    + rewrite Hc. exact (Harea bounds elements el Hov Hel).
Qed.

(** The theorem in a world whose services supply valid coordinates: the
    record stored for "marina bay sands" is valid. *)
Lemma coordinates_as_supplied_witness :
  sourcesValid Fixtures.preciseWorld /\
  validResult
    (App.searchResult
       (stateOf (App.handleGlobalSearch Fixtures.preciseWorld
                   (Fixtures.initial "marina bay sands")))).
Proof.
  assert (Hvalid : sourcesValid Fixtures.preciseWorld).
  { split; [|split].
    - intros q result la ln Hr Hla Hln. cbn in Hr. injection Hr as <-.
      cbn in Hla, Hln. injection Hla as <-. injection Hln as <-.
      vm_compute. reflexivity.
    - intros q limit data g H. discriminate H.
    - intros b elements el H. discriminate H. }
  split; [exact Hvalid|].
  destruct (coordinates_as_supplied Fixtures.preciseWorld) as (_ & _ & _ & Hinv).
  destruct (Hinv Hvalid) as (Hsearch & _).
  apply Hsearch. exact I.
Defined.

(** C1 as stated fails on two paths. When the structured-knowledge service
    swaps latitude and longitude the text search stores a record whose
    latitude is 103.8607; when a suggestion carries an empty [lat] string
    the selection stores a record whose latitude is NaN. *)
Lemma coordinate_unchecked_counterexample :
  (exists l,
     App.searchResult
       (stateOf (App.handleGlobalSearch Fixtures.swappedWorld
                   (Fixtures.initial "marina bay sands"))) = Some l /\
     lat (coordinate l) = 103.8607%float /\
     Js.between (-90)%float 90%float (lat (coordinate l)) = false /\
     validCoordinate (coordinate l) = false) /\
  (exists l,
     App.searchResult
       (stateOf (App.handleSuggestionSelect Fixtures.offline
                   (Fixtures.plainSuggestion "" "103.8" "Somewhere, Singapore")
                   (Fixtures.initial "somewhere"))) = Some l /\
     PrimFloat.is_nan (lat (coordinate l)) = true /\
     Js.isFinite (lat (coordinate l)) = false /\
     validCoordinate (coordinate l) = false).
Proof.
  split; eexists; (split; [vm_compute; reflexivity|]); vm_compute; repeat split.
Qed.

(* ================================================================== *)
(** ** Saved Set: adding and removing *)
(* ================================================================== *)

Section ListFacts.

Context {A : Type}.

Lemma filter_all (f : A -> bool) (l : list A) :
  (forall x, In x l -> f x = true) -> filter f l = l.
Proof.
  induction l as [|a l IH]; intros H; simpl; [reflexivity|].
  rewrite (H a (or_introl eq_refl)). f_equal. apply IH. intros x Hx. apply H. now right.
Qed.

Lemma find_none_app (f : A -> bool) (l : list A) (x : A) :
  (forall y, In y l -> f y = false) -> f x = true ->
  find f (l ++ [x])%list = Some x.
Proof.
  induction l as [|a l IH]; intros H Hx; simpl.
  - now rewrite Hx.
  - rewrite (H a (or_introl eq_refl)). apply IH; [|assumption].
    intros y Hy. apply H. now right.
Qed.

Lemma find_app_some (f : A -> bool) (l l' : list A) (x : A) :
  find f l = Some x -> find f (l ++ l')%list = Some x.
Proof.
  induction l as [|a l IH]; simpl; [discriminate|].
  destruct (f a); [trivial | exact IH].
Qed.

Lemma find_none_forall (f : A -> bool) (l : list A) :
  (forall x, In x l -> f x = false) -> find f l = None.
Proof.
  induction l as [|a l IH]; intros H; simpl; [reflexivity|].
  rewrite (H a (or_introl eq_refl)). apply IH. intros x Hx. apply H. now right.
Qed.

Lemma find_is_head_of_filter (f : A -> bool) (l : list A) :
  find f l = hd_error (filter f l).
Proof.
  induction l as [|a l IH]; simpl; [reflexivity|].
  destruct (f a); [reflexivity | exact IH].
Qed.

Lemma existsb_false_forall (f : A -> bool) (l : list A) :
  existsb f l = false <-> forall x, In x l -> f x = false.
Proof.
  split.
  - intros H x Hx. destruct (f x) eqn:E; [|reflexivity].
    assert (Ht : existsb f l = true) by (apply existsb_exists; eauto). congruence.
  - intros H. destruct (existsb f l) eqn:E; [|reflexivity].
    apply existsb_exists in E as (x & Hx & Hf). rewrite (H x Hx) in Hf. discriminate.
Qed.

End ListFacts.

Section AddRemove.

Variable env : Env.

Lemma hasId_eq (i : string) (l : Location) : App.hasId i l = true <-> id l = i.
Proof. unfold App.hasId. apply String.eqb_eq. Qed.

Lemma hasId_neq (i : string) (l : Location) : App.hasId i l = false <-> id l <> i.
Proof. unfold App.hasId. apply String.eqb_neq. Qed.

Lemma handleAddLocation_run (d : OmitId.Location) (s : App.State) :
  App.handleAddLocation env d s =
  (Ret tt,
   {| App.locations := (App.locations s ++ [App.withId (timestamp env) d])%list;
      App.suggestedLocations :=
        filter (fun l => negb (String.eqb (name l) (OmitId.name d)))
               (App.suggestedLocations s);
      App.selectedLocationId := Some (timestamp env);
      App.searchQuery := App.searchQuery s;
      App.searchResult := None;
      App.isSearchingArea := App.isSearchingArea s;
      App.isSearching := App.isSearching s |},
   []).
Proof. reflexivity. Qed.

Lemma fresh_selects_new (d : OmitId.Location) (s : App.State) :
  freshId s (timestamp env) ->
  App.selectedLocation (stateOf (App.handleAddLocation env d s))
  = Some (App.withId (timestamp env) d).
Proof.
  intros Hfresh. rewrite handleAddLocation_run. unfold App.selectedLocation. cbn.
  rewrite (find_none_app (fun l => String.eqb (id l) (timestamp env))).
  - reflexivity.
  - intros y Hy. apply String.eqb_neq. now apply Hfresh.
  - cbn. apply String.eqb_refl.
Qed.

End AddRemove.

(** X1. Adding a place appends it, with the clock reading as its id, after
    the places already saved, which keep their order; it removes from the
    Suggested Set exactly the suggestions with the new place's name, selects
    the new id, clears the temporary result, and calls or shows nothing.
    When no saved place has that id yet, ids stay unique and the card shows
    the new place. *)
Theorem handleAddLocation_appends (env : Env) (d : OmitId.Location) (s : App.State) :
  let r := App.handleAddLocation env d s in
  let new := App.withId (timestamp env) d in
  outcomeOf r = Ret tt /\ traceOf r = [] /\
  App.locations (stateOf r) = (App.locations s ++ [new])%list /\
  (forall sg, In sg (App.suggestedLocations (stateOf r)) <->
              In sg (App.suggestedLocations s) /\ name sg <> OmitId.name d) /\
  App.selectedLocationId (stateOf r) = Some (id new) /\
  App.searchResult (stateOf r) = None /\
  App.searchQuery (stateOf r) = App.searchQuery s /\
  (freshId s (timestamp env) ->
     App.selectedLocation (stateOf r) = Some new /\
     App.isSelectedLocationSaved (stateOf r) = true /\
     (NoDup (map id (App.locations s)) -> NoDup (map id (App.locations (stateOf r))))).
Proof.
  intros r new. subst r new. split; [reflexivity|]. split; [reflexivity|].
  split; [reflexivity|]. split.
  { intros sg. rewrite handleAddLocation_run. cbn. rewrite filter_In.
    rewrite negb_true_iff, String.eqb_neq. tauto. }
  split; [reflexivity|]. split; [reflexivity|]. split; [reflexivity|].
  intros Hfresh. split; [now apply fresh_selects_new|]. split.
  - unfold App.isSelectedLocationSaved. rewrite (fresh_selects_new env d s Hfresh).
    rewrite handleAddLocation_run. cbn. apply existsb_exists.
    exists (App.withId (timestamp env) d). split.
    + apply in_or_app. right. now left.
    + apply hasId_eq. reflexivity.
  - intros Hnd. rewrite handleAddLocation_run. cbn. rewrite map_app. cbn.
    apply (Permutation_NoDup (l := timestamp env :: map id (App.locations s))).
    + apply Permutation_cons_append.
    + constructor; [|assumption]. intros Hin. apply in_map_iff in Hin as (l & Hid & Hl).
      now apply (Hfresh l Hl).
Qed.

Lemma handleAddLocation_appends_witness :
  let r := App.handleAddLocation Fixtures.offline (Fixtures.newPlace "Merlion Park")
             Fixtures.afterEarlierSearch in
  freshId Fixtures.afterEarlierSearch (timestamp Fixtures.offline) /\
  App.selectedLocation (stateOf r)
  = Some (App.withId "1700000000000" (Fixtures.newPlace "Merlion Park")) /\
  NoDup (map id (App.locations (stateOf r))).
Proof.
  assert (Hfresh : freshId Fixtures.afterEarlierSearch (timestamp Fixtures.offline)).
  { intros l Hl. simpl in Hl.
    repeat (destruct Hl as [<- | Hl]; [vm_compute; discriminate|]). contradiction. }
  destruct (handleAddLocation_appends Fixtures.offline (Fixtures.newPlace "Merlion Park")
              Fixtures.afterEarlierSearch) as (_ & _ & _ & _ & _ & _ & _ & H).
  destruct (H Hfresh) as (Hcard & _ & Hnd).
  split; [exact Hfresh|]. split; [exact Hcard|].
  apply Hnd. simpl. repeat constructor; simpl; intuition discriminate.
Defined.

Section Removing.

Variable s : App.State.
Variable i : string.

(** The selection after a removal of [i]. *)
Let selection : option string :=
  if App.isSelected s i then None else App.selectedLocationId s.

Ltac run_remove :=
  unfold App.handleRemoveLocation, App.deselect, App.updateSuggestedLocations,
    App.setLocations, App.setSuggestedLocations, App.setSelectedLocationId,
    App.setSearchResult, modify, bind, get, ret.

Lemma remove_saved :
  existsb (App.hasId i) (App.locations s) = true ->
  App.handleRemoveLocation i s =
  (Ret tt,
   {| App.locations := filter (fun l => negb (App.hasId i l)) (App.locations s);
      App.suggestedLocations := App.suggestedLocations s;
      App.selectedLocationId := selection;
      App.searchQuery := App.searchQuery s;
      App.searchResult := App.searchResult s;
      App.isSearchingArea := App.isSearchingArea s;
      App.isSearching := App.isSearching s |},
   []).
Proof.
  intros H. run_remove. rewrite H. unfold selection.
  destruct (App.isSelected s i); reflexivity.
Qed.

Lemma remove_suggested :
  existsb (App.hasId i) (App.locations s) = false ->
  existsb (App.hasId i) (App.suggestedLocations s) = true ->
  App.handleRemoveLocation i s =
  (Ret tt,
   {| App.locations := App.locations s;
      App.suggestedLocations :=
        filter (fun l => negb (App.hasId i l)) (App.suggestedLocations s);
      App.selectedLocationId := selection;
      App.searchQuery := App.searchQuery s;
      App.searchResult := App.searchResult s;
      App.isSearchingArea := App.isSearchingArea s;
      App.isSearching := App.isSearching s |},
   []).
Proof.
  intros H1 H2. run_remove. rewrite H1, H2. unfold selection.
  destruct (App.isSelected s i); reflexivity.
Qed.

Lemma remove_temporary (r : Location) :
  existsb (App.hasId i) (App.locations s) = false ->
  existsb (App.hasId i) (App.suggestedLocations s) = false ->
  App.searchResult s = Some r -> App.hasId i r = true ->
  App.handleRemoveLocation i s =
  (Ret tt,
   {| App.locations := App.locations s;
      App.suggestedLocations := App.suggestedLocations s;
      App.selectedLocationId := selection;
      App.searchQuery := App.searchQuery s;
      App.searchResult := None;
      App.isSearchingArea := App.isSearchingArea s;
      App.isSearching := App.isSearching s |},
   []).
Proof.
  intros H1 H2 H3 H4. run_remove. rewrite H1, H2, H3, H4. unfold selection.
  destruct (App.isSelected s i); reflexivity.
Qed.

Lemma remove_unknown :
  existsb (App.hasId i) (App.locations s) = false ->
  existsb (App.hasId i) (App.suggestedLocations s) = false ->
  (forall r, App.searchResult s = Some r -> App.hasId i r = false) ->
  App.handleRemoveLocation i s = (Ret tt, s, []).
Proof.
  intros H1 H2 H3. run_remove. rewrite H1, H2.
  destruct (App.searchResult s) as [r|] eqn:E; [rewrite (H3 r eq_refl)|]; reflexivity.
Qed.

End Removing.

(** X2. Removing an id that is saved deletes every saved place with that id
    and no other, keeps the order of the rest, and leaves the Suggested Set
    and the temporary result alone even when they hold the same id; the
    selection is cleared exactly when it was that id. *)
Theorem handleRemoveLocation_saved (i : string) (s : App.State) :
  In i (map id (App.locations s)) ->
  let r := App.handleRemoveLocation i s in
  outcomeOf r = Ret tt /\ traceOf r = [] /\
  App.locations (stateOf r) = filter (fun l => negb (App.hasId i l)) (App.locations s) /\
  (forall l, In l (App.locations (stateOf r)) <-> In l (App.locations s) /\ id l <> i) /\
  ~ In i (map id (App.locations (stateOf r))) /\
  App.suggestedLocations (stateOf r) = App.suggestedLocations s /\
  App.searchResult (stateOf r) = App.searchResult s /\
  (App.selectedLocationId s = Some i -> App.selectedLocationId (stateOf r) = None) /\
  (App.selectedLocationId s <> Some i ->
     App.selectedLocationId (stateOf r) = App.selectedLocationId s).
Proof.
  intros Hin r. subst r.
  assert (Hex : existsb (App.hasId i) (App.locations s) = true).
  { apply in_map_iff in Hin as (l & Hid & Hl). apply existsb_exists.
    exists l. split; [assumption | now apply hasId_eq]. }
  rewrite (remove_saved s i Hex). cbn.
  assert (Hiff : forall l,
             In l (filter (fun l => negb (App.hasId i l)) (App.locations s)) <->
             In l (App.locations s) /\ id l <> i).
  { intros l. rewrite filter_In, negb_true_iff, hasId_neq. tauto. }
  split; [reflexivity|]. split; [reflexivity|]. split; [reflexivity|].
  split; [exact Hiff|]. split; [|split; [reflexivity|split; [reflexivity|split]]].
  - intros Hc. apply in_map_iff in Hc as (l & Hid & Hl). apply Hiff in Hl. tauto.
  - intros Hsel. unfold App.isSelected. rewrite Hsel, String.eqb_refl. reflexivity.
  - intros Hsel. unfold App.isSelected.
    destruct (App.selectedLocationId s) as [j|]; [|reflexivity].
    destruct (String.eqb_spec j i) as [->|_]; [contradiction | reflexivity].
Qed.

Lemma handleRemoveLocation_saved_witness :
  map id (App.locations (stateOf (App.handleRemoveLocation "2" (Fixtures.initial ""))))
  = ["1"; "3"; "4"; "5"] /\
  ~ In "2" (map id (App.locations (stateOf (App.handleRemoveLocation "2" (Fixtures.initial ""))))).
Proof.
  destruct (handleRemoveLocation_saved "2" (Fixtures.initial ""))
    as (_ & _ & Hloc & _ & Hgone & _).
  - simpl. tauto.
  - split; [rewrite Hloc; reflexivity | exact Hgone].
Defined.

(** X3. Removing an id that is not saved touches one collection at most: the
    Suggested Set when a suggestion has the id, else the temporary result
    when it has the id; the Saved Set is never changed, and an id found
    nowhere leaves the whole state as it is. *)
Theorem handleRemoveLocation_not_saved (i : string) (s : App.State) :
  ~ In i (map id (App.locations s)) ->
  let r := App.handleRemoveLocation i s in
  outcomeOf r = Ret tt /\ traceOf r = [] /\
  App.locations (stateOf r) = App.locations s /\
  (In i (map id (App.suggestedLocations s)) ->
     (forall l, In l (App.suggestedLocations (stateOf r)) <->
                In l (App.suggestedLocations s) /\ id l <> i) /\
     App.searchResult (stateOf r) = App.searchResult s) /\
  (~ In i (map id (App.suggestedLocations s)) ->
     App.suggestedLocations (stateOf r) = App.suggestedLocations s /\
     (forall c, App.searchResult s = Some c -> id c = i ->
                App.searchResult (stateOf r) = None) /\
     ((forall c, App.searchResult s = Some c -> id c <> i) -> stateOf r = s)).
Proof.
  intros Hnot r. subst r.
  assert (H1 : existsb (App.hasId i) (App.locations s) = false).
  { apply existsb_false_forall. intros l Hl. apply hasId_neq. intros E.
    apply Hnot. apply in_map_iff. eauto. }
  destruct (existsb (App.hasId i) (App.suggestedLocations s)) eqn:H2.
  - rewrite (remove_suggested s i H1 H2). cbn.
    split; [reflexivity|]. split; [reflexivity|]. split; [reflexivity|]. split.
    + intros _. split; [|reflexivity]. intros l.
      rewrite filter_In, negb_true_iff, hasId_neq. tauto.
    + intros Hno. exfalso. apply Hno. apply existsb_exists in H2 as (l & Hl & Hid).
      apply in_map_iff. exists l. split; [now apply hasId_eq | assumption].
  - assert (Hno : ~ In i (map id (App.suggestedLocations s))).
    { intros Hin. apply in_map_iff in Hin as (l & Hid & Hl).
      rewrite existsb_false_forall in H2. specialize (H2 l Hl).
      apply hasId_neq in H2. contradiction. }
    destruct (App.searchResult s) as [c|] eqn:Hres.
    + destruct (App.hasId i c) eqn:Hc.
      * rewrite (remove_temporary s i c H1 H2 Hres Hc). cbn.
        repeat split; try reflexivity; try contradiction.
        intros Hall. exfalso. apply (Hall c eq_refl). now apply hasId_eq.
      * rewrite (remove_unknown s i H1 H2).
        -- cbn. repeat split; try reflexivity; try contradiction.
           intros c' Hc' Hid. injection Hc' as <-. apply hasId_neq in Hc. contradiction.
        -- intros r Hr. rewrite Hres in Hr. now injection Hr as <-.
    + rewrite (remove_unknown s i H1 H2).
      * cbn. repeat split; try reflexivity; try contradiction. discriminate.
      * intros r Hr. rewrite Hres in Hr. discriminate.
Qed.

Lemma handleRemoveLocation_not_saved_witness :
  App.locations (stateOf (App.handleRemoveLocation "sugg-12" Fixtures.afterEarlierSearch))
  = Fixtures.MOCK_LOCATIONS /\
  stateOf (App.handleRemoveLocation "nowhere" (Fixtures.initial "")) = Fixtures.initial "".
Proof.
  split.
  - destruct (handleRemoveLocation_not_saved "sugg-12" Fixtures.afterEarlierSearch)
      as (_ & _ & Hloc & _).
    + simpl. intuition discriminate.
    + exact Hloc.
  - destruct (handleRemoveLocation_not_saved "nowhere" (Fixtures.initial ""))
      as (_ & _ & _ & _ & Hrest).
    + simpl. intuition discriminate.
    + destruct Hrest as (_ & _ & Hsame); [simpl; tauto|].
      apply Hsame. intros c Hc. discriminate Hc.
Defined.

Section AddThenRemove.

Variable env : Env.

Lemma filter_other_ids (t : string) (l : list Location) :
  (forall x, In x l -> id x <> t) ->
  filter (fun x => negb (App.hasId t x)) l = l.
Proof.
  intros H. apply filter_all. intros x Hx. apply negb_true_iff, hasId_neq. now apply H.
Qed.

Lemma remove_appended (t : string) (l extra : list Location) :
  (forall x, In x l -> id x <> t) -> (forall x, In x extra -> id x = t) ->
  filter (fun x => negb (App.hasId t x)) (l ++ extra)%list = l.
Proof.
  intros Hl He. rewrite filter_app, (filter_other_ids t l Hl).
  replace (filter (fun x => negb (App.hasId t x)) extra) with (@nil Location).
  - apply app_nil_r.
  - symmetry. induction extra as [|e extra IH]; [reflexivity|]. simpl.
    assert (Hid : App.hasId t e = true) by (apply hasId_eq, He; now left).
    rewrite Hid. simpl. apply IH. intros x Hx. apply He. now right.
Qed.

End AddThenRemove.

(** X4. Adding a place and then removing the id it was given restores the
    Saved Set exactly, provided no saved place had that id before; the
    selection ends cleared. *)
Theorem add_then_remove_restores (env : Env) (d : OmitId.Location) (s : App.State) :
  freshId s (timestamp env) ->
  let added := stateOf (App.handleAddLocation env d s) in
  let r := App.handleRemoveLocation (timestamp env) added in
  App.locations (stateOf r) = App.locations s /\
  App.selectedLocationId (stateOf r) = None /\
  App.suggestedLocations (stateOf r) = App.suggestedLocations added /\
  traceOf r = [].
Proof.
  intros Hfresh added r. subst added r.
  rewrite handleAddLocation_run. cbn [stateOf fst snd].
  rewrite remove_saved.
  - cbn. split; [|split; [|split; reflexivity]].
    + apply remove_appended; [exact Hfresh|].
      intros x [<- | []]. reflexivity.
    + unfold App.isSelected. cbn. now rewrite String.eqb_refl.
  - cbn. apply existsb_exists. exists (App.withId (timestamp env) d). split.
    + apply in_or_app. right. now left.
    + apply hasId_eq. reflexivity.
Qed.

Lemma add_then_remove_restores_witness :
  App.locations
    (stateOf (App.handleRemoveLocation (timestamp Fixtures.offline)
       (stateOf (App.handleAddLocation Fixtures.offline (Fixtures.newPlace "Kampong Glam")
                   (Fixtures.initial "")))))
  = Fixtures.MOCK_LOCATIONS.
Proof.
  destruct (add_then_remove_restores Fixtures.offline (Fixtures.newPlace "Kampong Glam")
              (Fixtures.initial "")) as (H & _).
  - intros l Hl. simpl in Hl.
    repeat (destruct Hl as [<- | Hl]; [vm_compute; discriminate|]). contradiction.
  - exact H.
Defined.

(** X5. Two places added while the clock shows the same reading get the same
    id. Then the ids of the Saved Set are no longer unique, the card shows
    the first of the two although the second was added last, toggling the id
    marks both visited at once, and removing the id deletes both. *)
Theorem add_twice_same_reading (env : Env) (d1 d2 : OmitId.Location) (s : App.State) :
  freshId s (timestamp env) ->
  let t := timestamp env in
  let s2 := stateOf (App.handleAddLocation env d2 (stateOf (App.handleAddLocation env d1 s))) in
  App.locations s2 = (App.locations s ++ [App.withId t d1; App.withId t d2])%list /\
  ~ NoDup (map id (App.locations s2)) /\
  App.selectedLocation s2 = Some (App.withId t d1) /\
  App.locations (stateOf (App.handleToggleVisited t s2))
  = (App.locations s ++
     [withVisited (Some (App.notVisited (App.withId t d1))) (App.withId t d1);
      withVisited (Some (App.notVisited (App.withId t d2))) (App.withId t d2)])%list /\
  App.locations (stateOf (App.handleRemoveLocation t s2)) = App.locations s.
Proof.
  intros Hfresh t s2. subst s2.
  rewrite !handleAddLocation_run. cbn [stateOf fst snd App.locations].
  rewrite <- app_assoc. cbn [app]. fold t.
  split; [reflexivity|]. split; [|split; [|split]].
  - rewrite map_app. cbn. intros Hnd. apply NoDup_remove_2 in Hnd.
    apply Hnd. apply in_or_app. right. now left.
  - unfold App.selectedLocation. cbn.
    replace (App.locations s ++ [App.withId t d1; App.withId t d2])%list
      with ((App.locations s ++ [App.withId t d1]) ++ [App.withId t d2])%list
      by (now rewrite <- app_assoc).
    rewrite (find_app_some (fun l => String.eqb (id l) t) _ _ (App.withId t d1));
      [reflexivity|].
    apply (find_none_app (fun l => String.eqb (id l) t)).
    + intros y Hy. apply String.eqb_neq. now apply Hfresh.
    + cbn. apply String.eqb_refl.
  - cbn. unfold App.toggleVisited. rewrite map_app. cbn.
    rewrite !String.eqb_refl. f_equal.
    rewrite <- (map_id (App.locations s)) at 2. apply map_ext_in.
    intros l Hl. destruct (String.eqb_spec (id l) t) as [E|_]; [|reflexivity].
    exfalso. now apply (Hfresh l Hl).
  - rewrite remove_saved.
    + cbn. apply remove_appended; [exact Hfresh|].
      intros x [<- | [<- | []]]; reflexivity.
    + cbn. apply existsb_exists. exists (App.withId t d1). split.
      * apply in_or_app. right. now left.
      * apply hasId_eq. reflexivity.
Qed.

Lemma add_twice_same_reading_witness :
  let s2 := stateOf (App.handleAddLocation Fixtures.offline (Fixtures.newPlace "Second")
              (stateOf (App.handleAddLocation Fixtures.offline (Fixtures.newPlace "First")
                          (Fixtures.initial "")))) in
  option_map name (App.selectedLocation s2) = Some "First" /\
  App.locations (stateOf (App.handleRemoveLocation (timestamp Fixtures.offline) s2))
  = Fixtures.MOCK_LOCATIONS.
Proof.
  destruct (add_twice_same_reading Fixtures.offline (Fixtures.newPlace "First")
              (Fixtures.newPlace "Second") (Fixtures.initial ""))
    as (_ & _ & Hcard & _ & Hrm).
  - intros l Hl. simpl in Hl.
    repeat (destruct Hl as [<- | Hl]; [vm_compute; discriminate|]). contradiction.
  - split; [rewrite Hcard; reflexivity | exact Hrm].
Defined.

(* ================================================================== *)
(** ** Toggling twice, and the filter of the map *)
(* ================================================================== *)

Lemma notVisited_withVisited (b : bool) (loc : Location) :
  App.notVisited (withVisited (Some b) loc) = negb b.
Proof. reflexivity. Qed.

(** X6. Toggling the same id twice gives every place back its fields and
    the truth value of its visited flag; a matching place whose flag was
    absent ends with the flag present and false, so the Saved Set is the
    very same list exactly when each matching place had the flag set. *)
Theorem toggle_twice (i : string) (prev : list Location) :
  let twice := App.toggleVisited i (App.toggleVisited i prev) in
  map App.notVisited twice = map App.notVisited prev /\
  twice = map (fun loc => if String.eqb (id loc) i
                          then withVisited (Some (negb (App.notVisited loc))) loc
                          else loc) prev /\
  ((forall loc, In loc prev -> id loc = i -> visited loc <> None) -> twice = prev).
Proof.
  cbv zeta.
  assert (Hform : App.toggleVisited i (App.toggleVisited i prev)
                  = map (fun loc => if String.eqb (id loc) i
                                    then withVisited (Some (negb (App.notVisited loc))) loc
                                    else loc) prev).
  { unfold App.toggleVisited. rewrite map_map. apply map_ext. intros loc.
    destruct (String.eqb (id loc) i) eqn:E; cbn; rewrite E; reflexivity. }
  rewrite Hform. split; [|split; [reflexivity|]].
  - rewrite map_map. apply map_ext. intros loc.
    destruct (String.eqb (id loc) i); [|reflexivity].
    rewrite notVisited_withVisited. apply negb_involutive.
  - intros H. rewrite <- (map_id prev) at 2. apply map_ext_in. intros loc Hloc.
    destruct (String.eqb_spec (id loc) i) as [E|_]; [|reflexivity].
    specialize (H loc Hloc E). destruct loc as [a b c d e f g h [v|] r]; cbn in *.
    + unfold App.notVisited. cbn. now rewrite negb_involutive.
    + contradiction.
Qed.

Lemma toggle_twice_witness :
  App.toggleVisited "3" (App.toggleVisited "3" Fixtures.MOCK_LOCATIONS)
  = Fixtures.MOCK_LOCATIONS.
Proof.
  destruct (toggle_twice "3" Fixtures.MOCK_LOCATIONS) as (_ & _ & H).
  apply H. intros loc Hloc Hid. simpl in Hloc.
  repeat (destruct Hloc as [<- | Hloc]; [discriminate|]). contradiction.
Defined.

(** X7. The map shows every saved place when the search text is empty and
    otherwise exactly the saved places whose name contains the text, case
    ignored, in Saved Set order. The place a text search selects locally is
    the first place the map shows: when the map shows some place the search
    selects the first one without any remote call. *)
Theorem filteredLocations_and_search (env : Env) (s : App.State) :
  (App.searchQuery s = "" -> App.filteredLocations s = App.locations s) /\
  (App.searchQuery s <> "" ->
     (forall l, In l (App.filteredLocations s) <->
                In l (App.locations s) /\ containsIgnoringCase (name l) (App.searchQuery s)) /\
     App.localMatch (App.searchQuery s) (App.locations s)
     = hd_error (App.filteredLocations s)) /\
  (forall first rest,
     Js.trim (App.searchQuery s) <> "" ->
     App.filteredLocations s = first :: rest ->
     App.selectedLocationId (stateOf (App.handleGlobalSearch env s)) = Some (id first) /\
     traceOf (App.handleGlobalSearch env s) = []).
Proof.
  split; [|split].
  - intros H. unfold App.filteredLocations. now rewrite H.
  - intros H. unfold App.filteredLocations. rewrite (truthyStr_true _ H). cbn [negb].
    split.
    + intros l. rewrite filter_In, includes_ignoring_case. tauto.
    + apply find_is_head_of_filter.
  - intros first rest Hq Hshown.
    assert (Hne : App.searchQuery s <> "").
    { intros E. rewrite E in Hq. now apply Hq. }
    assert (Hl : App.localMatch (App.searchQuery s) (App.locations s) = Some first).
    { unfold App.localMatch. rewrite find_is_head_of_filter.
      unfold App.filteredLocations in Hshown.
      rewrite (truthyStr_true _ Hne) in Hshown. cbn [negb] in Hshown.
      now rewrite Hshown. }
    rewrite (handleGlobalSearch_local env s first Hq Hl). split; reflexivity.
Qed.

Lemma filteredLocations_and_search_witness :
  map name (App.filteredLocations (Fixtures.initial "BA"))
  = ["Tiong Bahru Bakery"; "Gardens by the Bay"] /\
  App.selectedLocationId
    (stateOf (App.handleGlobalSearch Fixtures.offline (Fixtures.initial "BA"))) = Some "3".
Proof.
  split; [vm_compute; reflexivity|].
  destruct (filteredLocations_and_search Fixtures.offline (Fixtures.initial "BA"))
    as (_ & _ & H).
  destruct (H (nth 2 Fixtures.MOCK_LOCATIONS (App.withId "" (Fixtures.newPlace "")))
              [nth 3 Fixtures.MOCK_LOCATIONS (App.withId "" (Fixtures.newPlace ""))])
    as (Hsel & _).
  - vm_compute. discriminate.
  - vm_compute. reflexivity.
  - exact Hsel.
Defined.

(* ================================================================== *)
(** ** What a search leaves alone *)
(* ================================================================== *)

Section SearchFrame.

Variable env : Env.
Variable s : App.State.

(** The part of the frame every branch of the text search satisfies. *)
Let framed (r : Outcome unit * App.State * list Event) : Prop :=
  outcomeOf r = Ret tt /\
  App.locations (stateOf r) = App.locations s /\
  App.suggestedLocations (stateOf r) = App.suggestedLocations s /\
  App.searchQuery (stateOf r) = App.searchQuery s /\
  App.isSearchingArea (stateOf r) = App.isSearchingArea s /\
  List.length (remoteCalls (traceOf r)) <= 3 /\
  List.length (alerts (traceOf r)) <= 1 /\
  (alerts (traceOf r) <> [] ->
     App.searchResult (stateOf r) = App.searchResult s /\
     App.selectedLocationId (stateOf r) = App.selectedLocationId s) /\
  (forall e, In e (traceOf r) ->
     match e with
     | CallOverpass _ | CallReverse _ => False
     | CallNominatim _ limit => limit = 1%N
     | _ => True
     end).

Ltac framed_done :=
  unfold framed; cbn;
  repeat match goal with
         | |- _ /\ _ => split
         end;
  try reflexivity; try lia;
  try (intros H; try (exfalso; now apply H); split; reflexivity);
  try (intros e He; cbn in He;
       repeat (destruct He as [<- | He]; [exact I || reflexivity|]);
       contradiction).

Lemma search_framed : framed (App.handleGlobalSearch env s).
Proof.
  destruct (string_dec (Js.trim (App.searchQuery s)) "") as [Hq|Hq].
  { rewrite (handleGlobalSearch_blank env s Hq). framed_done. }
  destruct (App.localMatch (App.searchQuery s) (App.locations s)) as [l|] eqn:Hl.
  { rewrite (handleGlobalSearch_local env s l Hq Hl). framed_done. }
  destruct (aiHardFailure (generateContent env (App.searchQuery s))) eqn:Hhard.
  { rewrite (search_ai_hard_failure env s Hq Hl Hhard). framed_done. }
  destruct (generateContent env (App.searchQuery s)) as [| | | | |result] eqn:Hai;
    try discriminate.
  destruct (App.missing (App.resultLat result) (App.resultLng result)) eqn:Hmiss.
  - destruct (nominatimSearch env (App.geocodeQuery result) 1) as [| |data] eqn:Hgeo.
    + rewrite (search_geocode_failed env s Hq Hl result Hai Hmiss) by auto. framed_done.
    + rewrite (search_geocode_failed env s Hq Hl result Hai Hmiss) by auto. framed_done.
    + destruct (directoryUnusable env (FetchJson data)) eqn:Hun.
      * rewrite (search_fallback env s Hq Hl result data Hai Hmiss Hgeo Hun). cbv zeta.
        destruct (nominatimSearch env (fallbackQuery (App.searchQuery s)) 1)
          as [| |[[|best more]|]] eqn:Hfb; framed_done.
      * destruct (directory_usable env data Hun) as (g & rest & -> & Tla & Tln).
        rewrite (search_geocoded env s Hq Hl result g rest Hai Hmiss Hgeo Tla Tln).
        framed_done.
  - destruct (not_missing _ _ Hmiss) as (la & ln & Hla & Hln & Tla & Tln).
    rewrite (search_ai_direct env s Hq Hl result la ln Hai Hla Hln Tla Tln).
    framed_done.
Qed.

Lemma search_lowers_flag :
  Js.trim (App.searchQuery s) <> "" ->
  App.isSearching (stateOf (App.handleGlobalSearch env s)) = false.
Proof.
  intros Hq.
  destruct (App.localMatch (App.searchQuery s) (App.locations s)) as [l|] eqn:Hl.
  { now rewrite (handleGlobalSearch_local env s l Hq Hl). }
  destruct (aiHardFailure (generateContent env (App.searchQuery s))) eqn:Hhard.
  { now rewrite (search_ai_hard_failure env s Hq Hl Hhard). }
  destruct (generateContent env (App.searchQuery s)) as [| | | | |result] eqn:Hai;
    try discriminate.
  destruct (App.missing (App.resultLat result) (App.resultLng result)) eqn:Hmiss.
  - destruct (nominatimSearch env (App.geocodeQuery result) 1) as [| |data] eqn:Hgeo.
    + now rewrite (search_geocode_failed env s Hq Hl result Hai Hmiss) by auto.
    + now rewrite (search_geocode_failed env s Hq Hl result Hai Hmiss) by auto.
    + destruct (directoryUnusable env (FetchJson data)) eqn:Hun.
      * rewrite (search_fallback env s Hq Hl result data Hai Hmiss Hgeo Hun). cbv zeta.
        destruct (nominatimSearch env (fallbackQuery (App.searchQuery s)) 1)
          as [| |[[|best more]|]]; reflexivity.
      * destruct (directory_usable env data Hun) as (g & rest & -> & Tla & Tln).
        now rewrite (search_geocoded env s Hq Hl result g rest Hai Hmiss Hgeo Tla Tln).
  - destruct (not_missing _ _ Hmiss) as (la & ln & Hla & Hln & Tla & Tln).
    now rewrite (search_ai_direct env s Hq Hl result la ln Hai Hla Hln Tla Tln).
Qed.

End SearchFrame.

(** X8. Whatever the services answer, a text search returns normally and
    never changes the Saved Set, the Suggested Set, the search text or the
    area-search flag. It makes at most three remote calls, none to the
    tag-search or reverse service and every directory call with limit 1,
    and shows at most one alert; when it shows one, the temporary result and
    the selection are the ones from before. A blank query does nothing at
    all; any other query ends with the busy flag down. *)
Theorem handleGlobalSearch_frame (env : Env) (s : App.State) :
  let r := App.handleGlobalSearch env s in
  outcomeOf r = Ret tt /\
  App.locations (stateOf r) = App.locations s /\
  App.suggestedLocations (stateOf r) = App.suggestedLocations s /\
  App.searchQuery (stateOf r) = App.searchQuery s /\
  App.isSearchingArea (stateOf r) = App.isSearchingArea s /\
  List.length (remoteCalls (traceOf r)) <= 3 /\
  List.length (alerts (traceOf r)) <= 1 /\
  (alerts (traceOf r) <> [] ->
     App.searchResult (stateOf r) = App.searchResult s /\
     App.selectedLocationId (stateOf r) = App.selectedLocationId s) /\
  (forall e, In e (traceOf r) ->
     match e with
     | CallOverpass _ | CallReverse _ => False
     | CallNominatim _ limit => limit = 1%N
     | _ => True
     end) /\
  (Js.trim (App.searchQuery s) = "" -> r = (Ret tt, s, [])) /\
  (Js.trim (App.searchQuery s) <> "" -> App.isSearching (stateOf r) = false).
Proof.
  intros r. subst r.
  destruct (search_framed env s) as (H1 & H2 & H3 & H4 & H5 & H6 & H7 & H8 & H9).
  repeat (split; [assumption|]). split.
  - apply handleGlobalSearch_blank.
  - apply search_lowers_flag.
Qed.

Lemma handleGlobalSearch_frame_witness :
  App.handleGlobalSearch Fixtures.emptyWorld (Fixtures.initial "   ")
  = (Ret tt, Fixtures.initial "   ", []) /\
  App.isSearching (stateOf (App.handleGlobalSearch Fixtures.emptyWorld (Fixtures.initial "Bunnies")))
  = false.
Proof.
  split.
  - destruct (handleGlobalSearch_frame Fixtures.emptyWorld (Fixtures.initial "   "))
      as (_ & _ & _ & _ & _ & _ & _ & _ & _ & Hblank & _).
    apply Hblank. reflexivity.
  - destruct (handleGlobalSearch_frame Fixtures.emptyWorld (Fixtures.initial "Bunnies"))
      as (_ & _ & _ & _ & _ & _ & _ & _ & _ & _ & Hdown).
    apply Hdown. vm_compute. discriminate.
Defined.

(** X9. Whatever the tag-search service answers, an area search returns
    normally, makes exactly one remote call (the tag search on the given
    bounds), shows no alert, ends with its busy flag down and never changes
    the Saved Set, the selection, the search text or the temporary result. *)
Theorem handleSearchArea_frame (env : Env) (s : App.State) (bounds : Overpass.Bounds) :
  let r := App.handleSearchArea env bounds s in
  outcomeOf r = Ret tt /\
  remoteCalls (traceOf r) = [CallOverpass bounds] /\
  alerts (traceOf r) = [] /\
  App.isSearchingArea (stateOf r) = false /\
  App.locations (stateOf r) = App.locations s /\
  App.selectedLocationId (stateOf r) = App.selectedLocationId s /\
  App.searchQuery (stateOf r) = App.searchQuery s /\
  App.searchResult (stateOf r) = App.searchResult s /\
  App.isSearching (stateOf r) = App.isSearching s.
Proof.
  intros r. subst r.
  destruct (overpass env bounds) as [|status| |[[elements|]|]] eqn:H.
  - rewrite (searchArea_failed env s bounds) by auto. repeat split.
  - rewrite (searchArea_failed env s bounds) by eauto. repeat split.
  - rewrite (searchArea_failed env s bounds) by auto. repeat split.
  - rewrite (searchArea_elements env s bounds elements H).
    destruct (App.newSuggestions (App.locations s) elements); repeat split.
  - rewrite (searchArea_no_elements env s bounds) by auto. repeat split.
  - rewrite (searchArea_no_elements env s bounds) by auto. repeat split.
Qed.

(* ================================================================== *)
(** ** Suggestions never duplicate a saved name *)
(* ================================================================== *)

Section NamesDisjoint.

Variable env : Env.

Lemma newSuggestions_disjoint (locs : list Location) (elements : list Overpass.Element)
    (l sg : Location) :
  In l locs -> In sg (App.newSuggestions locs elements) -> name l <> name sg.
Proof.
  intros Hl Hsg. unfold App.newSuggestions in Hsg.
  apply in_map_iff in Hsg as (el & <- & Hel). apply filter_In in Hel as [_ Hkeep].
  intros E. unfold App.notSaved in Hkeep. apply negb_true_iff in Hkeep.
  rewrite existsb_false_forall in Hkeep. specialize (Hkeep l Hl).
  apply String.eqb_neq in Hkeep. now apply Hkeep.
Qed.

Lemma searchAreaWhile_nothing (s : App.State) (bounds : Overpass.Bounds) :
  App.handleSearchArea env bounds s = App.searchAreaWhile env bounds (ret tt) s.
Proof.
  unfold App.handleSearchArea, App.searchAreaWhile, App.searchAreaStart,
    App.searchAreaFinish, App.queryOverpass, tryCatchFinally, bind, get, emit,
    throw, ret, App.setIsSearchingArea, App.setSuggestedLocations, modify.
  destruct (overpass env bounds) as [|status| |[[elements|]|]]; cbn;
    try reflexivity.
  destruct (App.newSuggestions (App.locations s) elements); reflexivity.
Qed.

Lemma searchAreaWhile_elements (s : App.State) (bounds : Overpass.Bounds)
    (elements : list Overpass.Element) (meanwhile : M App.State unit) :
  overpass env bounds = Overpass.Json (Some (Some elements)) ->
  outcomeOf (meanwhile (areaSearching s)) = Ret tt ->
  App.searchAreaWhile env bounds meanwhile s =
  (Ret tt,
   suggested (stateOf (meanwhile (areaSearching s)))
             (App.newSuggestions (App.locations s) elements),
   (CallOverpass bounds :: traceOf (meanwhile (areaSearching s)) ++
    match App.newSuggestions (App.locations s) elements with
    | [] => [ConsoleLog "No new places found here."]
    | _ :: _ => []
    end)%list).
Proof.
  intros H Hret.
  unfold App.searchAreaWhile, App.searchAreaStart, App.searchAreaFinish,
    tryCatchFinally, bind, get, emit, throw, ret, App.setIsSearchingArea,
    App.setSuggestedLocations, modify.
  cbn. fold (areaSearching s).
  destruct (meanwhile (areaSearching s)) as [[o s'] t]. cbn in Hret. subst o.
  rewrite H. cbn.
  destruct (App.newSuggestions (App.locations s) elements); cbn;
    rewrite ?app_nil_r; reflexivity.
Qed.

Lemma area_keeps_disjoint (s : App.State) (bounds : Overpass.Bounds) :
  namesDisjoint s -> namesDisjoint (stateOf (App.handleSearchArea env bounds s)).
Proof.
  intros Hinv.
  destruct (overpass env bounds) as [|status| |[[elements|]|]] eqn:H.
  - rewrite (searchArea_failed env s bounds) by auto. exact Hinv.
  - rewrite (searchArea_failed env s bounds) by eauto. exact Hinv.
  - rewrite (searchArea_failed env s bounds) by auto. exact Hinv.
  - rewrite (searchArea_elements env s bounds elements H).
    intros l sg Hl Hsg. now apply (newSuggestions_disjoint (App.locations s) elements).
  - rewrite (searchArea_no_elements env s bounds) by auto. exact Hinv.
  - rewrite (searchArea_no_elements env s bounds) by auto. exact Hinv.
Qed.

Lemma add_keeps_disjoint (s : App.State) (d : OmitId.Location) :
  namesDisjoint s -> namesDisjoint (stateOf (App.handleAddLocation env d s)).
Proof.
  intros Hinv l sg. rewrite handleAddLocation_run. cbn.
  intros Hl Hsg. apply filter_In in Hsg as [Hsg Hname].
  apply negb_true_iff, String.eqb_neq in Hname.
  apply in_app_or in Hl as [Hl | [<- | []]].
  - now apply Hinv.
  - cbn. congruence.
Qed.

Lemma remove_keeps_disjoint (s : App.State) (i : string) :
  namesDisjoint s -> namesDisjoint (stateOf (App.handleRemoveLocation i s)).
Proof.
  intros Hinv.
  destruct (existsb (App.hasId i) (App.locations s)) eqn:H1.
  { rewrite (remove_saved s i H1). intros l sg Hl Hsg. cbn in Hl, Hsg.
    apply filter_In in Hl as [Hl _]. now apply Hinv. }
  destruct (existsb (App.hasId i) (App.suggestedLocations s)) eqn:H2.
  { rewrite (remove_suggested s i H1 H2). intros l sg Hl Hsg. cbn in Hl, Hsg.
    apply filter_In in Hsg as [Hsg _]. now apply Hinv. }
  destruct (App.searchResult s) as [c|] eqn:Hres.
  - destruct (App.hasId i c) eqn:Hc.
    + rewrite (remove_temporary s i c H1 H2 Hres Hc). exact Hinv.
    + rewrite (remove_unknown s i H1 H2); [exact Hinv|].
      intros r Hr. rewrite Hres in Hr. now injection Hr as <-.
  - rewrite (remove_unknown s i H1 H2); [exact Hinv|].
    intros r Hr. rewrite Hres in Hr. discriminate.
Qed.

Lemma toggle_keeps_disjoint (s : App.State) (i : string) :
  namesDisjoint s -> namesDisjoint (stateOf (App.handleToggleVisited i s)).
Proof.
  intros Hinv l sg Hl Hsg. cbn in Hl, Hsg. unfold App.toggleVisited in Hl.
  apply in_map_iff in Hl as (l0 & <- & Hl0).
  replace (name (if String.eqb (id l0) i
                 then withVisited (Some (App.notVisited l0)) l0 else l0))
    with (name l0) by (now destruct (String.eqb (id l0) i)).
  now apply Hinv.
Qed.

Lemma search_keeps_disjoint (s : App.State) :
  namesDisjoint s -> namesDisjoint (stateOf (App.handleGlobalSearch env s)).
Proof.
  intros Hinv l sg.
  destruct (search_framed env s) as (_ & -> & -> & _). apply Hinv.
Qed.

End NamesDisjoint.

(** X10. "No suggestion has the name of a saved place" is kept by adding a
    place, removing an id, toggling visited, a text search and selecting a
    suggestion. An area search that receives elements filters them against
    the Saved Set of the moment it was started: run without interruption it
    establishes the property; run while another handler changes the Saved
    Set it establishes it only with respect to the places saved before, so
    the property holds afterwards if every place saved by then bears a name
    that was saved before, and it fails when a place with the name of a
    received element is saved while the request is under way: that place
    ends up both saved and suggested. *)
Theorem suggestions_and_saved_names (env : Env) :
  (forall s, namesDisjoint s ->
     (forall d, namesDisjoint (stateOf (App.handleAddLocation env d s))) /\
     (forall i, namesDisjoint (stateOf (App.handleRemoveLocation i s))) /\
     (forall i, namesDisjoint (stateOf (App.handleToggleVisited i s))) /\
     namesDisjoint (stateOf (App.handleGlobalSearch env s)) /\
     (forall suggestion, namesDisjoint (stateOf (App.handleSuggestionSelect env suggestion s)))) /\
  (forall s bounds,
     App.handleSearchArea env bounds s = App.searchAreaWhile env bounds (ret tt) s) /\
  (forall s bounds elements,
     overpass env bounds = Overpass.Json (Some (Some elements)) ->
     namesDisjoint (stateOf (App.handleSearchArea env bounds s))) /\
  (forall s bounds elements meanwhile,
     overpass env bounds = Overpass.Json (Some (Some elements)) ->
     outcomeOf (meanwhile (areaSearching s)) = Ret tt ->
     let between := stateOf (meanwhile (areaSearching s)) in
     let r := App.searchAreaWhile env bounds meanwhile s in
     App.locations (stateOf r) = App.locations between /\
     App.suggestedLocations (stateOf r) = App.newSuggestions (App.locations s) elements /\
     (forall l sg, In l (App.locations s) -> In sg (App.suggestedLocations (stateOf r)) ->
                   name l <> name sg) /\
     ((forall l, In l (App.locations between) ->
                 exists l0, In l0 (App.locations s) /\ name l0 = name l) ->
      namesDisjoint (stateOf r))) /\
  (forall s bounds elements el d,
     overpass env bounds = Overpass.Json (Some (Some elements)) ->
     In el elements ->
     OmitId.name d = Overpass.name (Overpass.tags el) ->
     (forall l, In l (App.locations s) -> name l <> OmitId.name d) ->
     let r := App.searchAreaWhile env bounds (App.handleAddLocation env d) s in
     In (App.withId (timestamp env) d) (App.locations (stateOf r)) /\
     In (App.elementLocation el) (App.suggestedLocations (stateOf r)) /\
     name (App.withId (timestamp env) d) = name (App.elementLocation el) /\
     ~ namesDisjoint (stateOf r)).
Proof.
  split; [|split; [|split; [|split]]].
  - intros s Hinv. split; [|split; [|split; [|split]]].
    + intros d. now apply add_keeps_disjoint.
    + intros i. now apply remove_keeps_disjoint.
    + intros i. now apply toggle_keeps_disjoint.
    + now apply search_keeps_disjoint.
    + intros suggestion. exact Hinv.
  - intros s bounds. apply searchAreaWhile_nothing.
  - intros s bounds elements H. rewrite (searchArea_elements env s bounds elements H).
    intros l sg Hl Hsg. now apply (newSuggestions_disjoint (App.locations s) elements).
  - intros s bounds elements meanwhile H Hret between r. subst r between.
    rewrite (searchAreaWhile_elements env s bounds elements meanwhile H Hret). cbn.
    split; [reflexivity|]. split; [reflexivity|]. split.
    + intros l sg Hl Hsg. now apply (newSuggestions_disjoint (App.locations s) elements).
    + intros Hnames l sg Hl Hsg. destruct (Hnames l Hl) as (l0 & Hl0 & <-).
      now apply (newSuggestions_disjoint (App.locations s) elements).
  - intros s bounds elements el d H Hel Hname Hfresh r. subst r.
    rewrite (searchAreaWhile_elements env s bounds elements (App.handleAddLocation env d) H)
      by (now rewrite handleAddLocation_run).
    rewrite handleAddLocation_run. cbn.
    assert (Hsaved : In (App.withId (timestamp env) d)
                        (App.locations s ++ [App.withId (timestamp env) d])%list).
    { apply in_or_app. right. now left. }
    assert (Hsugg : In (App.elementLocation el)
                       (App.newSuggestions (App.locations s) elements)).
    { apply (suggestion_kept (App.locations s) elements el Hel).
      unfold App.notSaved. apply negb_true_iff. apply existsb_false_forall.
      intros l Hl. apply String.eqb_neq. rewrite <- Hname. now apply Hfresh. }
    split; [exact Hsaved|]. split; [exact Hsugg|]. split; [exact Hname|].
    intros Hinv. apply (Hinv _ _ Hsaved Hsugg). exact Hname.
Qed.

(** At the sample viewport: the uninterrupted search on the mock places
    establishes the property; with "merlion park" saved while the request
    is under way that name is saved and suggested. *)
Lemma suggestions_and_saved_names_witness :
  namesDisjoint
    (stateOf (App.handleAddLocation Fixtures.offline (Fixtures.newPlace "merlion park")
                Fixtures.afterEarlierSearch)) /\
  namesDisjoint
    (stateOf (App.handleSearchArea Fixtures.merlionWorld Fixtures.viewport
                Fixtures.afterEarlierSearch)) /\
  ~ namesDisjoint
      (stateOf (App.searchAreaWhile Fixtures.merlionWorld Fixtures.viewport
                  (App.handleAddLocation Fixtures.merlionWorld
                     (Fixtures.newPlace "merlion park"))
                  (Fixtures.initial ""))).
Proof.
  assert (Hinv : namesDisjoint Fixtures.afterEarlierSearch).
  { intros l sg Hl Hsg. simpl in Hl, Hsg. destruct Hsg as [<- | []].
    repeat (destruct Hl as [<- | Hl]; [discriminate|]). contradiction. }
  destruct (suggestions_and_saved_names Fixtures.offline) as (Hkeep & _).
  destruct (Hkeep _ Hinv) as (Hadd & _).
  destruct (suggestions_and_saved_names Fixtures.merlionWorld)
    as (_ & _ & Hest & _ & Hrace).
  split; [apply Hadd|]. split.
  - apply (Hest _ _ [Fixtures.node 11 "Merlion Park" None;
                     Fixtures.node 12 "merlion park" None]).
    reflexivity.
  - destruct (Hrace (Fixtures.initial "") Fixtures.viewport
                [Fixtures.node 11 "Merlion Park" None; Fixtures.node 12 "merlion park" None]
                (Fixtures.node 12 "merlion park" None)
                (Fixtures.newPlace "merlion park")) as (_ & _ & _ & Hbroken).
    + reflexivity.
    + right. left. reflexivity.
    + reflexivity.
    + intros l Hl. simpl in Hl.
      repeat (destruct Hl as [<- | Hl]; [discriminate|]). contradiction.
    + exact Hbroken.
Defined.

(* ================================================================== *)
(** ** Saving a found place, selecting a suggestion *)
(* ================================================================== *)

(** X11. Saving a temporary result or a suggestion appends a copy with the
    clock reading as id and with the same name, coordinate, description,
    category, type, image and address; the copy is unvisited and unrated.
    The temporary result is cleared and no suggestion of that name is left,
    so a saved suggestion leaves the Suggested Set. *)
Theorem handleAddSearchResult_promotes (env : Env) (c : Location) (s : App.State) :
  let r := App.handleAddSearchResult env c s in
  exists saved,
    App.locations (stateOf r) = (App.locations s ++ [saved])%list /\
    id saved = timestamp env /\
    name saved = name c /\ coordinate saved = coordinate c /\
    description saved = description c /\ category saved = category c /\
    placeType saved = placeType c /\ image saved = image c /\
    address saved = address c /\
    visited saved = Some false /\ rating saved = None /\
    App.searchResult (stateOf r) = None /\
    App.selectedLocationId (stateOf r) = Some (id saved) /\
    ~ In c (App.suggestedLocations (stateOf r)) /\
    (forall sg, In sg (App.suggestedLocations (stateOf r)) -> name sg <> name c) /\
    traceOf r = [].
Proof.
  intros r. subst r. unfold App.handleAddSearchResult. rewrite handleAddLocation_run.
  eexists. cbn. repeat split.
  - intros Hin. apply filter_In in Hin as [_ Hname].
    rewrite String.eqb_refl in Hname. discriminate.
  - intros sg Hin. apply filter_In in Hin as [_ Hname].
    now apply negb_true_iff, String.eqb_neq in Hname.
Qed.

Section SuggestionSelect.

Variable env : Env.

Lemma mainName_is_suggestionName (suggestion : Nominatim.SearchSuggestion) :
  SearchBar.mainName suggestion = App.suggestionName suggestion.
Proof.
  unfold SearchBar.mainName, App.suggestionName.
  destruct (Nominatim.address suggestion) as [a|]; reflexivity.
Qed.

Lemma splitFirst_no_separator (sep : ascii) (t : string) :
  ~ In sep (list_ascii_of_string (Js.splitFirst sep t)).
Proof.
  induction t as [|c r IH]; simpl; [tauto|].
  destruct (Ascii.eqb_spec c sep) as [E|E]; simpl; [tauto|].
  intros [H | H]; [contradiction | now apply IH].
Qed.

Lemma splitFirst_prefix (sep : ascii) (t : string) :
  exists rest, t = Js.splitFirst sep t ++ rest.
Proof.
  induction t as [|c r [rest IH]]; simpl; [now exists ""|].
  destruct (Ascii.eqb c sep).
  - now exists (String c r).
  - exists rest. simpl. now rewrite <- IH.
Qed.

End SuggestionSelect.

(** X12. Choosing a suggestion in the search bar makes no remote call and
    never touches the Saved Set or the Suggested Set. It stores a temporary
    result whose coordinate is the parsed [lat]/[lon] of the suggestion,
    selects it, closes the dropdown and keeps the suggestion list. The text
    and the name the App computes agree: the search text ends equal to the
    name of the temporary result, unless that name is empty, in which case
    it is the full label. Without an address breakdown the name is the label
    up to its first comma. The card shows the temporary result provided no
    saved or suggested place has the id "temp-search-result". *)
Theorem suggestion_selection (env : Env) (suggestion : Nominatim.SearchSuggestion)
    (s : App.State) (bar : SearchBar.State) :
  let r := SearchBar.handleSelect (App.handleSuggestionSelect env) App.setSearchQuery
             suggestion (s, bar) in
  let app := fst (stateOf r) in
  outcomeOf r = Ret tt /\ traceOf r = [] /\
  App.locations app = App.locations s /\
  App.suggestedLocations app = App.suggestedLocations s /\
  SearchBar.showSuggestions (snd (stateOf r)) = false /\
  SearchBar.suggestions (snd (stateOf r)) = SearchBar.suggestions bar /\
  exists c,
    App.searchResult app = Some c /\
    App.selectedLocationId app = Some (id c) /\
    id c = "temp-search-result" /\
    coordinate c = parsedCoordinate env suggestion /\
    (name c <> "" -> App.searchQuery app = name c) /\
    (name c = "" -> App.searchQuery app = Nominatim.display_name suggestion) /\
    (Nominatim.address suggestion = None ->
       ~ In ","%char (list_ascii_of_string (name c)) /\
       exists rest, Nominatim.display_name suggestion = name c ++ rest) /\
    ((forall l, In l (App.locations s) -> id l <> "temp-search-result") ->
     (forall l, In l (App.suggestedLocations s) -> id l <> "temp-search-result") ->
     App.selectedLocation app = Some c).
Proof.
  intros r app. subst app r. cbn.
  repeat (split; [reflexivity|]).
  eexists. split; [reflexivity|]. split; [reflexivity|]. split; [reflexivity|].
  split; [reflexivity|]. cbn.
  unfold SearchBar.inputText. rewrite mainName_is_suggestionName.
  split; [|split; [|split]].
  - intros H. now rewrite (truthyStr_true _ H).
  - intros H. now rewrite H.
  - intros H. unfold App.suggestionName. rewrite H. split.
    + apply splitFirst_no_separator.
    + apply splitFirst_prefix.
  - intros Hsaved Hsugg. unfold App.selectedLocation. cbn.
    assert (H1 : find (fun l => String.eqb (id l) "temp-search-result") (App.locations s) = None).
    { apply find_none_forall. intros l Hl. apply String.eqb_neq. now apply Hsaved. }
    assert (H2 : find (fun l => String.eqb (id l) "temp-search-result")
                   (App.suggestedLocations s) = None).
    { apply find_none_forall. intros l Hl. apply String.eqb_neq. now apply Hsugg. }
    cbn in H1, H2. rewrite H1, H2. reflexivity.
Qed.

Lemma suggestion_selection_witness :
  let r := SearchBar.handleSelect (App.handleSuggestionSelect Fixtures.offline)
             App.setSearchQuery (Fixtures.taggedSuggestion "pub")
             (Fixtures.initial "mol",
              {| SearchBar.suggestions := [Fixtures.taggedSuggestion "pub"];
                 SearchBar.loading := false; SearchBar.showSuggestions := true |}) in
  App.searchQuery (fst (stateOf r)) = "Molly Malone" /\
  option_map name (App.selectedLocation (fst (stateOf r))) = Some "Molly Malone".
Proof.
  destruct (suggestion_selection Fixtures.offline (Fixtures.taggedSuggestion "pub")
              (Fixtures.initial "mol")
              {| SearchBar.suggestions := [Fixtures.taggedSuggestion "pub"];
                 SearchBar.loading := false; SearchBar.showSuggestions := true |})
    as (_ & _ & _ & _ & _ & _ & c & Hres & _ & _ & _ & Hq & _ & _ & Hcard).
  cbv zeta in *. cbn in Hres. injection Hres as <-.
  split.
  - apply Hq. vm_compute. discriminate.
  - rewrite Hcard; [reflexivity | |].
    + intros l Hl. simpl in Hl.
      repeat (destruct Hl as [<- | Hl]; [discriminate|]). contradiction.
    + intros l [].
Defined.

(* ================================================================== *)
(** ** The add-location form: geocoding *)
(* ================================================================== *)

Section FormGeocoding.

Variable env : Env.
Variable form : AddLocationModal.State.

Ltac run_form :=
  unfold AddLocationModal.performGeocode, AddLocationModal.performReverseGeocode,
    tryCatchFinally, bind, emit, throw, ret,
    AddLocationModal.setIsGeocoding, AddLocationModal.setCoordinate,
    AddLocationModal.setName, AddLocationModal.setPlaceType, modify.

Lemma performGeocode_failed (queryName : string) (queryAddress : option string) :
  let q := AddLocationModal.geocodeQuery queryName queryAddress in
  (nominatimSearch env q 5 = FetchRejected \/ nominatimSearch env q 5 = FetchNotJson) ->
  AddLocationModal.performGeocode env queryName queryAddress form
  = (Ret tt, settled form, [CallNominatim q 5; ConsoleError "Geocode failed"]).
Proof.
  intros q [H | H]; run_form; fold q; rewrite H; reflexivity.
Qed.

Lemma performGeocode_answered (queryName : string) (queryAddress : option string)
    (data : option (list Nominatim.SearchSuggestion)) :
  let q := AddLocationModal.geocodeQuery queryName queryAddress in
  nominatimSearch env q 5 = FetchJson data ->
  AddLocationModal.performGeocode env queryName queryAddress form
  = (Ret tt,
     match AddLocationModal.bestMatch queryAddress data with
     | Some b => pinned form (parsedCoordinate env b)
     | None => settled form
     end,
     [CallNominatim q 5]).
Proof.
  intros q H. run_form. fold q. rewrite H.
  destruct (AddLocationModal.bestMatch queryAddress data); reflexivity.
Qed.

Lemma performReverseGeocode_failed (c : Coordinate) :
  (nominatimReverse env c = FetchRejected \/ nominatimReverse env c = FetchNotJson) ->
  AddLocationModal.performReverseGeocode env c form
  = (Ret tt, settled form, [CallReverse c; ConsoleError "Reverse Geocode failed"]).
Proof.
  intros [H | H]; run_form; rewrite H; reflexivity.
Qed.

Lemma performReverseGeocode_answered (c : Coordinate) (data : option Nominatim.Reverse) :
  nominatimReverse env c = FetchJson data ->
  AddLocationModal.performReverseGeocode env c form
  = (Ret tt,
     match data with
     | Some d => named form d
     | None => settled form
     end,
     [CallReverse c]).
Proof.
  intros H. run_form. rewrite H. destruct data as [d|]; [|reflexivity].
  unfold named, reverseType.
  destruct (App.isStr (AddLocationModal.amenityOf d) "restaurant"); [reflexivity|].
  destruct (App.isStr (AddLocationModal.amenityOf d) "cafe"); [reflexivity|].
  destruct (App.isStr (AddLocationModal.amenityOf d) "bar"); reflexivity.
Qed.

End FormGeocoding.

Lemma orStr_truthy (a : option string) (b : string) :
  b <> "" -> Js.orStr a b <> "".
Proof.
  intros Hb. unfold Js.orStr. destruct a as [t|]; [|assumption].
  unfold Js.truthyStr. destruct (String.eqb_spec t ""); cbn; assumption.
Qed.

(** X13. Whatever the directory answers, geocoding from the form returns
    normally, makes exactly one directory call (limit 5) and no alert, ends
    with the geocoding flag down and never changes the name, description,
    category or type of the form. The pin moves only when the directory
    answers with at least one entry, and then to the parsed coordinate of the
    chosen entry; a failed call is logged and an empty answer is silent,
    and both leave the pin where it was. *)
Theorem performGeocode_effect (env : Env) (queryName : string)
    (queryAddress : option string) (form : AddLocationModal.State) :
  let q := AddLocationModal.geocodeQuery queryName queryAddress in
  let r := AddLocationModal.performGeocode env queryName queryAddress form in
  outcomeOf r = Ret tt /\
  remoteCalls (traceOf r) = [CallNominatim q 5] /\
  alerts (traceOf r) = [] /\
  AddLocationModal.isGeocoding (stateOf r) = false /\
  AddLocationModal.name (stateOf r) = AddLocationModal.name form /\
  AddLocationModal.description (stateOf r) = AddLocationModal.description form /\
  AddLocationModal.category (stateOf r) = AddLocationModal.category form /\
  AddLocationModal.placeType (stateOf r) = AddLocationModal.placeType form /\
  (forall data b,
     nominatimSearch env q 5 = FetchJson data ->
     AddLocationModal.bestMatch queryAddress data = Some b ->
     AddLocationModal.coordinate (stateOf r) = parsedCoordinate env b) /\
  (nominatimSearch env q 5 = FetchJson None \/ nominatimSearch env q 5 = FetchJson (Some []) ->
     stateOf r = settled form /\ traceOf r = [CallNominatim q 5]) /\
  (nominatimSearch env q 5 = FetchRejected \/ nominatimSearch env q 5 = FetchNotJson ->
     stateOf r = settled form /\ consoleErrors (traceOf r) = ["Geocode failed"]).
Proof.
  intros q r. subst r.
  destruct (nominatimSearch env q 5) as [| |data] eqn:H.
  1-2: rewrite (performGeocode_failed env form queryName queryAddress) by (fold q; auto);
       repeat match goal with |- _ /\ _ => split end;
       try reflexivity;
       try (intros ? ? E; discriminate E);
       try (intros [E | E]; discriminate E);
       intros _; split; reflexivity.
  rewrite (performGeocode_answered env form queryName queryAddress data H).
  destruct (AddLocationModal.bestMatch queryAddress data) as [b|] eqn:Hb;
    repeat match goal with |- _ /\ _ => split end;
    try reflexivity;
    try (intros [E | E]; discriminate E).
  - intros data' b' E Hb'. injection E as <-. rewrite Hb in Hb'. now injection Hb' as <-.
  - intros [E | E]; injection E as ->; discriminate Hb.
  - intros data' b' E Hb'. injection E as <-. rewrite Hb in Hb'. discriminate.
  - intros _. split; reflexivity.
Qed.

Lemma performGeocode_effect_witness :
  let r := AddLocationModal.performGeocode Fixtures.zeroWorld "Equator Cafe"
             (Some "1 Equator Way") Fixtures.blankForm in
  AddLocationModal.coordinate (stateOf r) = {| lat := 1.3%float; lng := 103.8%float |} /\
  stateOf (AddLocationModal.performGeocode Fixtures.emptyWorld "Bunnies" None Fixtures.blankForm)
  = settled Fixtures.blankForm.
Proof.
  split.
  - destruct (performGeocode_effect Fixtures.zeroWorld "Equator Cafe" (Some "1 Equator Way")
                Fixtures.blankForm) as (_ & _ & _ & _ & _ & _ & _ & _ & Hpin & _).
    rewrite (Hpin _ _ eq_refl eq_refl). vm_compute. reflexivity.
  - destruct (performGeocode_effect Fixtures.emptyWorld "Bunnies" None Fixtures.blankForm)
      as (_ & _ & _ & _ & _ & _ & _ & _ & _ & Hempty & _).
    destruct Hempty as (Hstate & _); [right; reflexivity | exact Hstate].
Defined.

(** X14. The entry geocoding picks is always one of the entries received,
    and there is one exactly when the answer is a non-empty array. With an
    address the first entry is taken; without one the first entry that is a
    venue (class amenity, tourism, shop or leisure, or type restaurant, cafe
    or bar) is taken, whatever precedes it, and the first entry when there
    is no venue. *)
Theorem bestMatch_choice (queryAddress : option string)
    (data : option (list Nominatim.SearchSuggestion)) :
  (AddLocationModal.bestMatch queryAddress data = None <->
   data = None \/ data = Some []) /\
  (forall b, AddLocationModal.bestMatch queryAddress data = Some b ->
             exists entries, data = Some entries /\ In b entries) /\
  (forall d0 rest,
     data = Some (d0 :: rest) ->
     Js.truthyOpt Js.truthyStr queryAddress = true ->
     AddLocationModal.bestMatch queryAddress data = Some d0) /\
  (forall d0 rest,
     data = Some (d0 :: rest) ->
     Js.truthyOpt Js.truthyStr queryAddress = false ->
     (forall before v after,
        (d0 :: rest = before ++ v :: after)%list ->
        AddLocationModal.isVenue v = true ->
        (forall x, In x before -> AddLocationModal.isVenue x = false) ->
        AddLocationModal.bestMatch queryAddress data = Some v) /\
     ((forall x, In x (d0 :: rest) -> AddLocationModal.isVenue x = false) ->
      AddLocationModal.bestMatch queryAddress data = Some d0)).
Proof.
  split; [|split; [|split]].
  - unfold AddLocationModal.bestMatch. destruct data as [[|d0 rest]|].
    + split; [auto | reflexivity].
    + destruct (Js.truthyOpt Js.truthyStr queryAddress).
      * split; [discriminate | intros [E | E]; discriminate].
      * destruct (find AddLocationModal.isVenue (d0 :: rest));
          (split; [discriminate | intros [E | E]; discriminate]).
    + split; [auto | reflexivity].
  - intros b. unfold AddLocationModal.bestMatch. destruct data as [[|d0 rest]|];
      try discriminate.
    destruct (Js.truthyOpt Js.truthyStr queryAddress).
    + intros E. injection E as <-. exists (d0 :: rest). split; [reflexivity | now left].
    + destruct (find AddLocationModal.isVenue (d0 :: rest)) as [v|] eqn:Hv.
      * intros E. injection E as <-. exists (d0 :: rest). split; [reflexivity|].
        now apply (find_some _ _ Hv).
      * intros E. injection E as <-. exists (d0 :: rest). split; [reflexivity | now left].
  - intros d0 rest -> Haddr. unfold AddLocationModal.bestMatch. now rewrite Haddr.
  - intros d0 rest -> Haddr. unfold AddLocationModal.bestMatch. rewrite Haddr. split.
    + intros before v after Hsplit Hv Hbefore. rewrite Hsplit.
      replace (find AddLocationModal.isVenue (before ++ v :: after)%list) with (Some v).
      * destruct (before ++ v :: after)%list eqn:E; [|reflexivity].
        destruct before; discriminate.
      * symmetry. clear Hsplit. induction before as [|x before IH]; simpl.
        -- now rewrite Hv.
        -- rewrite (Hbefore x (or_introl eq_refl)). apply IH.
           intros y Hy. apply Hbefore. now right.
    + intros Hnone. now rewrite (find_none_forall _ _ Hnone).
Qed.

Lemma bestMatch_choice_witness :
  AddLocationModal.bestMatch None
    (Some [Fixtures.plainSuggestion "1.30" "103.80" "Circular Road, Singapore";
           Fixtures.taggedSuggestion "pub"])
  = Some (Fixtures.taggedSuggestion "pub") /\
  AddLocationModal.bestMatch (Some "Circular Road")
    (Some [Fixtures.plainSuggestion "1.30" "103.80" "Circular Road, Singapore";
           Fixtures.taggedSuggestion "pub"])
  = Some (Fixtures.plainSuggestion "1.30" "103.80" "Circular Road, Singapore").
Proof.
  split.
  - destruct (bestMatch_choice None
                (Some [Fixtures.plainSuggestion "1.30" "103.80" "Circular Road, Singapore";
                       Fixtures.taggedSuggestion "pub"])) as (_ & _ & _ & H).
    destruct (H _ _ eq_refl eq_refl) as (Hvenue & _).
    apply (Hvenue [Fixtures.plainSuggestion "1.30" "103.80" "Circular Road, Singapore"]
                  (Fixtures.taggedSuggestion "pub") []).
    + reflexivity.
    + reflexivity.
    + intros x [<- | []]. reflexivity.
  - destruct (bestMatch_choice (Some "Circular Road")
                (Some [Fixtures.plainSuggestion "1.30" "103.80" "Circular Road, Singapore";
                       Fixtures.taggedSuggestion "pub"])) as (_ & _ & H & _).
    apply (H _ _ eq_refl). reflexivity.
Defined.

(** X15. Whatever the reverse service answers, the reverse lookup returns
    normally, makes exactly one call (for the clicked coordinate), shows no
    alert, ends with the geocoding flag down and never changes the pin, the
    description or the category. When the service answers with a body the
    name of the form becomes a non-empty text: the body's name if it has
    one, and "Unknown Location" when the body names nothing; a failed call
    or a null body leaves name and type as they were. *)
Theorem performReverseGeocode_effect (env : Env) (c : Coordinate)
    (form : AddLocationModal.State) :
  let r := AddLocationModal.performReverseGeocode env c form in
  outcomeOf r = Ret tt /\
  remoteCalls (traceOf r) = [CallReverse c] /\
  alerts (traceOf r) = [] /\
  AddLocationModal.isGeocoding (stateOf r) = false /\
  AddLocationModal.coordinate (stateOf r) = AddLocationModal.coordinate form /\
  AddLocationModal.description (stateOf r) = AddLocationModal.description form /\
  AddLocationModal.category (stateOf r) = AddLocationModal.category form /\
  (forall d, nominatimReverse env c = FetchJson (Some d) ->
     AddLocationModal.name (stateOf r) <> "" /\
     (forall n, Nominatim.r_name d = Some n -> n <> "" ->
                AddLocationModal.name (stateOf r) = n) /\
     (Nominatim.r_name d = None -> Nominatim.r_address d = None ->
        AddLocationModal.name (stateOf r) = "Unknown Location")) /\
  ((forall d, nominatimReverse env c <> FetchJson (Some d)) ->
     stateOf r = settled form).
Proof.
  intros r. subst r.
  destruct (nominatimReverse env c) as [| |[d|]] eqn:H.
  1-2: rewrite (performReverseGeocode_failed env form c) by auto;
       repeat match goal with |- _ /\ _ => split end;
       try reflexivity; try (intros ? E; discriminate E); intros _; reflexivity.
  - rewrite (performReverseGeocode_answered env form c (Some d) H).
    repeat match goal with |- _ /\ _ => split end; try reflexivity.
    + intros d' E. injection E as <-. cbn. split; [|split].
      * unfold AddLocationModal.placeName. apply orStr_truthy. discriminate.
      * intros n Hn Hne. unfold AddLocationModal.placeName, Js.orOpt. rewrite Hn.
        cbn [Js.truthyOpt]. rewrite (truthyStr_true _ Hne). cbn [Js.orStr].
        now rewrite (truthyStr_true _ Hne).
      * intros Hn Ha. unfold AddLocationModal.placeName. rewrite Hn, Ha. reflexivity.
    + intros Hno. exfalso. now apply (Hno d).
  - rewrite (performReverseGeocode_answered env form c None H).
    repeat match goal with |- _ /\ _ => split end;
      try reflexivity; try (intros ? E; discriminate E); intros _; reflexivity.
Qed.

Lemma performReverseGeocode_effect_witness :
  AddLocationModal.name
    (stateOf (AddLocationModal.performReverseGeocode (Fixtures.reverseWorld "pub")
                Fixtures.INITIAL_CENTER Fixtures.blankForm)) <> "" /\
  stateOf (AddLocationModal.performReverseGeocode Fixtures.offline
             Fixtures.INITIAL_CENTER Fixtures.blankForm)
  = settled Fixtures.blankForm.
Proof.
  split.
  - destruct (performReverseGeocode_effect (Fixtures.reverseWorld "pub")
                Fixtures.INITIAL_CENTER Fixtures.blankForm)
      as (_ & _ & _ & _ & _ & _ & _ & Hname & _).
    destruct (Hname (Fixtures.tagged "pub") eq_refl) as (Hne & _). exact Hne.
  - destruct (performReverseGeocode_effect Fixtures.offline
                Fixtures.INITIAL_CENTER Fixtures.blankForm)
      as (_ & _ & _ & _ & _ & _ & _ & _ & Hfail).
    apply Hfail. intros d E. discriminate E.
Defined.

(* ================================================================== *)
(** ** The add-location form: opening and submitting *)
(* ================================================================== *)

Section FormOpen.

Variable env : Env.
Variable form : AddLocationModal.State.
Variable currentCenter : Coordinate.

Lemma onOpen_fresh :
  AddLocationModal.onOpen env None currentCenter form
  = (Ret tt, cleared form currentCenter, []).
Proof. reflexivity. Qed.

Lemma onOpen_draft (p : Partial.Location) :
  AddLocationModal.onOpen env (Some p) currentCenter form
  = match Partial.coordinate p with
    | None =>
        if Js.truthyOpt Js.truthyStr (Partial.name p)
        then AddLocationModal.performGeocode env (Js.toStr (Partial.name p))
               (Partial.address p) (prefilled form p currentCenter)
        else (Ret tt, prefilled form p currentCenter, [])
    | Some c =>
        if negb (Js.truthyOpt Js.truthyStr (Partial.name p))
        then AddLocationModal.performReverseGeocode env c (prefilled form p currentCenter)
        else (Ret tt, prefilled form p currentCenter, [])
    end.
Proof.
  unfold AddLocationModal.onOpen. unfold bind at 1 2 3 4 5.
  cbn [AddLocationModal.setName AddLocationModal.setDescription AddLocationModal.setCategory
       AddLocationModal.setPlaceType AddLocationModal.setCoordinate modify].
  match goal with
  | |- context [?m ?f] =>
      match type of f with
      | AddLocationModal.State =>
          lazymatch f with
          | form => fail
          | _ => change f with (prefilled form p currentCenter)
          end
      end
  end.
  destruct (Partial.coordinate p) as [c|];
    [destruct (negb (Js.truthyOpt Js.truthyStr (Partial.name p)))
    |destruct (Js.truthyOpt Js.truthyStr (Partial.name p))];
    try reflexivity.
  - now destruct (AddLocationModal.performReverseGeocode env c _) as [[o st] t].
  - now destruct (AddLocationModal.performGeocode env _ _ _) as [[o st] t].
Qed.

Lemma performGeocode_calls (queryName : string) (queryAddress : option string)
    (f : AddLocationModal.State) :
  remoteCalls (traceOf (AddLocationModal.performGeocode env queryName queryAddress f))
  = [CallNominatim (AddLocationModal.geocodeQuery queryName queryAddress) 5] /\
  AddLocationModal.name (stateOf (AddLocationModal.performGeocode env queryName queryAddress f))
  = AddLocationModal.name f /\
  AddLocationModal.isGeocoding
    (stateOf (AddLocationModal.performGeocode env queryName queryAddress f)) = false /\
  AddLocationModal.isAiLoading
    (stateOf (AddLocationModal.performGeocode env queryName queryAddress f))
  = AddLocationModal.isAiLoading f /\
  outcomeOf (AddLocationModal.performGeocode env queryName queryAddress f) = Ret tt /\
  alerts (traceOf (AddLocationModal.performGeocode env queryName queryAddress f)) = [].
Proof.
  destruct (nominatimSearch env (AddLocationModal.geocodeQuery queryName queryAddress) 5)
    as [| |data] eqn:H.
  - rewrite (performGeocode_failed env f queryName queryAddress) by auto. repeat split.
  - rewrite (performGeocode_failed env f queryName queryAddress) by auto. repeat split.
  - rewrite (performGeocode_answered env f queryName queryAddress data H).
    destruct (AddLocationModal.bestMatch queryAddress data); repeat split.
Qed.

Lemma performReverseGeocode_calls (c : Coordinate) (f : AddLocationModal.State) :
  remoteCalls (traceOf (AddLocationModal.performReverseGeocode env c f)) = [CallReverse c] /\
  AddLocationModal.coordinate (stateOf (AddLocationModal.performReverseGeocode env c f))
  = AddLocationModal.coordinate f.
Proof.
  destruct (nominatimReverse env c) as [| |data] eqn:H.
  - rewrite (performReverseGeocode_failed env f c) by auto. split; reflexivity.
  - rewrite (performReverseGeocode_failed env f c) by auto. split; reflexivity.
  - rewrite (performReverseGeocode_answered env f c data H).
    destruct data; split; reflexivity.
Qed.

End FormOpen.

(** X16. Opening the form without a draft empties it, pins it at the map
    centre and calls nothing. With a draft that has a name and no
    coordinate, the form makes exactly one directory call, for the postal
    code or address of the draft or else its name, and keeps the draft's
    name. With a draft that has a coordinate and no name, it makes exactly
    one reverse call for that coordinate and the pin stays on it. A draft
    with both, or with neither, is copied into the form without any call. *)
Theorem onOpen_dispatch (env : Env) (form : AddLocationModal.State)
    (currentCenter : Coordinate) :
  AddLocationModal.onOpen env None currentCenter form
  = (Ret tt, cleared form currentCenter, []) /\
  forall p,
    let r := AddLocationModal.onOpen env (Some p) currentCenter form in
    (forall n, Partial.name p = Some n -> n <> "" -> Partial.coordinate p = None ->
       remoteCalls (traceOf r)
       = [CallNominatim (AddLocationModal.geocodeQuery n (Partial.address p)) 5] /\
       AddLocationModal.name (stateOf r) = n) /\
    (forall c, Partial.coordinate p = Some c ->
       Js.truthyOpt Js.truthyStr (Partial.name p) = false ->
       remoteCalls (traceOf r) = [CallReverse c] /\
       AddLocationModal.coordinate (stateOf r) = c) /\
    (forall c n, Partial.coordinate p = Some c -> Partial.name p = Some n -> n <> "" ->
       r = (Ret tt, prefilled form p currentCenter, [])) /\
    (Partial.coordinate p = None -> Js.truthyOpt Js.truthyStr (Partial.name p) = false ->
       r = (Ret tt, prefilled form p currentCenter, []) /\
       AddLocationModal.coordinate (stateOf r) = currentCenter).
Proof.
  split; [reflexivity|]. intros p r. subst r. rewrite onOpen_draft.
  split; [|split; [|split]].
  - intros n Hn Hne Hc. rewrite Hc, Hn. cbn [Js.truthyOpt Js.toStr].
    rewrite (truthyStr_true _ Hne).
    destruct (performGeocode_calls env n (Partial.address p) (prefilled form p currentCenter))
      as (Hcalls & Hname & _).
    split; [exact Hcalls|]. rewrite Hname. cbn. rewrite Hn. cbn.
    now rewrite (truthyStr_true _ Hne).
  - intros c Hc Hn. rewrite Hc, Hn. cbn [negb].
    destruct (performReverseGeocode_calls env c (prefilled form p currentCenter))
      as (Hcalls & Hpin).
    split; [exact Hcalls|]. rewrite Hpin. cbn. now rewrite Hc.
  - intros c n Hc Hn Hne. rewrite Hc, Hn. cbn [Js.truthyOpt].
    now rewrite (truthyStr_true _ Hne).
  - intros Hc Hn. rewrite Hc, Hn. split; [reflexivity|]. cbn. now rewrite Hc.
Qed.

Lemma onOpen_dispatch_witness :
  remoteCalls
    (traceOf (AddLocationModal.onOpen Fixtures.offline (Some Fixtures.chatPlace)
                Fixtures.INITIAL_CENTER Fixtures.blankForm))
  = [CallNominatim "428776 Singapore" 5].
Proof.
  destruct (onOpen_dispatch Fixtures.offline Fixtures.blankForm Fixtures.INITIAL_CENTER)
    as (_ & H).
  destruct (H Fixtures.chatPlace) as (Hchat & _).
  destruct (Hchat "Birds of Paradise" eq_refl) as (Hcalls & _);
    [discriminate | reflexivity |].
  rewrite Hcalls. reflexivity.
Defined.

(** X17. Submitting the form hands the App a place with the form's name,
    description, category, type and pin, unvisited, without rating and
    without address, whatever draft the form was opened with; the App
    appends it with the clock reading as id. The form's name, description,
    category and type are reset, the pin is not. *)
Theorem handleSubmit_saves (env : Env) (onClose : M App.State unit)
    (s : App.State) (form : AddLocationModal.State) :
  leavesParentAlone onClose ->
  let r := AddLocationModal.handleSubmit env (App.handleAddLocation env) onClose (s, form) in
  outcomeOf r = Ret tt /\ traceOf r = [] /\
  snd (stateOf r) = cleared form (AddLocationModal.coordinate form) /\
  exists saved,
    App.locations (fst (stateOf r)) = (App.locations s ++ [saved])%list /\
    id saved = timestamp env /\
    name saved = AddLocationModal.name form /\
    description saved = AddLocationModal.description form /\
    category saved = AddLocationModal.category form /\
    placeType saved = AddLocationModal.placeType form /\
    coordinate saved = AddLocationModal.coordinate form /\
    address saved = None /\ rating saved = None /\ visited saved = Some false /\
    App.selectedLocationId (fst (stateOf r)) = Some (id saved).
Proof.
  intros Hclose r. subst r.
  unfold AddLocationModal.handleSubmit, bind, onSelf, onParent, get.
  cbn [fst snd]. rewrite handleAddLocation_run.
  cbn [fst snd AddLocationModal.setName AddLocationModal.setDescription
       AddLocationModal.setCategory AddLocationModal.setPlaceType modify].
  match goal with
  | |- context [onClose ?w] => rewrite (Hclose w)
  end.
  cbn. repeat (split; [reflexivity|]). eexists. repeat split.
Qed.

Lemma handleSubmit_saves_witness :
  let opened := stateOf (AddLocationModal.onOpen Fixtures.offline (Some Fixtures.chatPlace)
                           Fixtures.INITIAL_CENTER Fixtures.blankForm) in
  let r := AddLocationModal.handleSubmit Fixtures.offline
             (App.handleAddLocation Fixtures.offline) (ret tt)
             (Fixtures.initial "", opened) in
  exists saved,
    App.locations (fst (stateOf r)) = (Fixtures.MOCK_LOCATIONS ++ [saved])%list /\
    name saved = "Birds of Paradise" /\ address saved = None.
Proof.
  cbv zeta.
  destruct (handleSubmit_saves Fixtures.offline (ret tt) (Fixtures.initial "")
              (stateOf (AddLocationModal.onOpen Fixtures.offline (Some Fixtures.chatPlace)
                          Fixtures.INITIAL_CENTER Fixtures.blankForm)))
    as (_ & _ & _ & saved & Hloc & _ & Hname & _ & _ & _ & _ & Haddr & _).
  - intros w. reflexivity.
  - exists saved. split; [exact Hloc|]. split; [|exact Haddr].
    rewrite Hname. vm_compute. reflexivity.
Defined.

(* ================================================================== *)
(** ** The add-location form: auto-fill *)
(* ================================================================== *)

Section AutoFill.

Variable env : Env.
Variable analyzePlace : string -> AddLocationModal.AutoFillReply.
Variable form : AddLocationModal.State.

Let placeName := AddLocationModal.name form.

Hypothesis name_typed : Js.trim placeName <> "".

Ltac run_autofill :=
  unfold AddLocationModal.handleAiAutoFill, AddLocationModal.aiPromise, bind at 1, get;
  fold placeName; rewrite (truthyStr_true _ name_typed); cbn [negb];
  unfold bind, emit, ret, AddLocationModal.setIsAiLoading, AddLocationModal.setIsGeocoding,
    AddLocationModal.setDescription, AddLocationModal.setCategory,
    AddLocationModal.setPlaceType, AddLocationModal.setCoordinate, modify.

Lemma autofill_quota (message : option string) :
  analyzePlace placeName = AddLocationModal.Threw message ->
  quotaError message = true ->
  AddLocationModal.handleAiAutoFill env analyzePlace form
  = (Ret tt, described form AddLocationModal.quotaNotice,
     [CallAI placeName; ConsoleError "AI Content gen failed"; ConsoleError "Autofill error"]).
Proof.
  intros H Hq. run_autofill. rewrite H. unfold quotaError in Hq. rewrite Hq. reflexivity.
Qed.

Lemma autofill_failed (message : option string) :
  analyzePlace placeName = AddLocationModal.Threw message ->
  quotaError message = false ->
  AddLocationModal.handleAiAutoFill env analyzePlace form
  = (Ret tt, described form AddLocationModal.noDetailsNotice,
     [CallAI placeName; ConsoleError "AI Content gen failed"]).
Proof.
  intros H Hq. run_autofill. rewrite H. unfold quotaError in Hq. rewrite Hq. reflexivity.
Qed.

Lemma autofill_nothing :
  analyzePlace placeName = AddLocationModal.Parsed None ->
  AddLocationModal.handleAiAutoFill env analyzePlace form
  = (Ret tt, described form AddLocationModal.noDetailsNotice, [CallAI placeName]).
Proof. intros H. run_autofill. rewrite H. reflexivity. Qed.

Lemma autofill_located (result : Ai.Result) (la ln : float) :
  analyzePlace placeName = AddLocationModal.Parsed (Some result) ->
  App.usable (App.resultLat result) (App.resultLng result) = Some (la, ln) ->
  AddLocationModal.handleAiAutoFill env analyzePlace form
  = (Ret tt,
     loaded (pinned (analysed form result) {| lat := la; lng := ln |}),
     [CallAI placeName]).
Proof. intros H Hu. run_autofill. rewrite H, Hu. reflexivity. Qed.

Lemma autofill_geocodes (result : Ai.Result) :
  analyzePlace placeName = AddLocationModal.Parsed (Some result) ->
  App.usable (App.resultLat result) (App.resultLng result) = None ->
  AddLocationModal.handleAiAutoFill env analyzePlace form
  = (Ret tt,
     loaded (stateOf (AddLocationModal.performGeocode env placeName
                        (Some (addressToGeocode form result)) (analysed form result))),
     CallAI placeName ::
     traceOf (AddLocationModal.performGeocode env placeName
                (Some (addressToGeocode form result)) (analysed form result))).
Proof.
  intros H Hu. run_autofill. rewrite H, Hu.
  match goal with
  | |- context [AddLocationModal.performGeocode env ?n ?a ?f] =>
      change (AddLocationModal.performGeocode env n a f)
        with (AddLocationModal.performGeocode env placeName
                (Some (addressToGeocode form result)) (analysed form result))
  end.
  pose proof (performGeocode_calls env placeName (Some (addressToGeocode form result))
                (analysed form result)) as (_ & _ & _ & _ & Hret & _).
  destruct (AddLocationModal.performGeocode env placeName
              (Some (addressToGeocode form result)) (analysed form result))
    as [[o st] t].
  cbn in Hret. subst o. cbn. rewrite app_nil_r. reflexivity.
Qed.

End AutoFill.

Lemma autofill_blank (env : Env) (analyzePlace : string -> AddLocationModal.AutoFillReply)
    (form : AddLocationModal.State) :
  Js.trim (AddLocationModal.name form) = "" ->
  AddLocationModal.handleAiAutoFill env analyzePlace form = (Ret tt, form, []).
Proof.
  intros H. unfold AddLocationModal.handleAiAutoFill, bind, get. now rewrite H.
Qed.

Lemma usable_cases (a b : option float) :
  App.usable a b = None \/ exists la ln, App.usable a b = Some (la, ln).
Proof. destruct (App.usable a b) as [[la ln]|]; eauto. Qed.

(** X18. Auto-fill does nothing for a blank name. For any other name and
    whatever the services answer it returns normally with both spinners down
    and the name untouched, shows no alert, and makes the structured-knowledge
    call followed by at most one directory call. A quota error (a message
    containing "429" or "quota") puts the quota notice in the description,
    any other error or an empty answer puts the "could not fetch" notice
    there, and in all three cases the pin does not move and the directory
    is not called; coordinates that are both truthy move the pin without a
    directory call. *)
Theorem handleAiAutoFill_settles (env : Env)
    (analyzePlace : string -> AddLocationModal.AutoFillReply)
    (form : AddLocationModal.State) :
  let r := AddLocationModal.handleAiAutoFill env analyzePlace form in
  let n := AddLocationModal.name form in
  (Js.trim n = "" -> r = (Ret tt, form, [])) /\
  (Js.trim n <> "" ->
     outcomeOf r = Ret tt /\
     AddLocationModal.isAiLoading (stateOf r) = false /\
     AddLocationModal.isGeocoding (stateOf r) = false /\
     AddLocationModal.name (stateOf r) = n /\
     alerts (traceOf r) = [] /\
     (remoteCalls (traceOf r) = [CallAI n] \/
      exists q, remoteCalls (traceOf r) = [CallAI n; CallNominatim q 5]) /\
     (forall message, analyzePlace n = AddLocationModal.Threw message ->
        remoteCalls (traceOf r) = [CallAI n] /\
        AddLocationModal.coordinate (stateOf r) = AddLocationModal.coordinate form /\
        (quotaError message = true ->
           AddLocationModal.description (stateOf r) = AddLocationModal.quotaNotice) /\
        (quotaError message = false ->
           AddLocationModal.description (stateOf r) = AddLocationModal.noDetailsNotice)) /\
     (analyzePlace n = AddLocationModal.Parsed None ->
        stateOf r = described form AddLocationModal.noDetailsNotice /\
        remoteCalls (traceOf r) = [CallAI n]) /\
     (forall result la ln,
        analyzePlace n = AddLocationModal.Parsed (Some result) ->
        App.usable (App.resultLat result) (App.resultLng result) = Some (la, ln) ->
        AddLocationModal.coordinate (stateOf r) = {| lat := la; lng := ln |} /\
        remoteCalls (traceOf r) = [CallAI n])).
Proof.
  intros r n. subst r n. split; [apply autofill_blank|]. intros Hn.
  destruct (analyzePlace (AddLocationModal.name form)) as [message|[result|]] eqn:H.
  - destruct (quotaError message) eqn:Hq.
    + rewrite (autofill_quota env analyzePlace form Hn message H Hq).
      do 5 (split; [reflexivity|]). split; [now left|]. split; [|split].
      * intros m E. injection E as <-. split; [reflexivity|]. split; [reflexivity|].
        split; [reflexivity|]. intros Hq'. rewrite Hq in Hq'. discriminate.
      * discriminate.
      * intros result la ln E. discriminate E.
    + rewrite (autofill_failed env analyzePlace form Hn message H Hq).
      do 5 (split; [reflexivity|]). split; [now left|]. split; [|split].
      * intros m E. injection E as <-. split; [reflexivity|]. split; [reflexivity|].
        split; [|reflexivity]. intros Hq'. rewrite Hq in Hq'. discriminate.
      * discriminate.
      * intros result la ln E. discriminate E.
  - destruct (usable_cases (App.resultLat result) (App.resultLng result))
      as [Hu | (la & ln & Hu)].
    + rewrite (autofill_geocodes env analyzePlace form Hn result H Hu).
      destruct (performGeocode_calls env (AddLocationModal.name form)
                  (Some (addressToGeocode form result)) (analysed form result))
        as (Hcalls & Hname & Hgeo & _ & _ & Halerts).
      split; [reflexivity|]. split; [reflexivity|]. split; [exact Hgeo|].
      split; [exact Hname|]. split; [exact Halerts|]. split.
      { right.
        exists (AddLocationModal.geocodeQuery (AddLocationModal.name form)
                  (Some (addressToGeocode form result))).
        change (CallAI (AddLocationModal.name form)
                :: remoteCalls (traceOf (AddLocationModal.performGeocode env
                     (AddLocationModal.name form) (Some (addressToGeocode form result))
                     (analysed form result)))
                = [CallAI (AddLocationModal.name form);
                   CallNominatim (AddLocationModal.geocodeQuery (AddLocationModal.name form)
                                    (Some (addressToGeocode form result))) 5]).
        now rewrite Hcalls. }
      split; [|split].
      * intros m E. discriminate E.
      * discriminate.
      * intros result' la ln E Hu'. injection E as <-. rewrite Hu in Hu'. discriminate.
    + rewrite (autofill_located env analyzePlace form Hn result la ln H Hu).
      do 5 (split; [reflexivity|]). split; [now left|]. split; [|split].
      * intros m E. discriminate E.
      * discriminate.
      * intros result' la' ln' E Hu'. injection E as <-. rewrite Hu in Hu'.
        injection Hu' as <- <-. split; reflexivity.
  - rewrite (autofill_nothing env analyzePlace form Hn H).
    do 5 (split; [reflexivity|]). split; [now left|]. split; [|split].
    + intros m E. discriminate E.
    + intros _. split; reflexivity.
    + intros result la ln E. discriminate E.
Qed.

Lemma handleAiAutoFill_settles_witness :
  AddLocationModal.description
    (stateOf (AddLocationModal.handleAiAutoFill Fixtures.offline
                (fun _ => AddLocationModal.Threw (Some "Error 429: quota exhausted"))
                (Fixtures.typedForm "Bunnies")))
  = AddLocationModal.quotaNotice /\
  AddLocationModal.handleAiAutoFill Fixtures.offline
    (fun _ => AddLocationModal.Parsed None) (Fixtures.typedForm "   ")
  = (Ret tt, Fixtures.typedForm "   ", []).
Proof.
  split.
  - destruct (handleAiAutoFill_settles Fixtures.offline
                (fun _ => AddLocationModal.Threw (Some "Error 429: quota exhausted"))
                (Fixtures.typedForm "Bunnies")) as (_ & H).
    destruct H as (_ & _ & _ & _ & _ & _ & Hthrew & _); [vm_compute; discriminate|].
    destruct (Hthrew _ eq_refl) as (_ & _ & Hquota & _).
    apply Hquota. vm_compute. reflexivity.
  - destruct (handleAiAutoFill_settles Fixtures.offline
                (fun _ => AddLocationModal.Parsed None) (Fixtures.typedForm "   "))
      as (Hblank & _).
    apply Hblank. reflexivity.
Defined.

Section AutoFillQuery.

Lemma modal_query_long_address (queryName a : string) :
  a <> "" -> Js.matchDigits6 a = None -> 5 < String.length a ->
  AddLocationModal.geocodeQuery queryName (Some a) = a ++ " Singapore".
Proof.
  intros Hne Hno Hlen. unfold AddLocationModal.geocodeQuery.
  rewrite (truthyStr_true _ Hne), Hno.
  apply Nat.ltb_lt in Hlen. now rewrite Hlen.
Qed.

Lemma name_plus_region (n : string) :
  n ++ " Singapore" <> "" /\ 5 < String.length (n ++ " Singapore").
Proof.
  split.
  - intros E. apply append_eq_empty in E as [_ E]. discriminate.
  - rewrite length_append. cbn. lia.
Qed.

End AutoFillQuery.

(** X19. When auto-fill gets details without usable coordinates it geocodes
    an address, never the bare name: the address of the details when there
    is one, else the typed name followed by " Singapore". The geocoder adds
    the region again, so without an address (and without six digits in the
    name) the directory is asked for the name followed by
    " Singapore Singapore", where the same name coming from the chat is
    asked for with one " Singapore". Because an address is always passed,
    the pin goes to the first entry of the answer, never to a later venue. *)
Theorem autofill_geocodes_address (env : Env)
    (analyzePlace : string -> AddLocationModal.AutoFillReply)
    (form : AddLocationModal.State) (result : Ai.Result) :
  let n := AddLocationModal.name form in
  Js.trim n <> "" ->
  analyzePlace n = AddLocationModal.Parsed (Some result) ->
  App.usable (App.resultLat result) (App.resultLng result) = None ->
  let r := AddLocationModal.handleAiAutoFill env analyzePlace form in
  let q := AddLocationModal.geocodeQuery n (Some (addressToGeocode form result)) in
  remoteCalls (traceOf r) = [CallAI n; CallNominatim q 5] /\
  (Js.truthyText (Ai.address result) = false ->
   Js.matchDigits6 (n ++ " Singapore") = None ->
   q = n ++ " Singapore Singapore" /\
   AddLocationModal.geocodeQuery n None = n ++ " Singapore") /\
  (forall d0 rest,
     nominatimSearch env q 5 = FetchJson (Some (d0 :: rest)) ->
     AddLocationModal.coordinate (stateOf r) = parsedCoordinate env d0) /\
  AddLocationModal.description (stateOf r) = Js.orStr (Ai.description result) "".
Proof.
  intros n Hn H Hu r q. subst r.
  rewrite (autofill_geocodes env analyzePlace form Hn result H Hu).
  fold n. split; [|split; [|split]].
  - destruct (performGeocode_calls env n (Some (addressToGeocode form result))
                (analysed form result)) as (Hcalls & _).
    change (CallAI n :: remoteCalls (traceOf (AddLocationModal.performGeocode env n
              (Some (addressToGeocode form result)) (analysed form result)))
            = [CallAI n; CallNominatim q 5]).
    now rewrite Hcalls.
  - intros Haddr Hno. split; [|reflexivity]. subst q.
    assert (Ha : addressToGeocode form result = n ++ " Singapore").
    { unfold addressToGeocode, Js.orText. fold n.
      destruct (Ai.address result) as [| |a]; try reflexivity.
      cbn in Haddr. now rewrite Haddr. }
    rewrite Ha. destruct (name_plus_region n) as (Hne & Hlen).
    rewrite (modal_query_long_address n _ Hne Hno Hlen).
    now rewrite append_assoc.
  - intros d0 rest Hgeo.
    rewrite (performGeocode_answered env (analysed form result) n
               (Some (addressToGeocode form result)) _ Hgeo).
    assert (Ht : Js.truthyOpt Js.truthyStr (Some (addressToGeocode form result)) = true).
    { cbn. unfold addressToGeocode, Js.orText.
      destruct (Ai.address result) as [| |a].
      - apply truthyStr_true, name_plus_region.
      - apply truthyStr_true, name_plus_region.
      - destruct (Js.truthyStr a) eqn:Ta; [exact Ta|].
        apply truthyStr_true, name_plus_region. }
    unfold AddLocationModal.bestMatch. rewrite Ht. reflexivity.
  - destruct (nominatimSearch env q 5) as [| |data] eqn:Hgeo.
    + rewrite (performGeocode_failed env (analysed form result) n
                 (Some (addressToGeocode form result))) by auto.
      reflexivity.
    + rewrite (performGeocode_failed env (analysed form result) n
                 (Some (addressToGeocode form result))) by auto.
      reflexivity.
    + rewrite (performGeocode_answered env (analysed form result) n
                 (Some (addressToGeocode form result)) data Hgeo).
      destruct (AddLocationModal.bestMatch _ data); reflexivity.
Qed.

Lemma autofill_geocodes_address_witness :
  remoteCalls
    (traceOf (AddLocationModal.handleAiAutoFill Fixtures.offline
                (fun _ => AddLocationModal.Parsed (Some Fixtures.emptyResult))
                (Fixtures.typedForm "Bunnies")))
  = [CallAI "Bunnies"; CallNominatim "Bunnies Singapore Singapore" 5].
Proof.
  destruct (autofill_geocodes_address Fixtures.offline
              (fun _ => AddLocationModal.Parsed (Some Fixtures.emptyResult))
              (Fixtures.typedForm "Bunnies") Fixtures.emptyResult)
    as (Hcalls & Hquery & _).
  - vm_compute. discriminate.
  - reflexivity.
  - reflexivity.
  - destruct Hquery as (Hq & _); [reflexivity | reflexivity |].
    rewrite Hcalls. cbv zeta in Hq. rewrite Hq. reflexivity.
Defined.

(* ================================================================== *)
(** ** From a click on the map to a saved place *)
(* ================================================================== *)

Lemma handleSubmit_run (env : Env) (onClose : M App.State unit)
    (s : App.State) (form : AddLocationModal.State) :
  leavesParentAlone onClose ->
  AddLocationModal.handleSubmit env (App.handleAddLocation env) onClose (s, form)
  = (Ret tt,
     (appended env s (AddLocationModal.submission env form),
      cleared form (AddLocationModal.coordinate form)),
     []).
Proof.
  intros Hclose.
  unfold AddLocationModal.handleSubmit, bind, onSelf, onParent, get.
  cbn [fst snd]. rewrite handleAddLocation_run.
  cbn [fst snd AddLocationModal.setName AddLocationModal.setDescription
       AddLocationModal.setCategory AddLocationModal.setPlaceType modify].
  match goal with
  | |- context [onClose ?w] => rewrite (Hclose w)
  end.
  reflexivity.
Qed.

Lemma submitForm_blocked (env : Env) (onClose : M App.State unit)
    (s : App.State) (form : AddLocationModal.State) :
  AddLocationModal.isGeocoding form = true \/
  AddLocationModal.name form = "" \/ AddLocationModal.description form = "" ->
  AddLocationModal.submitForm env (App.handleAddLocation env) onClose (s, form)
  = (Ret tt, (s, form), []).
Proof.
  intros H. unfold AddLocationModal.submitForm, bind, onSelf, get. cbn [fst snd].
  destruct H as [-> | [-> | ->]]; cbn; rewrite ?orb_true_r; reflexivity.
Qed.

Lemma submitForm_passes (env : Env) (onClose : M App.State unit)
    (s : App.State) (form : AddLocationModal.State) :
  leavesParentAlone onClose ->
  AddLocationModal.isGeocoding form = false ->
  AddLocationModal.name form <> "" -> AddLocationModal.description form <> "" ->
  AddLocationModal.submitForm env (App.handleAddLocation env) onClose (s, form)
  = (Ret tt,
     (appended env s (AddLocationModal.submission env form),
      cleared form (AddLocationModal.coordinate form)),
     []).
Proof.
  intros Hclose Hgeo Hname Hdesc.
  unfold AddLocationModal.submitForm, bind at 1, onSelf at 1, get. cbn [fst snd].
  rewrite Hgeo, (truthyStr_true _ Hname), (truthyStr_true _ Hdesc). cbn [negb orb].
  rewrite (handleSubmit_run env onClose s form Hclose). reflexivity.
Qed.

(** X20. A click on the map opens the form pinned at the clicked
    coordinate and starts the reverse lookup. The description is empty
    then, so the Save button does nothing until one is typed. When the
    lookup answered with a body and the user typed a description, Save
    appends a place at exactly the clicked coordinate, whatever the map
    centre or the previous content of the form, with the non-empty name the
    lookup found and the typed description. When the lookup did not answer
    with a body the name is empty as well, and Save does nothing until the
    user has typed a name too; the place saved then is at the clicked
    coordinate. *)
Theorem map_click_saves_clicked_point (env : Env) (onClose : M App.State unit)
    (s : App.State) (form : AddLocationModal.State) (c currentCenter : Coordinate)
    (d : string) :
  leavesParentAlone onClose ->
  d <> "" ->
  let opened := stateOf (AddLocationModal.openFromMapClick env c currentCenter form) in
  let save f := AddLocationModal.submitForm env (App.handleAddLocation env) onClose (s, f) in
  AddLocationModal.coordinate opened = c /\
  AddLocationModal.description opened = "" /\
  save opened = (Ret tt, (s, opened), []) /\
  (forall body, nominatimReverse env c = FetchJson (Some body) ->
     exists saved,
       App.locations (fst (stateOf (save (withDescription opened d))))
       = (App.locations s ++ [saved])%list /\
       coordinate saved = c /\
       name saved = AddLocationModal.placeName body /\ name saved <> "" /\
       description saved = d /\ category saved = HiddenGem) /\
  ((forall body, nominatimReverse env c <> FetchJson (Some body)) ->
     AddLocationModal.name opened = "" /\
     save (withDescription opened d) = (Ret tt, (s, withDescription opened d), []) /\
     forall n, n <> "" ->
       exists saved,
         App.locations (fst (stateOf (save (withName (withDescription opened d) n))))
         = (App.locations s ++ [saved])%list /\
         coordinate saved = c /\ name saved = n /\ description saved = d).
Proof.
  intros Hclose Hd opened save.
  assert (Hopen :
    (exists body,
       nominatimReverse env c = FetchJson (Some body) /\
       opened = named (prefilled form
                      {| Partial.name := None; Partial.description := None;
                         Partial.category := None; Partial.placeType := None;
                         Partial.coordinate := Some c; Partial.address := None |}
                      currentCenter) body)
    \/ ((forall body, nominatimReverse env c <> FetchJson (Some body)) /\
        opened = settled (prefilled form
                      {| Partial.name := None; Partial.description := None;
                         Partial.category := None; Partial.placeType := None;
                         Partial.coordinate := Some c; Partial.address := None |}
                      currentCenter))).
  { subst opened. unfold AddLocationModal.openFromMapClick. rewrite onOpen_draft.
    cbn [Partial.coordinate Partial.name Js.truthyOpt negb].
    destruct (nominatimReverse env c) as [| |[body|]] eqn:H.
    - right. split; [discriminate|].
      now rewrite (performReverseGeocode_failed env _ c) by auto.
    - right. split; [discriminate|].
      now rewrite (performReverseGeocode_failed env _ c) by auto.
    - left. exists body. split; [reflexivity|].
      now rewrite (performReverseGeocode_answered env _ c (Some body) H).
    - right. split; [discriminate|].
      now rewrite (performReverseGeocode_answered env _ c None H). }
  assert (Hcoord : AddLocationModal.coordinate opened = c).
  { destruct Hopen as [(b & _ & ->) | [_ ->]]; reflexivity. }
  assert (Hdesc : AddLocationModal.description opened = "").
  { destruct Hopen as [(b & _ & ->) | [_ ->]]; reflexivity. }
  assert (Hflag : AddLocationModal.isGeocoding opened = false).
  { destruct Hopen as [(b & _ & ->) | [_ ->]]; reflexivity. }
  split; [exact Hcoord|]. split; [exact Hdesc|]. split.
  { subst save. cbv beta. apply submitForm_blocked. auto. }
  split.
  - intros body Hbody. subst save. cbv beta.
    assert (Hname : AddLocationModal.name opened = AddLocationModal.placeName body).
    { destruct Hopen as [(b & Hb & ->) | [Hno _]]; [|now destruct (Hno body)].
      rewrite Hbody in Hb. now injection Hb as <-. }
    assert (Hne : AddLocationModal.placeName body <> "").
    { unfold AddLocationModal.placeName. apply orStr_truthy. discriminate. }
    rewrite (submitForm_passes env onClose s (withDescription opened d) Hclose).
    + eexists. split; [reflexivity|]. cbn.
      rewrite Hcoord, Hname. repeat split; try assumption.
      destruct Hopen as [(b & _ & ->) | [_ ->]]; reflexivity.
    + exact Hflag.
    + cbn. now rewrite Hname.
    + exact Hd.
  - intros Hno.
    assert (Hname : AddLocationModal.name opened = "").
    { destruct Hopen as [(b & Hb & _) | [_ ->]]; [|reflexivity].
      now destruct (Hno b). }
    split; [exact Hname|]. split.
    + subst save. cbv beta. apply submitForm_blocked. right. left. exact Hname.
    + intros n Hn. subst save. cbv beta.
      rewrite (submitForm_passes env onClose s _ Hclose).
      * eexists. split; [reflexivity|]. cbn. rewrite Hcoord. repeat split.
      * exact Hflag.
      * exact Hn.
      * exact Hd.
Qed.

Lemma map_click_saves_clicked_point_witness :
  let click := {| lat := 1.2868%float; lng := 103.849%float |} in
  let world := Fixtures.reverseWorld "cafe" in
  let opened := stateOf (AddLocationModal.openFromMapClick world
                           click Fixtures.INITIAL_CENTER Fixtures.blankForm) in
  let save f := AddLocationModal.submitForm world (App.handleAddLocation world) (ret tt)
                  (Fixtures.initial "", f) in
  save opened = (Ret tt, (Fixtures.initial "", opened), []) /\
  exists saved,
    App.locations (fst (stateOf (save (withDescription opened "Quiet corner."))))
    = (Fixtures.MOCK_LOCATIONS ++ [saved])%list /\
    coordinate saved = click /\ name saved = "cafe" /\
    description saved = "Quiet corner.".
Proof.
  cbv zeta.
  destruct (map_click_saves_clicked_point (Fixtures.reverseWorld "cafe") (ret tt)
              (Fixtures.initial "") Fixtures.blankForm
              {| lat := 1.2868%float; lng := 103.849%float |} Fixtures.INITIAL_CENTER
              "Quiet corner.")
    as (_ & _ & Hblocked & Hfound & _).
  - intros w. reflexivity.
  - discriminate.
  - split; [exact Hblocked|].
    destruct (Hfound (Fixtures.tagged "cafe") eq_refl)
      as (saved & Hloc & Hc & Hname & _ & Hdesc & _).
    exists saved. split; [exact Hloc|]. split; [exact Hc|].
    split; [rewrite Hname; reflexivity | exact Hdesc].
Defined.

(* ================================================================== *)
(** ** The search bar: fetching suggestions *)
(* ================================================================== *)

Section Suggestions.

Variable autocomplete : string -> Fetched (list Nominatim.SearchSuggestion).
Variable bar : SearchBar.State.

Ltac run_fetch :=
  unfold SearchBar.fetchSuggestions, tryCatchFinally, bind, emit, throw, ret,
    SearchBar.setSuggestions, SearchBar.setLoading, SearchBar.setShowSuggestions, modify.

Lemma long_query (query : string) :
  3 <= String.length query ->
  negb (Js.truthyStr query) || Nat.ltb (String.length query) 3 = false.
Proof.
  intros H. assert (Hne : query <> "") by (intros ->; cbn in H; lia).
  rewrite (truthyStr_true _ Hne). cbn [negb orb]. apply Nat.ltb_ge. exact H.
Qed.

Lemma short_query (query : string) :
  String.length query < 3 ->
  negb (Js.truthyStr query) || Nat.ltb (String.length query) 3 = true.
Proof.
  intros H. apply Nat.ltb_lt in H. rewrite H. apply orb_true_r.
Qed.

End Suggestions.

(** X21. Fetching suggestions is gated by the length of the text, not by its
    content: below three code units the suggestion list is emptied and
    nothing is called; from three on exactly one directory call is made, for
    the text as typed and limit 5. An answer replaces the list and opens the
    dropdown; a failed call is logged and leaves list and dropdown as they
    were. The loading flag is down after every call, and no alert is ever
    shown. *)
Theorem fetchSuggestions_gate
    (autocomplete : string -> Fetched (list Nominatim.SearchSuggestion))
    (query : string) (bar : SearchBar.State) :
  let r := SearchBar.fetchSuggestions autocomplete query bar in
  outcomeOf r = Ret tt /\ alerts (traceOf r) = [] /\
  (String.length query < 3 ->
     traceOf r = [] /\
     SearchBar.suggestions (stateOf r) = [] /\
     SearchBar.loading (stateOf r) = SearchBar.loading bar /\
     SearchBar.showSuggestions (stateOf r) = SearchBar.showSuggestions bar) /\
  (3 <= String.length query ->
     remoteCalls (traceOf r) = [CallNominatim query 5] /\
     SearchBar.loading (stateOf r) = false /\
     (forall data, autocomplete query = FetchJson data ->
        SearchBar.suggestions (stateOf r) = data /\
        SearchBar.showSuggestions (stateOf r) = true /\
        consoleErrors (traceOf r) = []) /\
     (autocomplete query = FetchRejected \/ autocomplete query = FetchNotJson ->
        SearchBar.suggestions (stateOf r) = SearchBar.suggestions bar /\
        SearchBar.showSuggestions (stateOf r) = SearchBar.showSuggestions bar /\
        consoleErrors (traceOf r) = ["Error fetching suggestions:"])).
Proof.
  intros r. subst r.
  destruct (Nat.lt_ge_cases (String.length query) 3) as [Hshort | Hlong].
  - unfold SearchBar.fetchSuggestions. rewrite (short_query query Hshort).
    split; [reflexivity|]. split; [reflexivity|]. split.
    + intros _. repeat split.
    + intros H. lia.
  - unfold SearchBar.fetchSuggestions. rewrite (long_query query Hlong).
    unfold tryCatchFinally, bind, emit, throw, ret, SearchBar.setSuggestions,
      SearchBar.setLoading, SearchBar.setShowSuggestions, modify.
    destruct (autocomplete query) as [| |data] eqn:H;
      (split; [reflexivity|]); (split; [reflexivity|]);
      (split; [intros Hs; lia|]); intros _;
      (split; [reflexivity|]); (split; [reflexivity|]); split.
    + intros data E. discriminate E.
    + intros _. repeat split.
    + intros data E. discriminate E.
    + intros _. repeat split.
    + intros data' E. injection E as <-. repeat split.
    + intros [E | E]; discriminate E.
Qed.

Lemma fetchSuggestions_gate_witness :
  traceOf (SearchBar.fetchSuggestions (fun _ => FetchJson [Fixtures.taggedSuggestion "pub"]) "mo"
             {| SearchBar.suggestions := [Fixtures.taggedSuggestion "pub"];
                SearchBar.loading := false; SearchBar.showSuggestions := true |}) = [] /\
  remoteCalls
    (traceOf (SearchBar.fetchSuggestions (fun _ => FetchJson [Fixtures.taggedSuggestion "pub"])
                "   "
                {| SearchBar.suggestions := []; SearchBar.loading := false;
                   SearchBar.showSuggestions := false |}))
  = [CallNominatim "   " 5].
Proof.
  split.
  - destruct (fetchSuggestions_gate (fun _ => FetchJson [Fixtures.taggedSuggestion "pub"]) "mo"
                {| SearchBar.suggestions := [Fixtures.taggedSuggestion "pub"];
                   SearchBar.loading := false; SearchBar.showSuggestions := true |})
      as (_ & _ & Hshort & _).
    destruct Hshort as (Ht & _); [cbn; lia | exact Ht].
  - destruct (fetchSuggestions_gate (fun _ => FetchJson [Fixtures.taggedSuggestion "pub"]) "   "
                {| SearchBar.suggestions := []; SearchBar.loading := false;
                   SearchBar.showSuggestions := false |})
      as (_ & _ & _ & Hlong).
    destruct Hlong as (Hcalls & _); [cbn; lia | exact Hcalls].
Defined.

(* ================================================================== *)
(** ** The list view: reordering and filter chips *)
(* ================================================================== *)

Section ListViewFacts.

Lemma partition_permutation {A} (f : A -> bool) (l : list A) :
  Permutation (filter f l ++ filter (fun x => negb (f x)) l)%list l.
Proof.
  induction l as [|a l IH]; simpl; [constructor|].
  destruct (f a); simpl.
  - now constructor.
  - apply Permutation_sym, Permutation_cons_app, Permutation_sym. exact IH.
Qed.

Lemma filter_none {A} (f : A -> bool) (l : list A) :
  (forall x, In x l -> f x = false) -> filter f l = [].
Proof.
  induction l as [|a l IH]; intros H; simpl; [reflexivity|].
  rewrite (H a (or_introl eq_refl)). apply IH. intros x Hx. apply H. now right.
Qed.

Lemma visited_are_visited (l : list Location) (x : Location) :
  In x (ListView.visited l) -> App.notVisited x = false.
Proof.
  unfold ListView.visited. intros H. apply filter_In in H as [_ H].
  now apply negb_true_iff in H.
Qed.

Lemma toVisit_are_unvisited (l : list Location) (x : Location) :
  In x (ListView.toVisit l) -> App.notVisited x = true.
Proof. unfold ListView.toVisit. intros H. now apply filter_In in H as [_ H]. Qed.

Lemma sameType_eq (a b : PlaceType) : ListView.sameType a b = true <-> a = b.
Proof. destruct a, b; cbn; split; congruence. Qed.

Lemma sameCategory_eq (a b : Category) : ListView.sameCategory a b = true <-> a = b.
Proof. destruct a, b; cbn; split; congruence. Qed.

Lemma toggleIn_member {A} (eqb : A -> A -> bool) (x y : A) (l : list A) :
  (forall a b, eqb a b = true <-> a = b) ->
  (In y (ListView.toggleIn eqb x l) <->
   (y = x /\ ~ In x l) \/ (y <> x /\ In y l)).
Proof.
  intros Heq. unfold ListView.toggleIn.
  destruct (existsb (eqb x) l) eqn:E.
  - apply existsb_exists in E as (z & Hz & Hxz). apply Heq in Hxz. subst z.
    rewrite filter_In, negb_true_iff. split.
    + intros [Hy Hne]. right. split; [|assumption].
      intros ->. assert (Ht : eqb x x = true) by now apply Heq. congruence.
    + intros [[-> Hno] | [Hne Hy]]; [contradiction|]. split; [assumption|].
      destruct (eqb y x) eqn:Eyx; [|reflexivity]. apply Heq in Eyx. contradiction.
  - assert (Hno : ~ In x l).
    { intros Hin. rewrite existsb_false_forall in E. specialize (E x Hin).
      assert (Ht : eqb x x = true) by now apply Heq. congruence. }
    rewrite in_app_iff. cbn. split.
    + intros [Hy | [<- | []]]; [|now left].
      right. split; [|assumption]. intros ->. contradiction.
    + intros [[-> _] | [_ Hy]]; [right; now left | now left].
Qed.

Lemma toggleIn_nodup {A} (eqb : A -> A -> bool) (x : A) (l : list A) :
  (forall a b, eqb a b = true <-> a = b) ->
  NoDup l -> NoDup (ListView.toggleIn eqb x l).
Proof.
  intros Heq Hnd. unfold ListView.toggleIn.
  destruct (existsb (eqb x) l) eqn:E.
  - now apply NoDup_filter.
  - assert (Hno : ~ In x l).
    { intros Hin. rewrite existsb_false_forall in E. specialize (E x Hin).
      assert (Ht : eqb x x = true) by now apply Heq. congruence. }
    apply (Permutation_NoDup (l := x :: l)).
    + apply Permutation_cons_append.
    + now constructor.
Qed.

End ListViewFacts.

(** X22. Dragging rows in the list view never loses or duplicates a place:
    with no filter chip active and the rows handed back in any order, the
    Saved Set becomes those rows followed by the visited places in their
    old order, which is a rearrangement of the old Saved Set; the unvisited
    and the visited groups the view shows next are the dragged order and the
    old visited group. With a chip active the drag is ignored whatever the
    callback. *)
Theorem reorder_keeps_places (s : App.State) (view : ListView.State)
    (newOrder : list Location) :
  let r := ListView.handleReorder App.handleReorder (App.locations s) newOrder (s, view) in
  (ListView.isFiltered view = true -> r = (Ret tt, (s, view), [])) /\
  (ListView.isFiltered view = false ->
     r = (Ret tt, (reordered s (newOrder ++ ListView.visited (App.locations s))%list, view), []) /\
     (Permutation newOrder (ListView.toVisit (App.locations s)) ->
        Permutation (App.locations (fst (stateOf r))) (App.locations s) /\
        ListView.toVisit (App.locations (fst (stateOf r))) = newOrder /\
        ListView.visited (App.locations (fst (stateOf r)))
        = ListView.visited (App.locations s))).
Proof.
  intros r. subst r. unfold ListView.handleReorder, bind, onSelf, onParent, get.
  cbn [fst snd]. split.
  - intros H. now rewrite H.
  - intros H. rewrite H. cbn [negb]. split; [reflexivity|].
    intros Hperm. cbn.
    assert (Hun : forall x, In x newOrder -> App.notVisited x = true).
    { intros x Hx. apply (toVisit_are_unvisited (App.locations s)).
      now apply (Permutation_in _ Hperm). }
    split; [|split].
    + transitivity (ListView.toVisit (App.locations s) ++ ListView.visited (App.locations s))%list.
      * now apply Permutation_app_tail.
      * apply partition_permutation.
    + unfold ListView.toVisit. rewrite filter_app, (filter_all _ _ Hun).
      rewrite filter_none; [apply app_nil_r|].
      apply visited_are_visited.
    + unfold ListView.visited at 1. rewrite filter_app.
      rewrite filter_none.
      * cbn. apply filter_all. intros x Hx. apply negb_true_iff.
        now apply (visited_are_visited (App.locations s)).
      * intros x Hx. apply negb_false_iff. now apply Hun.
Qed.

Lemma reorder_keeps_places_witness :
  let view := {| ListView.activeTypes := []; ListView.activeCategories := [] |} in
  let r := ListView.handleReorder App.handleReorder Fixtures.MOCK_LOCATIONS
             (rev (ListView.toVisit Fixtures.MOCK_LOCATIONS)) (Fixtures.initial "", view) in
  map id (App.locations (fst (stateOf r))) = ["4"; "3"; "1"; "2"; "5"] /\
  Permutation (App.locations (fst (stateOf r))) Fixtures.MOCK_LOCATIONS.
Proof.
  cbv zeta.
  destruct (reorder_keeps_places (Fixtures.initial "")
              {| ListView.activeTypes := []; ListView.activeCategories := [] |}
              (rev (ListView.toVisit Fixtures.MOCK_LOCATIONS))) as (_ & H).
  destruct (H eq_refl) as (Hrun & Hperm).
  split.
  - cbv zeta in Hrun. cbn [App.locations Fixtures.initial] in Hrun.
    rewrite Hrun. reflexivity.
  - apply Hperm. apply Permutation_sym, Permutation_rev.
Defined.

(** X23. A filter chip toggles membership of its value and of nothing else:
    after a tap the active list has the value exactly when it lacked it
    before, every other value is as before, and a list without repetitions
    stays without repetitions. The rows offered for dragging are unvisited
    places only; with no chip active they are all the unvisited places, and
    with type chips active every row has one of the active types. *)
Theorem filter_chips (type : PlaceType) (view : ListView.State) (locations : list Location) :
  let tapped := stateOf (ListView.toggleType type view) in
  (forall t, In t (ListView.activeTypes tapped) <->
             (t = type /\ ~ In type (ListView.activeTypes view)) \/
             (t <> type /\ In t (ListView.activeTypes view))) /\
  ListView.activeCategories tapped = ListView.activeCategories view /\
  (NoDup (ListView.activeTypes view) -> NoDup (ListView.activeTypes tapped)) /\
  (forall l, In l (ListView.displayToVisit view locations) ->
             In l locations /\ App.notVisited l = true) /\
  (ListView.isFiltered view = false ->
     ListView.displayToVisit view locations = ListView.toVisit locations) /\
  (ListView.activeTypes view <> [] ->
     forall l, In l (ListView.displayToVisit view locations) ->
               In (placeType l) (ListView.activeTypes view)).
Proof.
  cbv zeta. cbn [stateOf ListView.toggleType modify fst snd ListView.activeTypes
                 ListView.activeCategories].
  split; [|split; [reflexivity|split; [|split; [|split]]]].
  - intros t. apply toggleIn_member. apply sameType_eq.
  - apply toggleIn_nodup. apply sameType_eq.
  - intros l Hl. unfold ListView.displayToVisit in Hl. apply filter_In in Hl as [Hl _].
    split; [|now apply (toVisit_are_unvisited locations)].
    unfold ListView.toVisit in Hl. now apply filter_In in Hl as [Hl _].
  - intros H. unfold ListView.displayToVisit. apply filter_all. intros l _.
    unfold ListView.isFiltered in H. apply orb_false_iff in H as [Ht Hc].
    unfold ListView.shown. now rewrite Ht, Hc.
  - intros Hne l Hl. unfold ListView.displayToVisit in Hl. apply filter_In in Hl as [_ Hs].
    unfold ListView.shown in Hs.
    assert (Hlen : Nat.ltb 0 (List.length (ListView.activeTypes view)) = true).
    { destruct (ListView.activeTypes view); [contradiction | reflexivity]. }
    rewrite Hlen in Hs. cbn [andb] in Hs.
    destruct (existsb (ListView.sameType (placeType l)) (ListView.activeTypes view)) eqn:E;
      [|discriminate].
    apply existsb_exists in E as (t & Ht & Heq). apply sameType_eq in Heq. now subst t.
Qed.

Lemma filter_chips_witness :
  NoDup (ListView.activeTypes
           (stateOf (ListView.toggleType Cafe
              {| ListView.activeTypes := [Cafe; Bar]; ListView.activeCategories := [] |}))) /\
  forall l,
    In l (ListView.displayToVisit
            {| ListView.activeTypes := [Cafe; Bar]; ListView.activeCategories := [] |}
            Fixtures.MOCK_LOCATIONS) ->
    In (placeType l) [Cafe; Bar].
Proof.
  destruct (filter_chips Cafe
              {| ListView.activeTypes := [Cafe; Bar]; ListView.activeCategories := [] |}
              Fixtures.MOCK_LOCATIONS) as (_ & _ & Hnd & _ & _ & Hrows).
  split.
  - apply Hnd. repeat constructor; simpl; intuition discriminate.
  - apply Hrows. discriminate.
Defined.

Lemma handleAddSearchResult_promotes_witness :
  let r := App.handleAddSearchResult Fixtures.offline
             (App.elementLocation (Fixtures.node 12 "merlion park" None))
             Fixtures.afterEarlierSearch in
  exists saved,
    App.locations (stateOf r) = (Fixtures.MOCK_LOCATIONS ++ [saved])%list /\
    name saved = "merlion park" /\
    ~ In (App.elementLocation (Fixtures.node 12 "merlion park" None))
         (App.suggestedLocations (stateOf r)).
Proof.
  cbv zeta.
  destruct (handleAddSearchResult_promotes Fixtures.offline
              (App.elementLocation (Fixtures.node 12 "merlion park" None))
              Fixtures.afterEarlierSearch)
    as (saved & Hloc & _ & Hname & _ & _ & _ & _ & _ & _ & _ & _ & _ & _ & Hgone & _).
  exists saved. split; [exact Hloc|]. split; [exact Hname | exact Hgone].
Defined.

(* ================================================================== *)
(** ** The search bar: clearing and submitting *)
(* ================================================================== *)

(** X24. Clearing the search bar empties the search text and the suggestion
    list and closes the dropdown, and leaves the Saved Set, the selection
    and the temporary result alone. The map then shows every saved place
    again, and pressing Enter with the cleared text does nothing: no call,
    no alert, no change. *)
Theorem clear_then_enter (env : Env) (s : App.State) (bar : SearchBar.State) :
  let c := SearchBar.handleClear App.setSearchQuery (s, bar) in
  let app := fst (stateOf c) in
  outcomeOf c = Ret tt /\ traceOf c = [] /\
  App.searchQuery app = "" /\
  SearchBar.suggestions (snd (stateOf c)) = [] /\
  SearchBar.showSuggestions (snd (stateOf c)) = false /\
  App.locations app = App.locations s /\
  App.selectedLocationId app = App.selectedLocationId s /\
  App.searchResult app = App.searchResult s /\
  App.filteredLocations app = App.locations s /\
  SearchBar.handleSubmit (App.handleGlobalSearch env) (stateOf c) = (Ret tt, stateOf c, []).
Proof.
  cbv zeta. repeat (split; [reflexivity|]). reflexivity.
Qed.
